(** * School ERP backend: authentication, token ledger and tenant scope

    A shallow embedding of
    - [src/utils/httpErrors.js], [src/utils/schoolScope.js],
    - [src/middlewares/auth.js], [src/middlewares/errorHandler.js],
    - [src/modules/auth/auth.handlers.js],
    together with the part of the Prisma client and of the relational schema
    ([prisma/migrations/.../migration.sql]) that these handlers touch.

    JavaScript values are a small untyped datatype, the database is a record of
    row lists with the primary-key / unique-index checks written out, and the
    third-party libraries (jsonwebtoken, bcryptjs, crypto, zod's e-mail test,
    the mailer service) are an interface the handlers are parametrised by. *)

From Stdlib Require Import ZArith List String Ascii Bool Lia.
From Stdlib Require Import DecimalString.
Import ListNotations.

Set Warnings "-register-all".
Local Open Scope string_scope.
Local Open Scope Z_scope.

(** ** JavaScript values *)

Inductive jsval : Type :=
| JUndefined
| JNull
| JBool (b : bool)
| JNum (n : Z)
| JStr (s : string)
| JObj (fields : list (string * jsval)).

(** [ToBoolean]: what [if (v)], [!v], [a || b] and [a && b] look at. *)
Definition truthy (v : jsval) : bool :=
  match v with
  | JUndefined | JNull => false
  | JBool b => b
  | JNum n => negb (n =? 0)
  | JStr s => negb (s =? "")%string
  | JObj _ => true
  end.

Fixpoint assoc (k : string) (fs : list (string * jsval)) : jsval :=
  match fs with
  | [] => JUndefined
  | (k', v) :: fs' => if (k =? k')%string then v else assoc k fs'
  end.

(** [v?.k]: property read; anything that is not an object has no own
    property of the names used here. *)
Definition get (k : string) (v : jsval) : jsval :=
  match v with
  | JObj fs => assoc k fs
  | _ => JUndefined
  end.

(** [a === b] on primitives.  Two object operands are equal only when they
    are the same reference, which never happens between a decoded token and
    a request parameter, so objects compare unequal. *)
Definition strict_eq (a b : jsval) : bool :=
  match a, b with
  | JUndefined, JUndefined => true
  | JNull, JNull => true
  | JBool x, JBool y => Bool.eqb x y
  | JNum x, JNum y => x =? y
  | JStr x, JStr y => (x =? y)%string
  | _, _ => false
  end.

(** [typeof v === "string"] *)
Definition typeof_string (v : jsval) : bool :=
  match v with JStr _ => true | _ => false end.

(** [typeof v === "object"] (true of [null] as well). *)
Definition typeof_object (v : jsval) : bool :=
  match v with JObj _ | JNull => true | _ => false end.

(** [a || b] *)
Definition js_or (a b : jsval) : jsval := if truthy a then a else b.

Definition opt_js (o : option string) : jsval :=
  match o with Some s => JStr s | None => JNull end.

(** ** HTTP errors ([src/utils/httpErrors.js]) *)

Module HttpErrors.

Record HttpError : Type := mkHttpError
  { statusCode : Z; message : string; errorCode : string }.

Definition default (d : string) (o : option string) : string :=
  match o with Some s => s | None => d end.

Definition createHttpError (statusCode : Z) (message : string)
           (errorCode : option string) : HttpError :=
  mkHttpError statusCode message (default "REQUEST_ERROR" errorCode).

Definition badRequest (message : string) (code : option string) : HttpError :=
  createHttpError 400 message (Some (default "BAD_REQUEST" code)).

Definition unauthorized (message : option string) : HttpError :=
  createHttpError 401 (default "Unauthorized" message) (Some "UNAUTHORIZED").

Definition forbidden (message : option string) : HttpError :=
  createHttpError 403 (default "Forbidden" message) (Some "FORBIDDEN").

Definition notFound (message code : option string) : HttpError :=
  createHttpError 404 (default "Not found" message)
                  (Some (default "NOT_FOUND" code)).

Definition conflict (message code : option string) : HttpError :=
  createHttpError 409 (default "Conflict" message)
                  (Some (default "CONFLICT" code)).

End HttpErrors.
Import HttpErrors.

(** ** Exceptions and responses *)

(** What a handler can throw: a zod validation error, one of the typed HTTP
    errors above, a Prisma client error with its code, or a plain [Error]. *)
Inductive Thrown : Type :=
| ZodError (firstIssue : option string)
| HttpErr (e : HttpError)
| PrismaError (code : string)
| PlainError (msg : string).

Inductive result (A : Type) : Type :=
| Ok (a : A)
| Throw (e : Thrown).
Arguments Ok {A} a.
Arguments Throw {A} e.

Definition bind {A B} (r : result A) (k : A -> result B) : result B :=
  match r with Ok a => k a | Throw e => Throw e end.

Record Response : Type := mkResponse { status : Z; json : jsval }.

Definition failure (st : Z) (code message : string) : Response :=
  mkResponse st
    (JObj [("success", JBool false);
           ("error", JObj [("code", JStr code); ("message", JStr message)])]).

Definition success (st : Z) (data : jsval) : Response :=
  mkResponse st (JObj [("success", JBool true); ("data", data)]).

(** [src/middlewares/errorHandler.js] *)
Definition errorHandler (error : Thrown) : Response :=
  match error with
  | ZodError issue =>
      failure 400 "VALIDATION_ERROR"
              (match issue with
               | Some m => if (m =? "")%string then "Validation failed" else m
               | None => "Validation failed"
               end)
  | HttpErr e =>
      if negb (statusCode e =? 0) then
        failure (statusCode e)
                (if (errorCode e =? "")%string then "REQUEST_ERROR" else errorCode e)
                (if (message e =? "")%string then "Request failed" else message e)
      else failure 500 "INTERNAL_SERVER_ERROR" "Something went wrong"
  | PrismaError code =>
      if (code =? "P2002")%string
      then failure 409 "DUPLICATE_VALUE" "Unique value already exists"
      else failure 500 "INTERNAL_SERVER_ERROR" "Something went wrong"
  | PlainError _ =>
      failure 500 "INTERNAL_SERVER_ERROR" "Something went wrong"
  end.

(** ** Tenant scope ([src/utils/schoolScope.js]) *)

Module SchoolScope.

(** Only [req.user] is read: the decoded access token the authenticator
    attached, or [undefined]. *)
Record Request : Type := mkRequest { user : jsval }.

Record Options : Type := mkOptions { requireForSuperadmin_opt : option bool }.

Definition isSuperadmin (req : Request) : bool :=
  strict_eq (get "role" (user req)) (JStr "SUPERADMIN").

Definition resolveSchoolId (req : Request) (schoolIdInput : jsval)
           (options : Options) : result jsval :=
  let requireForSuperadmin :=
    match requireForSuperadmin_opt options with
    | Some b => b
    | None => false
    end in
  if isSuperadmin req then
    let schoolId := js_or schoolIdInput JNull in
    if requireForSuperadmin && negb (truthy schoolId) then
      Throw (HttpErr (badRequest "schoolId is required for SUPERADMIN"
                                 (Some "SCHOOL_CONTEXT_REQUIRED")))
    else Ok schoolId
  else if negb (truthy (get "schoolId" (user req))) then
    Throw (HttpErr (forbidden (Some "School context is missing for current user")))
  else if truthy schoolIdInput
          && negb (strict_eq schoolIdInput (get "schoolId" (user req))) then
    Throw (HttpErr (forbidden (Some "Cannot access another school's data")))
  else Ok (get "schoolId" (user req)).

End SchoolScope.

(** ** Configuration and library interface *)

(** [src/config/env.js], the options the authentication core reads. *)
Record Env : Type := mkEnv
  { NODE_ENV : string;
    JWT_ACCESS_SECRET : string;
    JWT_REFRESH_SECRET : string;
    PASSWORD_RESET_SECRET : option string;
    ACCESS_TOKEN_EXPIRES_IN : string;
    REFRESH_TOKEN_EXPIRES_IN : string;
    PASSWORD_RESET_TOKEN_EXPIRES_IN : string;
    PASSWORD_RESET_OTP_EXPIRES_MINUTES : Z }.

(** [jwt.verify] either returns the decoded payload or throws an error whose
    [name] is ["TokenExpiredError"], ["JsonWebTokenError"], ... *)
Inductive VerifyResult : Type :=
| Verified (payload : jsval)
| VerifyError (name : string).

Inductive ZodIssue : Type :=
| ZRequired | ZInvalidType | ZTooSmall (min : Z) | ZInvalidEmail | ZInvalidRegex.

(** The npm packages and the mailer service the handlers call.  Time is
    milliseconds since the epoch; [jwt_verify] and [jwt_sign] read the clock,
    which is their last argument. *)
Class Deps : Type := mkDeps
  { env : Env;
    jwt_sign : jsval -> string -> string -> Z -> string;
    jwt_verify : string -> string -> Z -> VerifyResult;
    jwt_decode : string -> jsval;
    sha256_hex : string -> string;
    bcrypt_hash : string -> string -> string;
    bcrypt_compare : string -> string -> bool;
    zod_isEmail : string -> bool;
    zod_message : ZodIssue -> string;
    toISOString : Z -> string;
    isMailerConfigured : bool;
    sendPasswordResetOtpEmail : string -> string -> Z -> result unit }.

(** ** String helpers standing for the JavaScript built-ins used

    A JavaScript string is a sequence of 16-bit code units.  The strings of
    this development are those whose code units are all below 256, one
    [ascii] per code unit: the range of a header value as Node delivers it
    (header bytes are decoded as latin1).  The character classes below are
    the JavaScript ones cut down to that range. *)

Definition ascii_between (lo hi : nat) (c : ascii) : bool :=
  ((lo <=? nat_of_ascii c) && (nat_of_ascii c <=? hi))%nat.

(** [A-Z], [a-z] and [0-9] of the regular expressions. *)
Definition isUpper : ascii -> bool := ascii_between 65 90.
Definition isLower : ascii -> bool := ascii_between 97 122.
Definition isDigit : ascii -> bool := ascii_between 48 57.

(** The white space of [String.prototype.trim] and of the class written
    backslash-s in a regular expression: tab, line feed, vertical tab, form
    feed, carriage return, space and the no-break space U+00A0 (the others,
    U+1680, U+2000 to U+200A, U+2028, U+2029, U+202F, U+205F, U+3000 and
    U+FEFF, lie above 255). *)
Definition isSpace (c : ascii) : bool :=
  ascii_between 9 13 c || (nat_of_ascii c =? 32)%nat
  || (nat_of_ascii c =? 160)%nat.

Fixpoint string_exists (p : ascii -> bool) (s : string) : bool :=
  match s with
  | EmptyString => false
  | String c r => p c || string_exists p r
  end.

Fixpoint string_forall (p : ascii -> bool) (s : string) : bool :=
  match s with
  | EmptyString => true
  | String c r => p c && string_forall p r
  end.

(** The letters with a lower-case form among the code units below 256: A to
    Z, and U+00C0 to U+00DE without the multiplication sign U+00D7; the
    lower-case form lies 32 above. *)
Definition hasLowerCase (c : ascii) : bool :=
  isUpper c || ascii_between 192 214 c || ascii_between 216 222 c.

Definition lower_ascii (c : ascii) : ascii :=
  if hasLowerCase c then ascii_of_nat (nat_of_ascii c + 32) else c.

(** [String.prototype.toLowerCase]. *)
Fixpoint toLowerCase (s : string) : string :=
  match s with
  | EmptyString => EmptyString
  | String c r => String (lower_ascii c) (toLowerCase r)
  end.

(** Removing the leading, respectively trailing, run of characters
    satisfying [p]. *)
Fixpoint dropStart (p : ascii -> bool) (s : string) : string :=
  match s with
  | String c r => if p c then dropStart p r else s
  | EmptyString => EmptyString
  end.

Fixpoint dropEnd (p : ascii -> bool) (s : string) : string :=
  match s with
  | EmptyString => EmptyString
  | String c r =>
      match dropEnd p r with
      | EmptyString => if p c then EmptyString else String c EmptyString
      | r' => String c r'
      end
  end.

(** [String.prototype.trim]. *)
Definition trim (s : string) : string := dropEnd isSpace (dropStart isSpace s).

(** [Number.prototype.toString] of a non-negative integer. *)
Definition toString (n : Z) : string :=
  NilZero.string_of_uint (N.to_uint (Z.to_N n)).

(** [JSON.stringify] as [res.json] applies it: properties whose value is
    [undefined] are not sent. *)
Fixpoint stringify (v : jsval) : jsval :=
  match v with
  | JObj fs =>
      JObj ((fix props (fs : list (string * jsval)) : list (string * jsval) :=
               match fs with
               | [] => []
               | (_, JUndefined) :: rest => props rest
               | (k, x) :: rest => (k, stringify x) :: props rest
               end) fs)
  | _ => v
  end.

(** The body as it goes over the wire. *)
Definition wire (r : Response) : jsval := stringify (json r).

(** The property names of an object, in order. *)
Definition keys (v : jsval) : list string :=
  match v with
  | JObj fs => map fst fs
  | _ => []
  end.

(** ** Authenticator ([src/middlewares/auth.js]) *)

Module AuthMiddleware.

(** The headers and the cookie [extractAccessToken] looks at; each is a
    string or [undefined]. *)
Record Request : Type := mkRequest
  { authorization : jsval;
    x_access_token : jsval;
    auth_token : jsval;
    token : jsval;
    auothorization : jsval;
    cookie_accessToken : jsval }.

Definition isQuote (c : ascii) : bool :=
  (nat_of_ascii c =? 39)%nat || (nat_of_ascii c =? 34)%nat.

(** [/^Bearer\s+/i.test(token)] *)
Definition hasBearerPrefix (token : string) : bool :=
  (toLowerCase (substring 0 6 token) =? "bearer")%string
  && match String.get 6 token with
     | Some c => isSpace c
     | None => false
     end.

(** [token.replace(/^Bearer\s+/i, "").trim()] on a token with the prefix. *)
Definition dropBearerPrefix (token : string) : string :=
  trim (dropStart isSpace (substring 6 (String.length token - 6) token)).

Definition parseTokenValue (value : jsval) : option string :=
  match value with
  | JStr value =>
      if (trim value =? "")%string then None
      else
        let token := trim value in
        let token := if hasBearerPrefix token then dropBearerPrefix token
                     else token in
        (* Tolerate copied tokens wrapped in quotes. *)
        let token := trim (dropEnd isQuote (dropStart isQuote token)) in
        (* Some clients accidentally send "Bearer Bearer <token>". *)
        let token := if hasBearerPrefix token then dropBearerPrefix token
                     else token in
        if (token =? "")%string then None
        else if (token =? "undefined")%string || (token =? "null")%string then None
        else Some token
  | _ => None
  end.

Fixpoint firstParsed (candidates : list jsval) : option string :=
  match candidates with
  | [] => None
  | candidate :: rest =>
      match parseTokenValue candidate with
      | Some parsed => if (parsed =? "")%string then firstParsed rest
                       else Some parsed
      | None => firstParsed rest
      end
  end.

Definition extractAccessToken (req : Request) : option string :=
  let headerCandidates :=
    [authorization req; x_access_token req; auth_token req; token req;
     auothorization req (* tolerate common typo from clients *)] in
  match firstParsed headerCandidates with
  | Some parsed => Some parsed
  | None =>
      match cookie_accessToken req with
      | JStr cookieToken =>
          if (trim cookieToken =? "")%string then None
          else Some (trim cookieToken)
      | _ => None
      end
  end.

Section Auth.
Context {D : Deps}.

Inductive Outcome : Type :=
| Respond (r : Response)
| Next (user : jsval).

(** The [console.warn] lines are not part of the response and are left
    out. *)
Definition auth (req : Request) (now : Z) : Outcome :=
  match extractAccessToken req with
  | None => Respond (failure 401 "UNAUTHORIZED" "Missing access token")
  | Some token =>
    if (token =? "")%string then
      Respond (failure 401 "UNAUTHORIZED" "Missing access token")
    else
      match jwt_verify token (JWT_ACCESS_SECRET env) now with
      | Verified payload =>
          if negb (truthy payload) || negb (typeof_object payload) then
            Respond (failure 401 "UNAUTHORIZED" "Invalid access token payload")
          else if negb (strict_eq (get "tokenType" payload) (JStr "access"))
                  || negb (typeof_string (get "sub" payload)) then
            Respond (failure 401 "UNAUTHORIZED" "Invalid access token")
          else Next payload
      | VerifyError name =>
          let refreshDetected :=
            match jwt_verify token (JWT_REFRESH_SECRET env) now with
            | Verified refreshPayload =>
                truthy refreshPayload && typeof_object refreshPayload
                && strict_eq (get "tokenType" refreshPayload) (JStr "refresh")
            | VerifyError _ => false
            end in
          if refreshDetected then
            Respond (failure 401 "UNAUTHORIZED"
              "Refresh token cannot be used here. Send accessToken in Authorization header.")
          else if (name =? "TokenExpiredError")%string then
            Respond (failure 401 "TOKEN_EXPIRED" "Access token expired")
          else
            Respond (failure 401 "UNAUTHORIZED" "Invalid or expired access token")
      end
  end.

End Auth.
End AuthMiddleware.

(** ** Persistent store *)

Record User : Type := mkUser
  { user_id : string;
    user_schoolId : option string;
    user_branchId : option string;
    user_fullName : string;
    user_email : string;
    user_passwordHash : string;
    user_role : string;
    user_isActive : bool;
    user_lastLoginAt : option Z }.

Record RefreshToken : Type := mkRefreshToken
  { rt_id : string;
    rt_userId : string;
    rt_tokenHash : string;
    rt_expiresAt : Z;
    rt_revokedAt : option Z;
    rt_createdAt : Z }.

Record PasswordResetOtp : Type := mkPasswordResetOtp
  { otp_id : string;
    otp_email : string;
    otp_otpHash : string;
    otp_expiresAt : Z;
    otp_usedAt : option Z;
    otp_createdAt : Z }.

(** Rows are kept in insertion order. *)
Record Db : Type := mkDb
  { users : list User;
    refreshTokens : list RefreshToken;
    passwordResetOtps : list PasswordResetOtp }.

Definition is_null {A} (o : option A) : bool :=
  match o with None => true | Some _ => false end.

(** The Prisma client calls the handlers make.  A unique [update] throws
    P2025 when no row matches; [create] throws P2002 on a primary-key or
    unique-index collision and P2003 on a dangling foreign key. *)
Module Prisma.

Definition updateMany {A} (where_ : A -> bool) (data : A -> A)
           (rows : list A) : list A :=
  map (fun r => if where_ r then data r else r) rows.

Definition update {A} (where_ : A -> bool) (data : A -> A)
           (rows : list A) : result (list A) :=
  if existsb where_ rows then Ok (updateMany where_ data rows)
  else Throw (PrismaError "P2025").

Definition set_users (db : Db) (us : list User) : Db :=
  mkDb us (refreshTokens db) (passwordResetOtps db).
Definition set_refreshTokens (db : Db) (ts : list RefreshToken) : Db :=
  mkDb (users db) ts (passwordResetOtps db).
Definition set_passwordResetOtps (db : Db) (os : list PasswordResetOtp) : Db :=
  mkDb (users db) (refreshTokens db) os.

(** [prisma.user] *)
Definition user_findUnique_email (email : string) (db : Db) : option User :=
  find (fun u => (user_email u =? email)%string) (users db).

Definition user_findUnique_id (id : string) (db : Db) : option User :=
  find (fun u => (user_id u =? id)%string) (users db).

Definition user_update (id : string) (data : User -> User) (db : Db) : result Db :=
  bind (update (fun u => (user_id u =? id)%string) data (users db))
       (fun us => Ok (set_users db us)).

(** [prisma.refreshToken] *)
Definition refreshToken_findUnique_tokenHash (tokenHash : string) (db : Db)
  : option RefreshToken :=
  find (fun t => (rt_tokenHash t =? tokenHash)%string) (refreshTokens db).

Definition refreshToken_update (id : string) (data : RefreshToken -> RefreshToken)
           (db : Db) : result Db :=
  bind (update (fun t => (rt_id t =? id)%string) data (refreshTokens db))
       (fun ts => Ok (set_refreshTokens db ts)).

Definition refreshToken_updateMany (where_ : RefreshToken -> bool)
           (data : RefreshToken -> RefreshToken) (db : Db) : result Db :=
  Ok (set_refreshTokens db (updateMany where_ data (refreshTokens db))).

Definition refreshToken_create (row : RefreshToken) (db : Db) : result Db :=
  if existsb (fun t => (rt_id t =? rt_id row)%string) (refreshTokens db)
     || existsb (fun t => (rt_tokenHash t =? rt_tokenHash row)%string)
                (refreshTokens db)
  then Throw (PrismaError "P2002")
  else if negb (existsb (fun u => (user_id u =? rt_userId row)%string) (users db))
  then Throw (PrismaError "P2003")
  else Ok (set_refreshTokens db (refreshTokens db ++ [row])).

(** [prisma.passwordResetOtp] *)
Definition passwordResetOtp_updateMany (where_ : PasswordResetOtp -> bool)
           (data : PasswordResetOtp -> PasswordResetOtp) (db : Db) : result Db :=
  Ok (set_passwordResetOtps db (updateMany where_ data (passwordResetOtps db))).

Definition passwordResetOtp_update (id : string)
           (data : PasswordResetOtp -> PasswordResetOtp) (db : Db) : result Db :=
  bind (update (fun o => (otp_id o =? id)%string) data (passwordResetOtps db))
       (fun os => Ok (set_passwordResetOtps db os)).

Definition passwordResetOtp_create (row : PasswordResetOtp) (db : Db) : result Db :=
  if existsb (fun o => (otp_id o =? otp_id row)%string) (passwordResetOtps db)
  then Throw (PrismaError "P2002")
  else Ok (set_passwordResetOtps db (passwordResetOtps db ++ [row])).

(** [findFirst({ where, orderBy: { createdAt: "desc" } })]: the matching row
    with the greatest [createdAt]; among equal timestamps SQL leaves the
    choice open and the earliest inserted one is taken here. *)
Fixpoint newest (rows : list PasswordResetOtp) : option PasswordResetOtp :=
  match rows with
  | [] => None
  | r :: rest =>
      match newest rest with
      | Some r' => if otp_createdAt r <? otp_createdAt r' then Some r' else Some r
      | None => Some r
      end
  end.

Definition passwordResetOtp_findFirst_desc (where_ : PasswordResetOtp -> bool)
           (db : Db) : option PasswordResetOtp :=
  newest (filter where_ (passwordResetOtps db)).

(** [prisma.$transaction([...])]: the operations run in order against the
    store; the first one that throws aborts the unit and nothing is kept. *)
Fixpoint transaction (ops : list (Db -> result Db)) (db : Db) : result Db :=
  match ops with
  | [] => Ok db
  | op :: rest => bind (op db) (transaction rest)
  end.

End Prisma.

(** ** Login rate limiter ([src/middlewares/authRateLimit.js]) *)

Module AuthRateLimit.

Inductive Verdict : Type :=
| Limited (r : Response)
| Allowed.

(** The [handler] option: what a client over the limit is answered. *)
Definition handler : Response :=
  failure 429 "TOO_MANY_REQUESTS"
          "Too many failed login attempts. Try again later.".

(** [rateLimit({ windowMs, max, skipSuccessfulRequests: true, handler })].
    Counting failed logins per client within the window is the work of
    express-rate-limit and its store; [overLimit] is what it finds for the
    request at hand.  (With [passOnStoreError] a failing store lets the
    request through.) *)
Definition loginRateLimiter (overLimit : bool) : Verdict :=
  if overLimit then Limited handler else Allowed.

End AuthRateLimit.

(** ** Session flows ([src/modules/auth/auth.handlers.js]) *)

Module AuthHandlers.

(** What one request reads from outside the store: the clock, the id Prisma
    generates for a created row, the random sources, and whether the rate
    limiter finds the client over its limit.  All clock reads of one request
    see the same instant. *)
Record Ctx : Type := mkCtx
  { now : Z;
    cuid : string;
    randomUUID : string;
    randomInt : Z;
    genSalt : string;
    overLimit : bool }.

Record Req : Type := mkReq { body : jsval; user : jsval }.

(** A handler either answers or hands an exception to [next]. *)
Inductive Outcome : Type :=
| Responded (r : Response)
| NextError (e : Thrown).

Definition Handler : Type := Ctx -> Req -> Db -> Outcome * Db.

(** What the client receives once [errorHandler] has run. *)
Definition reply (o : Outcome) : Response :=
  match o with
  | Responded r => r
  | NextError e => errorHandler e
  end.

Section Handlers.
Context {D : Deps}.
Import Prisma.

(** *** zod schemas *)

Definition zfail {A} (i : ZodIssue) : result A :=
  Throw (ZodError (Some (zod_message i))).

Definition z_object (v : jsval) : result jsval :=
  match v with
  | JObj _ => Ok v
  | JUndefined => zfail ZRequired
  | _ => zfail ZInvalidType
  end.

Definition z_string (v : jsval) : result string :=
  match v with
  | JStr s => Ok s
  | JUndefined => zfail ZRequired
  | _ => zfail ZInvalidType
  end.

Definition z_min (n : nat) (s : string) : result string :=
  if (n <=? String.length s)%nat then Ok s else zfail (ZTooSmall (Z.of_nat n)).

Definition z_email (s : string) : result string :=
  if zod_isEmail s then Ok s else zfail ZInvalidEmail.

Definition z_regex (ok : string -> bool) (message : option string) (s : string)
  : result string :=
  if ok s then Ok s
  else match message with
       | Some m => Throw (ZodError (Some m))
       | None => zfail ZInvalidRegex
       end.

Definition loginSchema (b : jsval) : result (string * string) :=
  bind (z_object b) (fun o =>
  bind (bind (z_string (get "email" o)) z_email) (fun email =>
  bind (bind (z_string (get "password" o)) (z_min 6)) (fun password =>
  Ok (email, password)))).

Definition refreshSchema (b : jsval) : result string :=
  bind (z_object b) (fun o =>
  bind (z_string (get "refreshToken" o)) (z_min 1)).

Definition logoutSchema (b : jsval) : result (option string) :=
  bind (z_object b) (fun o =>
  match get "refreshToken" o with
  | JUndefined => Ok None
  | v => bind (bind (z_string v) (z_min 1)) (fun s => Ok (Some s))
  end).

Definition forgotPasswordSchema (b : jsval) : result string :=
  bind (z_object b) (fun o =>
  bind (z_string (get "email" o)) z_email).

(** [/^\d{6}$/] *)
Definition sixDigits (s : string) : bool :=
  (String.length s =? 6)%nat && string_forall isDigit s.

Definition verifyOtpSchema (b : jsval) : result (string * string) :=
  bind (z_object b) (fun o =>
  bind (bind (z_string (get "email" o)) z_email) (fun email =>
  bind (bind (z_string (get "otp" o))
             (fun s => z_regex sixDigits None (trim s))) (fun otp =>
  Ok (email, otp)))).

Definition newPasswordSchema (v : jsval) : result string :=
  bind (z_string v) (fun s =>
  bind (z_min 8 s) (fun s =>
  bind (z_regex (string_exists isUpper)
                (Some "Password must include an uppercase letter") s) (fun s =>
  bind (z_regex (string_exists isLower)
                (Some "Password must include a lowercase letter") s) (fun s =>
  bind (z_regex (string_exists isDigit)
                (Some "Password must include a number") s) (fun s =>
  z_regex (string_exists (fun c => negb (isUpper c || isLower c || isDigit c)))
          (Some "Password must include a special character") s))))).

Definition resetPasswordSchema (b : jsval) : result (string * string) :=
  bind (z_object b) (fun o =>
  bind (bind (z_string (get "resetToken" o)) (z_min 1)) (fun resetToken =>
  bind (newPasswordSchema (get "newPassword" o)) (fun newPassword =>
  Ok (resetToken, newPassword)))).

Definition changePasswordSchema (b : jsval) : result (string * string) :=
  bind (z_object b) (fun o =>
  bind (bind (z_string (get "currentPassword" o)) (z_min 6)) (fun currentPassword =>
  bind (newPasswordSchema (get "newPassword" o)) (fun newPassword =>
  Ok (currentPassword, newPassword)))).

(** *** Helpers *)

Definition passwordResetSecret : string :=
  match PASSWORD_RESET_SECRET env with
  | Some s => if (s =? "")%string then JWT_REFRESH_SECRET env else s
  | None => JWT_REFRESH_SECRET env
  end.

Definition toSafeUser (u : User) : jsval :=
  JObj [("id", JStr (user_id u));
        ("fullName", JStr (user_fullName u));
        ("email", JStr (user_email u));
        ("role", JStr (user_role u));
        ("schoolId", opt_js (user_schoolId u));
        ("branchId", opt_js (user_branchId u));
        ("isActive", JBool (user_isActive u))].

Definition hashToken (token : string) : string := sha256_hex token.

(** [jwt.sign] with [expiresIn] always writes a numeric [exp]. *)
Definition tokenExpiryFromJwt (token : string) (now : Z) : Z :=
  let decoded := jwt_decode token in
  let fallbackDays := 7 in
  if truthy decoded && typeof_object decoded && truthy (get "exp" decoded) then
    match get "exp" decoded with
    | JNum exp => exp * 1000
    | _ => now + fallbackDays * 24 * 60 * 60 * 1000
    end
  else now + fallbackDays * 24 * 60 * 60 * 1000.

Definition buildJwtPayload (u : User) : list (string * jsval) :=
  [("sub", JStr (user_id u));
   ("email", JStr (user_email u));
   ("role", JStr (user_role u));
   ("schoolId", opt_js (user_schoolId u));
   ("branchId", opt_js (user_branchId u))].

Definition issueAccessToken (payload : list (string * jsval)) (now : Z) : string :=
  jwt_sign (JObj (payload ++ [("tokenType", JStr "access")]))
           (JWT_ACCESS_SECRET env) (ACCESS_TOKEN_EXPIRES_IN env) now.

Definition issueRefreshToken (payload : list (string * jsval)) (c : Ctx) : string :=
  jwt_sign (JObj (payload ++ [("tokenType", JStr "refresh");
                              ("jti", JStr (randomUUID c))]))
           (JWT_REFRESH_SECRET env) (REFRESH_TOKEN_EXPIRES_IN env) (now c).

Definition issuePasswordResetToken (payload : list (string * jsval)) (c : Ctx)
  : string :=
  jwt_sign (JObj (payload ++ [("tokenType", JStr "password_reset");
                              ("jti", JStr (randomUUID c))]))
           passwordResetSecret (PASSWORD_RESET_TOKEN_EXPIRES_IN env) (now c).

Definition unauthorized (message : option string) : Response :=
  failure 401 "UNAUTHORIZED" (default "Invalid credentials" message).

Definition invalidOtp (message : option string) : Response :=
  failure 400 "INVALID_OTP" (default "Invalid or expired OTP" message).

Definition invalidResetToken (message : option string) : Response :=
  failure 401 "INVALID_RESET_TOKEN"
          (default "Invalid or expired reset token" message).

Definition revoke (at_ : Z) (t : RefreshToken) : RefreshToken :=
  mkRefreshToken (rt_id t) (rt_userId t) (rt_tokenHash t) (rt_expiresAt t)
                 (Some at_) (rt_createdAt t).

Definition markUsed (at_ : Z) (o : PasswordResetOtp) : PasswordResetOtp :=
  mkPasswordResetOtp (otp_id o) (otp_email o) (otp_otpHash o) (otp_expiresAt o)
                     (Some at_) (otp_createdAt o).

Definition setLastLoginAt (at_ : Z) (u : User) : User :=
  mkUser (user_id u) (user_schoolId u) (user_branchId u) (user_fullName u)
         (user_email u) (user_passwordHash u) (user_role u) (user_isActive u)
         (Some at_).

Definition setPasswordHash (h : string) (u : User) : User :=
  mkUser (user_id u) (user_schoolId u) (user_branchId u) (user_fullName u)
         (user_email u) h (user_role u) (user_isActive u) (user_lastLoginAt u).

Definition newRefreshToken (c : Ctx) (userId token : string) : RefreshToken :=
  mkRefreshToken (cuid c) userId (hashToken token)
                 (tokenExpiryFromJwt token (now c)) None (now c).

(** *** Handlers *)

Definition login : Handler := fun c req db =>
  match loginSchema (body req) with
  | Throw e => (NextError e, db)
  | Ok (email, password) =>
    let normalizedEmail := toLowerCase email in
    match user_findUnique_email normalizedEmail db with
    | None => (Responded (unauthorized (Some "Invalid email or password")), db)
    | Some user =>
      if negb (user_isActive user) then
        (Responded (unauthorized (Some "Invalid email or password")), db)
      else if negb (bcrypt_compare password (user_passwordHash user)) then
        (Responded (unauthorized (Some "Invalid email or password")), db)
      else
        let payload := buildJwtPayload user in
        let accessToken := issueAccessToken payload (now c) in
        let refreshToken := issueRefreshToken payload c in
        match transaction
                [user_update (user_id user) (setLastLoginAt (now c));
                 refreshToken_create (newRefreshToken c (user_id user) refreshToken)]
                db with
        | Throw e => (NextError e, db)
        | Ok db' =>
            (Responded (success 200
               (JObj [("accessToken", JStr accessToken);
                      ("refreshToken", JStr refreshToken);
                      ("user", toSafeUser user)])), db')
        end
    end
  end.

Definition refresh : Handler := fun c req db =>
  match refreshSchema (body req) with
  | Throw e => (NextError e, db)
  | Ok refreshToken =>
    match jwt_verify refreshToken (JWT_REFRESH_SECRET env) (now c) with
    | VerifyError _ =>
        (Responded (unauthorized (Some "Invalid or expired refresh token")), db)
    | Verified decoded =>
      if negb (truthy decoded)
         || negb (typeof_object decoded)
         || negb (strict_eq (get "tokenType" decoded) (JStr "refresh"))
         || negb (typeof_string (get "sub" decoded))
      then (Responded (unauthorized (Some "Invalid refresh token")), db)
      else
        match refreshToken_findUnique_tokenHash (hashToken refreshToken) db with
        | None =>
            (Responded (unauthorized (Some "Refresh token is revoked or invalid")), db)
        | Some storedToken =>
          if negb (is_null (rt_revokedAt storedToken)) then
            (Responded (unauthorized (Some "Refresh token is revoked or invalid")), db)
          else if rt_expiresAt storedToken <? now c then
            (Responded (unauthorized (Some "Refresh token is expired")), db)
          else
            (* include: { user: true } *)
            match user_findUnique_id (rt_userId storedToken) db with
            | None => (Responded (unauthorized (Some "User is inactive")), db)
            | Some user =>
              if negb (user_isActive user) then
                (Responded (unauthorized (Some "User is inactive")), db)
              else
                let payload := buildJwtPayload user in
                let nextAccessToken := issueAccessToken payload (now c) in
                let nextRefreshToken := issueRefreshToken payload c in
                match transaction
                        [refreshToken_update (rt_id storedToken) (revoke (now c));
                         refreshToken_create
                           (newRefreshToken c (user_id user) nextRefreshToken)]
                        db with
                | Throw e => (NextError e, db)
                | Ok db' =>
                    (Responded (success 200
                       (JObj [("accessToken", JStr nextAccessToken);
                              ("refreshToken", JStr nextRefreshToken);
                              ("user", toSafeUser user)])), db')
                end
            end
        end
    end
  end.

Definition logout : Handler := fun c req db =>
  match logoutSchema (js_or (body req) (JObj [])) with
  | Throw e => (NextError e, db)
  | Ok None =>
      (Responded (success 200 (JObj [("message", JStr "Logged out")])), db)
  | Ok (Some refreshToken) =>
      match refreshToken_updateMany
              (fun t => (rt_tokenHash t =? hashToken refreshToken)%string
                        && is_null (rt_revokedAt t))
              (revoke (now c)) db with
      | Throw e => (NextError e, db)
      | Ok db' =>
          (Responded (success 200 (JObj [("message", JStr "Logged out")])), db')
      end
  end.

(** [me] and [changePassword] are mounted behind [auth], which only lets a
    string [sub] through. *)
Definition me : Handler := fun c req db =>
  match get "sub" (user req) with
  | JStr userId =>
    if (userId =? "")%string then
      (Responded (unauthorized (Some "Invalid access token payload")), db)
    else
      match user_findUnique_id userId db with
      | None => (Responded (failure 404 "USER_NOT_FOUND" "User not found"), db)
      | Some user =>
        if negb (user_isActive user) then
          (Responded (failure 404 "USER_NOT_FOUND" "User not found"), db)
        else
          (Responded (success 200 (JObj [("user", toSafeUser user)])), db)
      end
  | _ => (Responded (unauthorized (Some "Invalid access token payload")), db)
  end.

Definition forgotPassword : Handler := fun c req db =>
  match forgotPasswordSchema (body req) with
  | Throw e => (NextError e, db)
  | Ok email =>
    let normalizedEmail := toLowerCase email in
    let notFoundOrInactive :=
      (Responded (success 200
         (JObj [("message",
                 JStr "If your account exists, a verification code has been generated")])),
       db) in
    match user_findUnique_email normalizedEmail db with
    | None => notFoundOrInactive
    | Some user =>
      if negb (user_isActive user) then notFoundOrInactive
      else
        let otp := toString (randomInt c) in
        let otpHash := bcrypt_hash otp (genSalt c) in
        let expiresAt :=
          now c + PASSWORD_RESET_OTP_EXPIRES_MINUTES env * 60 * 1000 in
        match transaction
                [passwordResetOtp_updateMany
                   (fun o => (otp_email o =? normalizedEmail)%string
                             && is_null (otp_usedAt o))
                   (markUsed (now c));
                 passwordResetOtp_create
                   (mkPasswordResetOtp (cuid c) normalizedEmail otpHash expiresAt
                                       None (now c))]
                db with
        | Throw e => (NextError e, db)
        | Ok db' =>
          let mail :=
            if isMailerConfigured then
              sendPasswordResetOtpEmail normalizedEmail otp
                                        (PASSWORD_RESET_OTP_EXPIRES_MINUTES env)
            else if (NODE_ENV env =? "production")%string then
              Throw (PlainError "Email service is not configured in production")
            else Ok tt in
          match mail with
          | Throw e => (NextError e, db')
          | Ok _ =>
            (Responded (success 200
               (JObj [("message",
                       JStr "If your account exists, a verification code has been generated");
                      ("debugOtp",
                       if (NODE_ENV env =? "production")%string
                       then JUndefined else JStr otp);
                      ("otpExpiresAt", JStr (toISOString expiresAt))])), db')
          end
        end
    end
  end.

Definition verifyOtp : Handler := fun c req db =>
  match verifyOtpSchema (body req) with
  | Throw e => (NextError e, db)
  | Ok (email, otp) =>
    let normalizedEmail := toLowerCase email in
    match passwordResetOtp_findFirst_desc
            (fun o => (otp_email o =? normalizedEmail)%string
                      && is_null (otp_usedAt o)) db with
    | None => (Responded (invalidOtp None), db)
    | Some record =>
      if otp_expiresAt record <=? now c then (Responded (invalidOtp None), db)
      else if negb (bcrypt_compare otp (otp_otpHash record)) then
        (Responded (invalidOtp None), db)
      else
        match user_findUnique_email normalizedEmail db with
        | None => (Responded (invalidOtp None), db)
        | Some user =>
          if negb (user_isActive user) then (Responded (invalidOtp None), db)
          else
            match passwordResetOtp_update (otp_id record) (markUsed (now c)) db with
            | Throw e => (NextError e, db)
            | Ok db' =>
              let resetToken :=
                issuePasswordResetToken
                  [("sub", JStr (user_id user)); ("email", JStr (user_email user))]
                  c in
              (Responded (success 200
                 (JObj [("resetToken", JStr resetToken);
                        ("expiresIn",
                         JStr (PASSWORD_RESET_TOKEN_EXPIRES_IN env))])), db')
            end
        end
    end
  end.

Definition resetPassword : Handler := fun c req db =>
  match resetPasswordSchema (body req) with
  | Throw e => (NextError e, db)
  | Ok (resetToken, newPassword) =>
    match jwt_verify resetToken passwordResetSecret (now c) with
    | VerifyError _ => (Responded (invalidResetToken None), db)
    | Verified decoded =>
      if negb (truthy decoded)
         || negb (typeof_object decoded)
         || negb (strict_eq (get "tokenType" decoded) (JStr "password_reset"))
         || negb (typeof_string (get "sub" decoded))
         || negb (typeof_string (get "email" decoded))
      then (Responded (invalidResetToken None), db)
      else
        match get "sub" decoded with
        | JStr sub =>
          match user_findUnique_id sub db with
          | None => (Responded (invalidResetToken None), db)
          | Some user =>
            if negb (user_isActive user)
               || negb (strict_eq (JStr (user_email user)) (get "email" decoded))
            then (Responded (invalidResetToken None), db)
            else
              let passwordHash := bcrypt_hash newPassword (genSalt c) in
              match transaction
                      [user_update (user_id user) (setPasswordHash passwordHash);
                       refreshToken_updateMany
                         (fun t => (rt_userId t =? user_id user)%string
                                   && is_null (rt_revokedAt t))
                         (revoke (now c));
                       passwordResetOtp_updateMany
                         (fun o => (otp_email o =? user_email user)%string
                                   && is_null (otp_usedAt o))
                         (markUsed (now c))]
                      db with
              | Throw e => (NextError e, db)
              | Ok db' =>
                (Responded (success 200
                   (JObj [("message",
                           JStr "Password reset successful. Please login again.")])),
                 db')
              end
          end
        | _ => (Responded (invalidResetToken None), db)
        end
    end
  end.

Definition changePassword : Handler := fun c req db =>
  match get "sub" (user req) with
  | JStr userId =>
    if (userId =? "")%string then
      (Responded (unauthorized (Some "Invalid access token payload")), db)
    else
      match changePasswordSchema (body req) with
      | Throw e => (NextError e, db)
      | Ok (currentPassword, newPassword) =>
        match user_findUnique_id userId db with
        | None => (Responded (unauthorized (Some "User is inactive")), db)
        | Some user =>
          if negb (user_isActive user) then
            (Responded (unauthorized (Some "User is inactive")), db)
          else if negb (bcrypt_compare currentPassword (user_passwordHash user)) then
            (Responded (unauthorized (Some "Current password is incorrect")), db)
          else if bcrypt_compare newPassword (user_passwordHash user) then
            (Responded (failure 400 "BAD_REQUEST"
               "New password must be different from current password"), db)
          else
            let newPasswordHash := bcrypt_hash newPassword (genSalt c) in
            match transaction
                    [user_update (user_id user) (setPasswordHash newPasswordHash);
                     refreshToken_updateMany
                       (fun t => (rt_userId t =? user_id user)%string
                                 && is_null (rt_revokedAt t))
                       (revoke (now c))]
                    db with
            | Throw e => (NextError e, db)
            | Ok db' =>
              (Responded (success 200
                 (JObj [("message",
                         JStr "Password changed successfully. Please login again.")])),
               db')
            end
        end
      end
  | _ => (Responded (unauthorized (Some "Invalid access token payload")), db)
  end.

End Handlers.

(** *** The routes of [/auth] as one transition system *)

Inductive Route : Type :=
| POST_login | POST_refresh | POST_logout | GET_me
| POST_forgot_password | POST_verify_otp | POST_reset_password
| POST_change_password.

(** [router.post("/login", loginRateLimiter, login)] *)
Definition POST_auth_login {D : Deps} : Handler :=
  fun c req db =>
    match AuthRateLimit.loginRateLimiter (overLimit c) with
    | AuthRateLimit.Limited r => (Responded r, db)
    | AuthRateLimit.Allowed => login c req db
    end.

(** [GET_me] and [POST_change_password] stand for the handler behind [auth],
    run with the [req.user] that [auth] has set. *)
Definition handle {D : Deps} (r : Route) : Handler :=
  match r with
  | POST_login => POST_auth_login
  | POST_refresh => refresh
  | POST_logout => logout
  | GET_me => me
  | POST_forgot_password => forgotPassword
  | POST_verify_otp => verifyOtp
  | POST_reset_password => resetPassword
  | POST_change_password => changePassword
  end.

(** The store after a sequence of requests served one after the other. *)
Fixpoint serve {D : Deps} (calls : list (Route * Ctx * Req)) (db : Db) : Db :=
  match calls with
  | [] => db
  | (r, c, req) :: rest => serve rest (snd (handle r c req db))
  end.

End AuthHandlers.

(** ** Role gate ([src/middlewares/requireRole.js]) *)

Module RequireRole.

Inductive Verdict : Type :=
| Refuse (r : Response)
| Pass.

(** [allowedRoles.includes(v)] for an array of strings. *)
Definition includes (allowedRoles : list string) (v : jsval) : bool :=
  existsb (fun r => strict_eq (JStr r) v) allowedRoles.

Definition requireRole (allowedRoles : list string) (user : jsval) : Verdict :=
  if negb (truthy (get "role" user)) then
    Refuse (failure 401 "UNAUTHORIZED" "User context not found")
  else if negb (includes allowedRoles (get "role" user)) then
    Refuse (failure 403 "FORBIDDEN" "Access denied for this role")
  else Pass.

End RequireRole.

(** ** Route table ([src/routes/index.js], [src/modules/auth/auth.routes.js]) *)

Module Routes.
Section Mount.
Context {D : Deps}.
Import AuthMiddleware RequireRole AuthHandlers.

(** [router.use(path, auth, requireRole(allowedRoles), routes)]: what reaches
    [routes] is the request with [req.user] set. *)
Definition guarded (allowedRoles : list string) (req : Request) (now : Z)
  : AuthMiddleware.Outcome :=
  match auth req now with
  | Respond r => Respond r
  | Next user =>
      match requireRole allowedRoles user with
      | Refuse r => Respond r
      | Pass => Next user
      end
  end.

Definition superadmin : Request -> Z -> AuthMiddleware.Outcome :=
  guarded ["SUPERADMIN"].
Definition school : Request -> Z -> AuthMiddleware.Outcome :=
  guarded ["SUPERADMIN"; "SCHOOLADMIN"; "HR"; "ACCOUNTANT"].
Definition hr : Request -> Z -> AuthMiddleware.Outcome :=
  guarded ["SUPERADMIN"; "SCHOOLADMIN"; "HR"].
Definition accountant : Request -> Z -> AuthMiddleware.Outcome :=
  guarded ["SUPERADMIN"; "SCHOOLADMIN"; "ACCOUNTANT"].

(** [router.get(path, auth, handler)]: the handler runs with [req.user] set
    to the payload [auth] verified, or not at all. *)
Definition behindAuth (handler : Handler) (headers : Request) : Handler :=
  fun c req db =>
    match auth headers (now c) with
    | Respond r => (Responded r, db)
    | Next user => handler c (mkReq (body req) user) db
    end.

Definition GET_auth_me : Request -> Handler := behindAuth me.
Definition POST_auth_change_password : Request -> Handler :=
  behindAuth changePassword.

(** The router of [auth.routes.js], mounted under [/auth]: every route with
    the middleware in front of its handler. *)
Definition authRoutes (r : Route) (headers : Request) : Handler :=
  match r with
  | POST_login => POST_auth_login
  | POST_refresh => refresh
  | POST_logout => logout
  | GET_me => GET_auth_me headers
  | POST_forgot_password => forgotPassword
  | POST_verify_otp => verifyOtp
  | POST_reset_password => resetPassword
  | POST_change_password => POST_auth_change_password headers
  end.

End Mount.
End Routes.

(** ** Scoped lookups of the school module ([school.common.js]) *)

Module SchoolCommon.

Record Request : Type := mkRequest { user : jsval; query_schoolId : jsval }.

(** A row of any tenant-owned table, as far as the scope check reads it. *)
Record Item : Type := mkItem { item_id : string; item_schoolId : string }.

Definition getQuerySchoolId (req : Request) : jsval :=
  if typeof_string (query_schoolId req) then query_schoolId req else JUndefined.

Definition scopedSchoolId (req : Request) (schoolIdInput : jsval)
           (requireForSuperadmin : option bool) : result jsval :=
  let requireForSuperadmin :=
    match requireForSuperadmin with Some b => b | None => true end in
  SchoolScope.resolveSchoolId (SchoolScope.mkRequest (user req))
    (js_or schoolIdInput (getQuerySchoolId req))
    (SchoolScope.mkOptions (Some requireForSuperadmin)).

Definition findScopedOrThrow (table : list Item) (id : string) (schoolId : jsval)
           (entityName : string) (code : option string) : result Item :=
  match find (fun i => (item_id i =? id)%string) table with
  | None => Throw (HttpErr (notFound (Some (String.append entityName " not found")) code))
  | Some item =>
      if negb (strict_eq (JStr (item_schoolId item)) schoolId) then
        Throw (HttpErr (notFound (Some (String.append entityName " not found")) code))
      else Ok item
  end.

End SchoolCommon.

(** ** Scope helpers of the students module
       ([src/modules/students/students.handlers.js]) *)

Module Students.

Record Request : Type := mkRequest { user : jsval }.

(** The columns of [Student] the scope check reads. *)
Record Student : Type := mkStudent { student_id : string; student_schoolId : string }.

Definition badRequest (message : string) (code : option string) : HttpError :=
  mkHttpError 400 message (default "BAD_REQUEST" code).

Definition forbidden (message : option string) : HttpError :=
  mkHttpError 403 (default "Forbidden" message) "FORBIDDEN".

Definition notFound (message : option string) : HttpError :=
  mkHttpError 404 (default "Student not found" message) "STUDENT_NOT_FOUND".

Definition getRequestSchoolId (req : Request) (schoolIdInput : jsval)
  : result jsval :=
  if strict_eq (get "role" (user req)) (JStr "SUPERADMIN") then
    Ok (js_or schoolIdInput JNull)
  else if negb (truthy (get "schoolId" (user req))) then
    Throw (HttpErr (forbidden (Some "School context is missing for current user")))
  else Ok (get "schoolId" (user req)).

Definition ensureSchoolScopeForList (req : Request) (schoolIdInput : jsval)
  : result jsval :=
  bind (getRequestSchoolId req schoolIdInput) (fun schoolId =>
  if negb (truthy schoolId) then
    Throw (HttpErr (badRequest
      "schoolId is required for SUPERADMIN while listing students"
      (Some "SCHOOL_CONTEXT_REQUIRED")))
  else Ok schoolId).

Definition findScopedStudentOrThrow (students : list Student) (req : Request)
           (studentId : string) (schoolIdInput : jsval) : result Student :=
  let role := get "role" (user req) in
  bind (getRequestSchoolId req schoolIdInput) (fun callerSchoolId =>
  match find (fun s => (student_id s =? studentId)%string) students with
  | None => Throw (HttpErr (notFound None))
  | Some student =>
      if negb (strict_eq role (JStr "SUPERADMIN"))
         && negb (strict_eq (JStr (student_schoolId student)) callerSchoolId)
      then Throw (HttpErr (notFound None))
      else if strict_eq role (JStr "SUPERADMIN") && truthy callerSchoolId
              && negb (strict_eq (JStr (student_schoolId student)) callerSchoolId)
      then Throw (HttpErr (notFound None))
      else Ok student
  end).

End Students.

(** ** Predicates the properties are stated with *)

Section Predicates.
Context {D : Deps}.
Import Prisma AuthHandlers.

(** The token verifies under the refresh secret and is of kind "refresh". *)
Definition verifies_as_refresh (token : string) (now : Z) : Prop :=
  exists p, jwt_verify token (JWT_REFRESH_SECRET env) now = Verified p
            /\ get "tokenType" p = JStr "refresh".

(** Schema constraints on [RefreshToken]: primary key and the unique index
    on [tokenHash]. *)
Definition ledger_wf (db : Db) : Prop :=
  NoDup (map rt_id (refreshTokens db))
  /\ NoDup (map rt_tokenHash (refreshTokens db)).

(** The ledger holds a revoked entry for hash [h]. *)
Definition revoked_in (h : string) (db : Db) : Prop :=
  exists t, In t (refreshTokens db)
            /\ rt_tokenHash t = h /\ rt_revokedAt t <> None.

(** How the session flows change the ledger: entries get their revocation
    timestamp set, and at most one entry with a fresh id and hash is added. *)
Definition ledger_evolves (l l' : list RefreshToken) : Prop :=
  exists p at_ extra,
    l' = (updateMany p (revoke at_) l ++ extra)%list
    /\ (extra = []
        \/ exists row, extra = [row]
                       /\ ~ In (rt_id row) (map rt_id l)
                       /\ ~ In (rt_tokenHash row) (map rt_tokenHash l)).


(** The address has no unused code left. *)
Definition no_unused (email : string) (db : Db) : Prop :=
  forall o, In o (passwordResetOtps db) ->
            otp_email o = email -> otp_usedAt o <> None.

(** No request of the sequence is a forgot-password. *)
Definition issues_no_otp (calls : list (Route * Ctx * Req)) : Prop :=
  forall r c req, In (r, c, req) calls -> r <> POST_forgot_password.



(** The request was answered 200 (neither refused nor passed to
    [errorHandler]). *)
Definition succeeded (o : Outcome) : bool :=
  match o with
  | Responded r => status r =? 200
  | NextError _ => false
  end.

(** Every check of [refresh] passes for token [tok], found as ledger entry
    [stored] owned by [u]. *)
Definition refresh_admits (c : Ctx) (req : Req) (db : Db)
           (tok : string) (stored : RefreshToken) (u : User) : Prop :=
  refreshSchema (body req) = Ok tok
  /\ (exists decoded,
        jwt_verify tok (JWT_REFRESH_SECRET env) (now c) = Verified decoded
        /\ get "tokenType" decoded = JStr "refresh"
        /\ typeof_string (get "sub" decoded) = true)
  /\ refreshToken_findUnique_tokenHash (hashToken tok) db = Some stored
  /\ rt_revokedAt stored = None
  /\ now c <= rt_expiresAt stored
  /\ user_findUnique_id (rt_userId stored) db = Some u
  /\ user_isActive u = true.

(** The store [changePassword] and [resetPassword] leave behind for user [u]
    and new hash [h]: the hash is replaced and every unrevoked ledger entry of
    [u] is revoked. *)
Definition passwordChanged (c : Ctx) (u : User) (h : string) (db : Db) : Db :=
  set_refreshTokens
    (set_users db (updateMany (fun x => (user_id x =? user_id u)%string)
                              (setPasswordHash h) (users db)))
    (updateMany (fun t => (rt_userId t =? user_id u)%string
                          && is_null (rt_revokedAt t))
                (revoke (now c)) (refreshTokens db)).

(** The record [forgotPassword] stores. *)
Definition issuedOtp (c : Ctx) (email : string) : PasswordResetOtp :=
  mkPasswordResetOtp (cuid c) (toLowerCase email)
    (bcrypt_hash (toString (randomInt c)) (genSalt c))
    (now c + PASSWORD_RESET_OTP_EXPIRES_MINUTES env * 60 * 1000) None (now c).

(** The table after [forgotPassword] issued a code for [email]. *)
Definition otpsAfterIssue (c : Ctx) (email : string) (db : Db)
  : list PasswordResetOtp :=
  updateMany (fun o => (otp_email o =? toLowerCase email)%string
                       && is_null (otp_usedAt o))
             (markUsed (now c)) (passwordResetOtps db)
  ++ [issuedOtp c email].

(** A token as a client means to send it: not empty, not the text of a
    missing JavaScript value, free of white space and quotes. *)
Definition plainToken (t : string) : Prop :=
  t <> "" /\ t <> "undefined" /\ t <> "null"
  /\ string_forall (fun c => negb (isSpace c || AuthMiddleware.isQuote c)) t = true.

(** Empty, or starting with a character outside [p]. *)
Definition headOutside (p : ascii -> bool) (s : string) : Prop :=
  match s with
  | EmptyString => True
  | String c _ => p c = false
  end.

(** The composition rule of [newPasswordSchema]. *)
Definition strongPassword (s : string) : bool :=
  (8 <=? String.length s)%nat
  && string_exists isUpper s && string_exists isLower s && string_exists isDigit s
  && string_exists (fun c => negb (isUpper c || isLower c || isDigit c)) s.

(** The response envelope: 200 with [success: true] and no [error], or one
    of the error statuses with [success: false], no [data], and an [error]
    carrying a string [code] and a string [message]. *)
Definition enveloped (resp : Response) : Prop :=
  (status resp = 200
   /\ get "success" (json resp) = JBool true
   /\ get "error" (json resp) = JUndefined)
  \/ (In (status resp) [400; 401; 404; 409; 500]
      /\ get "success" (json resp) = JBool false
      /\ get "data" (json resp) = JUndefined
      /\ typeof_string (get "code" (get "error" (json resp))) = true
      /\ typeof_string (get "message" (get "error" (json resp))) = true).

(** Only Prisma errors come out of the store. *)
Definition throws_prisma (op : Db -> result Db) : Prop :=
  forall db e, op db = Throw e -> exists code, e = PrismaError code.

(** The mailer fails with plain [Error]s only. *)
Definition mailer_throws_plain {D : Deps} : Prop :=
  forall to otp minutes e,
    sendPasswordResetOtpEmail to otp minutes = Throw e ->
    exists msg, e = PlainError msg.

(** What of an account the session flows never touch. *)
Definition standing (u : User) :
  string * option string * option string * string * string * string * bool :=
  (user_id u, user_schoolId u, user_branchId u, user_fullName u, user_email u,
   user_role u, user_isActive u).

(** Primary key on [User]. *)
Definition users_wf (db : Db) : Prop := NoDup (map user_id (users db)).

End Predicates.

(** ** Sample data *)

Module Samples.
Import SchoolScope.

Definition teacherOfA : Request :=
  mkRequest (JObj [("sub", JStr "u7"); ("role", JStr "TEACHER");
                   ("schoolId", JStr "school-A")]).
Definition orphanTeacher : Request :=
  mkRequest (JObj [("sub", JStr "u8"); ("role", JStr "TEACHER");
                   ("schoolId", JNull)]).
Definition platformAdmin : Request :=
  mkRequest (JObj [("sub", JStr "u0"); ("role", JStr "SUPERADMIN");
                   ("schoolId", JNull)]).


(** A stand-in for the libraries, good enough to run the handlers: tokens are
    readable strings, hashing keeps its input, every address parses. *)
Definition sampleEnv : Env :=
  mkEnv "production" "access-secret-0123456789" "refresh-secret-0123456789" None
        "15m" "7d" "10m" 10.

Definition sample_jwt_sign (payload : jsval) (secret expiresIn : string) (now : Z)
  : string :=
  match get "tokenType" payload, get "jti" payload with
  | JStr "refresh", JStr j => String.append "rt-" j
  | JStr "password_reset", JStr j => String.append "pr-" j
  | _, _ => "at-1"
  end.

Definition sample_jwt_verify (token secret : string) (now : Z) : VerifyResult :=
  if (secret =? JWT_REFRESH_SECRET sampleEnv)%string then
    if String.prefix "rt-" token then
      Verified (JObj [("sub", JStr "u1"); ("tokenType", JStr "refresh")])
    else if String.prefix "pr-" token then
      Verified (JObj [("sub", JStr "u1"); ("email", JStr "admin@school.edu");
                      ("tokenType", JStr "password_reset")])
    else VerifyError "JsonWebTokenError"
  else if (token =? "at-1")%string then
    Verified (JObj [("sub", JStr "u1"); ("tokenType", JStr "access")])
  else if (token =? "at-old")%string then VerifyError "TokenExpiredError"
  else VerifyError "JsonWebTokenError".

Definition sampleDeps : Deps :=
  {| env := sampleEnv;
     jwt_sign := sample_jwt_sign;
     jwt_verify := sample_jwt_verify;
     jwt_decode := fun _ => JObj [("exp", JNum 9000)];
     sha256_hex := fun s => String.append "h:" s;
     bcrypt_hash := fun data salt => data;
     bcrypt_compare := fun data hash => (data =? hash)%string;
     zod_isEmail := fun _ => true;
     zod_message := fun _ => "Invalid input";
     toISOString := fun t => if t =? 602000 then "1970-01-01T00:10:02.000Z"
                             else "1970-01-01T00:00:00.000Z";
     isMailerConfigured := true;
     sendPasswordResetOtpEmail := fun _ _ _ => Ok tt |}.

Definition admin : User :=
  mkUser "u1" (Some "school-A") None "Asha Admin" "admin@school.edu" "Admin123!"
         "SCHOOLADMIN" true None.

Definition retired : User :=
  mkUser "u2" (Some "school-A") None "Ravi Retired" "ravi@school.edu" "Ravi123!"
         "TEACHER" false None.

Definition live1 : RefreshToken :=
  mkRefreshToken "row-1" "u1" "h:rt-1" 9000000 None 1000.

Definition db0 : Db := mkDb [admin; retired] [live1] [].

Definition at2s : AuthHandlers.Ctx := AuthHandlers.mkCtx 2000 "row-2" "2" 123456 "salt" false.
Definition at3s : AuthHandlers.Ctx := AuthHandlers.mkCtx 3000 "row-3" "3" 654321 "salt" false.

Definition muchLater : AuthHandlers.Ctx :=
  AuthHandlers.mkCtx 9500000 "row-4" "4" 111111 "salt" false.


(** A request of a client the rate limiter finds over its limit. *)
Definition throttled : AuthHandlers.Ctx :=
  AuthHandlers.mkCtx 2000 "row-2" "2" 123456 "salt" true.

Definition db0_revoked : Db :=
  mkDb [admin; retired] [AuthHandlers.revoke 1500 live1] [].

Definition db0_inactive_owner : Db :=
  mkDb [admin; retired] [mkRefreshToken "row-1" "u2" "h:rt-1" 9000000 None 1000] [].

Definition changing : AuthHandlers.Req :=
  AuthHandlers.mkReq
    (JObj [("currentPassword", JStr "Admin123!"); ("newPassword", JStr "Better456?")])
    (JObj [("sub", JStr "u1"); ("tokenType", JStr "access")]).

Definition resetting : AuthHandlers.Req :=
  AuthHandlers.mkReq
    (JObj [("resetToken", JStr "pr-9"); ("newPassword", JStr "Better456?")])
    JUndefined.

Definition forgetting (email : string) : AuthHandlers.Req :=
  AuthHandlers.mkReq (JObj [("email", JStr email)]) JUndefined.

Definition verifying : AuthHandlers.Req :=
  AuthHandlers.mkReq
    (JObj [("email", JStr "Admin@School.edu"); ("otp", JStr " 123456 ")])
    JUndefined.

(** The no-break space U+00A0. *)
Definition nbsp : string := String (ascii_of_nat 160) EmptyString.

Definition bearer (header : string) : AuthMiddleware.Request :=
  AuthMiddleware.mkRequest (JStr header) JUndefined JUndefined JUndefined
                           JUndefined JUndefined.

Definition staffTable : list SchoolCommon.Item :=
  [SchoolCommon.mkItem "staff-1" "school-A"; SchoolCommon.mkItem "staff-2" "school-B"].

Definition teacherOfA_browsing (query_schoolId : jsval) : SchoolCommon.Request :=
  SchoolCommon.mkRequest
    (JObj [("sub", JStr "u7"); ("role", JStr "TEACHER"); ("schoolId", JStr "school-A")])
    query_schoolId.

Definition studentTable : list Students.Student :=
  [Students.mkStudent "st-1" "school-A"; Students.mkStudent "st-2" "school-B"].

Definition hrOfA : Students.Request :=
  Students.mkRequest
    (JObj [("sub", JStr "u9"); ("role", JStr "HR"); ("schoolId", JStr "school-A")]).

Definition rootUser : Students.Request :=
  Students.mkRequest (JObj [("sub", JStr "u0"); ("role", JStr "SUPERADMIN")]).

(** The same stand-in with access tokens for three callers. *)
Definition rootPayload : jsval :=
  JObj [("sub", JStr "u0"); ("role", JStr "SUPERADMIN"); ("tokenType", JStr "access")].
Definition hrPayload : jsval :=
  JObj [("sub", JStr "u9"); ("role", JStr "HR"); ("schoolId", JStr "school-A");
        ("tokenType", JStr "access")].
Definition adminPayload : jsval :=
  JObj [("sub", JStr "u1"); ("tokenType", JStr "access")].

Definition gate_jwt_verify (token secret : string) (now : Z) : VerifyResult :=
  if (secret =? JWT_ACCESS_SECRET sampleEnv)%string then
    if (token =? "at-root")%string then Verified rootPayload
    else if (token =? "at-hr")%string then Verified hrPayload
    else if (token =? "at-admin")%string then Verified adminPayload
    else VerifyError "JsonWebTokenError"
  else sample_jwt_verify token secret now.

Definition gateDeps : Deps :=
  {| env := sampleEnv;
     jwt_sign := sample_jwt_sign;
     jwt_verify := gate_jwt_verify;
     jwt_decode := fun _ => JObj [("exp", JNum 9000)];
     sha256_hex := fun s => String.append "h:" s;
     bcrypt_hash := fun data salt => data;
     bcrypt_compare := fun data hash => (data =? hash)%string;
     zod_isEmail := fun _ => true;
     zod_message := fun _ => "Invalid input";
     toISOString := fun t => if t =? 602000 then "1970-01-01T00:10:02.000Z"
                             else "1970-01-01T00:00:00.000Z";
     isMailerConfigured := true;
     sendPasswordResetOtpEmail := fun _ _ _ => Ok tt |}.

(** The stand-in without a mail service, in production mode. *)
Definition noMailDeps : Deps :=
  {| env := sampleEnv;
     jwt_sign := sample_jwt_sign;
     jwt_verify := sample_jwt_verify;
     jwt_decode := fun _ => JObj [("exp", JNum 9000)];
     sha256_hex := fun s => String.append "h:" s;
     bcrypt_hash := fun data salt => data;
     bcrypt_compare := fun data hash => (data =? hash)%string;
     zod_isEmail := fun _ => true;
     zod_message := fun _ => "Invalid input";
     toISOString := fun t => if t =? 602000 then "1970-01-01T00:10:02.000Z"
                             else "1970-01-01T00:00:00.000Z";
     isMailerConfigured := false;
     sendPasswordResetOtpEmail := fun _ _ _ => Ok tt |}.

Definition cookieOnly (cookie : string) : AuthMiddleware.Request :=
  AuthMiddleware.mkRequest JUndefined JUndefined JUndefined JUndefined JUndefined
                           (JStr cookie).

Definition loggingIn (email password : string) : AuthHandlers.Req :=
  AuthHandlers.mkReq (JObj [("email", JStr email); ("password", JStr password)])
                     JUndefined.

Definition guessing (otp : string) : AuthHandlers.Req :=
  AuthHandlers.mkReq (JObj [("email", JStr "admin@school.edu"); ("otp", JStr otp)])
                     JUndefined.

Definition presenting (refreshToken : string) : AuthHandlers.Req :=
  AuthHandlers.mkReq (JObj [("refreshToken", JStr refreshToken)]) JUndefined.

End Samples.

(** * Properties *)

(** ** Tenant scope *)

Section SchoolScopeFacts.
Import SchoolScope Samples.

Lemma forbidden_is_403 (m : option string) :
  statusCode (forbidden m) = 403 /\ errorCode (forbidden m) = "FORBIDDEN".
Proof. split; reflexivity. Qed.

(** C5.  A tenant-bound caller whose identity has no tenant id is refused
    with Forbidden; one who names a tenant other than their own is refused
    with Forbidden (cross-tenant); in the remaining case the caller's own
    tenant id comes back.  A SUPERADMIN who names a tenant gets that tenant
    back.  "Given" and "carries" are JavaScript truthiness, as in the
    source. *)
Theorem resolveSchoolId_scopes_caller (req : Request) (schoolIdInput : jsval)
        (options : Options) :
  let own := get "schoolId" (user req) in
  (isSuperadmin req = false -> truthy own = false ->
     resolveSchoolId req schoolIdInput options
     = Throw (HttpErr (forbidden (Some "School context is missing for current user"))))
  /\ (isSuperadmin req = false -> truthy own = true ->
      truthy schoolIdInput = true -> strict_eq schoolIdInput own = false ->
      resolveSchoolId req schoolIdInput options
      = Throw (HttpErr (forbidden (Some "Cannot access another school's data"))))
  /\ (isSuperadmin req = false -> truthy own = true ->
      truthy schoolIdInput = false \/ strict_eq schoolIdInput own = true ->
      resolveSchoolId req schoolIdInput options = Ok own)
  /\ (isSuperadmin req = true -> truthy schoolIdInput = true ->
      resolveSchoolId req schoolIdInput options = Ok schoolIdInput)
  /\ (forall m, status (errorHandler (HttpErr (forbidden (Some m)))) = 403).
Proof.
  intro own; unfold resolveSchoolId; fold own.
  repeat split.
  - intros -> ->; reflexivity.
  - intros -> -> -> ->; reflexivity.
  - intros -> -> [-> | ->]; simpl; try reflexivity.
    rewrite andb_false_r; reflexivity.
  - intros -> H; unfold js_or; rewrite H, H.
    rewrite andb_false_r; reflexivity.
Qed.

Lemma resolveSchoolId_scopes_caller_witness :
  resolveSchoolId orphanTeacher (JStr "school-A") (mkOptions None)
  = Throw (HttpErr (forbidden (Some "School context is missing for current user")))
  /\ resolveSchoolId teacherOfA (JStr "school-B") (mkOptions None)
     = Throw (HttpErr (forbidden (Some "Cannot access another school's data")))
  /\ resolveSchoolId teacherOfA JUndefined (mkOptions None) = Ok (JStr "school-A")
  /\ resolveSchoolId teacherOfA (JStr "school-A") (mkOptions None)
     = Ok (JStr "school-A")
  /\ resolveSchoolId platformAdmin (JStr "school-B") (mkOptions (Some true))
     = Ok (JStr "school-B").
Proof.
  destruct (resolveSchoolId_scopes_caller orphanTeacher (JStr "school-A")
              (mkOptions None)) as (H1 & _).
  destruct (resolveSchoolId_scopes_caller teacherOfA (JStr "school-B")
              (mkOptions None)) as (_ & H2 & _).
  destruct (resolveSchoolId_scopes_caller teacherOfA JUndefined
              (mkOptions None)) as (_ & _ & H3 & _).
  destruct (resolveSchoolId_scopes_caller teacherOfA (JStr "school-A")
              (mkOptions None)) as (_ & _ & H4 & _).
  destruct (resolveSchoolId_scopes_caller platformAdmin (JStr "school-B")
              (mkOptions (Some true))) as (_ & _ & _ & H5 & _).
  split; [| split; [| split; [| split]]].
  - apply H1; reflexivity.
  - apply H2; reflexivity.
  - apply H3; [reflexivity | reflexivity | left; reflexivity].
  - apply H4; [reflexivity | reflexivity | right; reflexivity].
  - apply H5; reflexivity.
Defined.

(** C6, as the specification words it, fails: a SUPERADMIN who leaves the
    tenant out of a call that requires one is not answered 403. *)
Lemma superadmin_missing_tenant_is_not_403 :
  ~ (exists e, resolveSchoolId platformAdmin JUndefined (mkOptions (Some true))
               = Throw (HttpErr e)
               /\ status (errorHandler (HttpErr e)) = 403).
Proof.
  intros [e [H St]]. vm_compute in H. inversion H; subst e.
  vm_compute in St. discriminate.
Qed.

(** C6, amended.  A SUPERADMIN who leaves the tenant out of a call that
    requires one gets the bad-request error: HTTP 400 with code
    SCHOOL_CONTEXT_REQUIRED. *)
Theorem superadmin_missing_tenant_is_400 (req : Request) (schoolIdInput : jsval) :
  isSuperadmin req = true -> truthy schoolIdInput = false ->
  exists e,
    resolveSchoolId req schoolIdInput (mkOptions (Some true)) = Throw (HttpErr e)
    /\ e = badRequest "schoolId is required for SUPERADMIN"
                      (Some "SCHOOL_CONTEXT_REQUIRED")
    /\ statusCode e = 400
    /\ errorHandler (HttpErr e)
       = failure 400 "SCHOOL_CONTEXT_REQUIRED" "schoolId is required for SUPERADMIN".
Proof.
  intros Hs Hi. eexists; split; [| split; [reflexivity | split; reflexivity]].
  unfold resolveSchoolId, js_or. rewrite Hs, Hi. reflexivity.
Qed.

Lemma superadmin_missing_tenant_is_400_witness :
  exists e,
    resolveSchoolId platformAdmin JUndefined (mkOptions (Some true))
    = Throw (HttpErr e)
    /\ e = badRequest "schoolId is required for SUPERADMIN"
                      (Some "SCHOOL_CONTEXT_REQUIRED")
    /\ statusCode e = 400
    /\ errorHandler (HttpErr e)
       = failure 400 "SCHOOL_CONTEXT_REQUIRED" "schoolId is required for SUPERADMIN".
Proof.
  apply (superadmin_missing_tenant_is_400 platformAdmin JUndefined); reflexivity.
Defined.

End SchoolScopeFacts.


(** ** Authenticator *)

Section AuthMiddlewareFacts.
Context {D : Deps}.
Import AuthMiddleware.

Lemma parseTokenValue_nonempty (v : jsval) (t : string) :
  parseTokenValue v = Some t -> t <> "".
Proof.
  unfold parseTokenValue. destruct v; try discriminate.
  destruct (trim s =? "")%string; [discriminate |].
  match goal with |- context [if (?t =? "")%string then None else _] =>
    destruct (t =? "")%string eqn:E; [discriminate |];
    destruct ((t =? "undefined")%string || (t =? "null")%string);
      [discriminate |]; intros [= <-]; now apply String.eqb_neq
  end.
Qed.

Lemma firstParsed_nonempty (l : list jsval) (t : string) :
  firstParsed l = Some t -> t <> "".
Proof.
  induction l as [| v l IH]; simpl; [discriminate |].
  destruct (parseTokenValue v) as [p |]; [| exact IH].
  destruct (p =? "")%string eqn:E; [exact IH |].
  intros [= <-]. now apply String.eqb_neq.
Qed.

(** What [extractAccessToken] hands to [jwt.verify] is never empty. *)
Lemma extractAccessToken_nonempty (req : Request) (t : string) :
  extractAccessToken req = Some t -> t <> "".
Proof.
  unfold extractAccessToken.
  destruct (firstParsed _) as [p |] eqn:E.
  - intros [= <-]. exact (firstParsed_nonempty _ _ E).
  - destruct (cookie_accessToken req); try discriminate.
    destruct (trim s =? "")%string eqn:Et; [discriminate |].
    intros [= <-]. now apply String.eqb_neq.
Qed.

Lemma tokenType_makes_object (p : jsval) (k : string) :
  get "tokenType" p = JStr k -> truthy p && typeof_object p = true.
Proof. destruct p; simpl; try discriminate; reflexivity. Qed.

(** C9.  A token that the authenticator extracted and the access secret
    rejects is answered, in this order of precedence: with the
    refresh-used-as-access message when it verifies under the refresh secret
    with kind "refresh"; with code TOKEN_EXPIRED when the access-secret
    failure was an expiry; with the generic invalid-token answer in every
    other case. *)
Theorem auth_failure_taxonomy (req : Request) (now : Z) (token name : string) :
  extractAccessToken req = Some token ->
  jwt_verify token (JWT_ACCESS_SECRET env) now = VerifyError name ->
  (verifies_as_refresh token now ->
     auth req now
     = Respond (failure 401 "UNAUTHORIZED"
         "Refresh token cannot be used here. Send accessToken in Authorization header."))
  /\ (~ verifies_as_refresh token now -> name = "TokenExpiredError" ->
      auth req now
      = Respond (failure 401 "TOKEN_EXPIRED" "Access token expired"))
  /\ (~ verifies_as_refresh token now -> name <> "TokenExpiredError" ->
      auth req now
      = Respond (failure 401 "UNAUTHORIZED" "Invalid or expired access token")).
Proof.
  intros Hext Hacc.
  pose proof (extractAccessToken_nonempty req token Hext) as Hne.
  apply String.eqb_neq in Hne.
  unfold auth. rewrite Hext, Hne, Hacc.
  repeat split.
  - intros (p & Hp & Hk). rewrite Hp.
    rewrite (tokenType_makes_object p _ Hk), Hk. reflexivity.
  - intros Hnot ->.
    destruct (jwt_verify token (JWT_REFRESH_SECRET env) now) as [p |] eqn:Hp;
      [| reflexivity].
    destruct (truthy p && typeof_object p
              && strict_eq (get "tokenType" p) (JStr "refresh")) eqn:E;
      [| reflexivity].
    exfalso; apply Hnot. exists p; split; [exact Hp |].
    apply andb_prop in E as [_ E].
    destruct (get "tokenType" p); simpl in E; try discriminate.
    apply String.eqb_eq in E; now subst.
  - intros Hnot Hname. apply String.eqb_neq in Hname.
    destruct (jwt_verify token (JWT_REFRESH_SECRET env) now) as [p |] eqn:Hp;
      [| now rewrite Hname].
    destruct (truthy p && typeof_object p
              && strict_eq (get "tokenType" p) (JStr "refresh")) eqn:E;
      [| now rewrite Hname].
    exfalso; apply Hnot. exists p; split; [exact Hp |].
    apply andb_prop in E as [_ E].
    destruct (get "tokenType" p); simpl in E; try discriminate.
    apply String.eqb_eq in E; now subst.
Qed.

End AuthMiddlewareFacts.

Lemma auth_failure_taxonomy_witness :
  AuthMiddleware.auth (D := Samples.sampleDeps) (Samples.bearer "Bearer rt-7") 1000
  = AuthMiddleware.Respond (failure 401 "UNAUTHORIZED"
      "Refresh token cannot be used here. Send accessToken in Authorization header.")
  /\ AuthMiddleware.auth (D := Samples.sampleDeps)
       (Samples.bearer "Bearer Bearer at-old") 1000
     = AuthMiddleware.Respond (failure 401 "TOKEN_EXPIRED" "Access token expired")
  /\ AuthMiddleware.auth (D := Samples.sampleDeps) (Samples.bearer "garbage") 1000
     = AuthMiddleware.Respond
         (failure 401 "UNAUTHORIZED" "Invalid or expired access token").
Proof.
  destruct (auth_failure_taxonomy (D := Samples.sampleDeps)
              (Samples.bearer "Bearer rt-7") 1000 "rt-7" "JsonWebTokenError")
    as (H1 & _); [reflexivity | reflexivity |].
  destruct (auth_failure_taxonomy (D := Samples.sampleDeps)
              (Samples.bearer "Bearer Bearer at-old") 1000 "at-old"
              "TokenExpiredError")
    as (_ & H2 & _); [reflexivity | reflexivity |].
  destruct (auth_failure_taxonomy (D := Samples.sampleDeps)
              (Samples.bearer "garbage") 1000 "garbage" "JsonWebTokenError")
    as (_ & _ & H3); [reflexivity | reflexivity |].
  split; [| split].
  - apply H1. eexists; split; reflexivity.
  - apply H2; [| reflexivity].
    intros (p & Hp & _); vm_compute in Hp; discriminate.
  - apply H3; [| discriminate].
    intros (p & Hp & _); vm_compute in Hp; discriminate.
Defined.


(** ** Rows and tables *)

Section TableFacts.
Import Prisma.

Lemma updateMany_keeps {A B} (key : A -> B) (p : A -> bool) (data : A -> A)
      (l : list A) :
  (forall x, key (data x) = key x) ->
  map key (updateMany p data l) = map key l.
Proof.
  intros Hk. unfold updateMany. rewrite map_map.
  apply map_ext. intros x. destruct (p x); [apply Hk | reflexivity].
Qed.

Lemma updateMany_none {A} (p : A -> bool) (data : A -> A) (l : list A) :
  (forall x, In x l -> p x = false) -> updateMany p data l = l.
Proof.
  induction l as [| x l IH]; intros H; simpl; [reflexivity |].
  rewrite (H x (or_introl eq_refl)). f_equal. apply IH.
  intros y Hy. apply H. now right.
Qed.

Lemma In_updateMany {A} (p : A -> bool) (data : A -> A) (l : list A) (x : A) :
  In x l -> In (if p x then data x else x) (updateMany p data l).
Proof.
  intros H. unfold updateMany.
  exact (in_map (fun r => if p r then data r else r) l x H).
Qed.

Lemma In_updateMany_inv {A} (p : A -> bool) (data : A -> A) (l : list A) (y : A) :
  In y (updateMany p data l) ->
  exists x, In x l /\ y = if p x then data x else x.
Proof.
  unfold updateMany. intros H. apply in_map_iff in H as (x & <- & Hx).
  now exists x.
Qed.

Lemma existsb_key_false {A} (key : A -> string) (k : string) (l : list A) :
  existsb (fun x => (key x =? k)%string) l = false -> ~ In k (map key l).
Proof.
  intros H Hin. apply in_map_iff in Hin as (x & Hx & Hl).
  assert (E : existsb (fun x => (key x =? k)%string) l = true).
  { apply existsb_exists. exists x. split; [exact Hl |]. now apply String.eqb_eq. }
  congruence.
Qed.

Lemma find_key_unique {A} (key : A -> string) (l : list A) (x : A) :
  NoDup (map key l) -> In x l ->
  find (fun y => (key y =? key x)%string) l = Some x.
Proof.
  induction l as [| a l IH]; intros Hnd Hin; [contradiction |].
  simpl in *. inversion Hnd as [| ? ? Hnotin Hnd']; subst.
  destruct Hin as [-> | Hin].
  - now rewrite String.eqb_refl.
  - destruct (key a =? key x)%string eqn:E.
    + apply String.eqb_eq in E. exfalso. apply Hnotin. rewrite E.
      now apply in_map.
    + now apply IH.
Qed.

Lemma find_key_some {A} (key : A -> string) (k : string) (l : list A) (x : A) :
  find (fun y => (key y =? k)%string) l = Some x -> In x l /\ key x = k.
Proof.
  intros H. apply find_some in H as [Hin Hk]. split; [exact Hin |].
  now apply String.eqb_eq.
Qed.

Lemma find_app_fresh {A} (key : A -> string) (k : string) (l : list A) (row : A) :
  ~ In k (map key l) -> key row = k ->
  find (fun y => (key y =? k)%string) (l ++ [row])%list = Some row.
Proof.
  induction l as [| a l IH]; intros Hn Hk; simpl.
  - subst k. now rewrite String.eqb_refl.
  - simpl in Hn. destruct (key a =? k)%string eqn:E.
    + apply String.eqb_eq in E. exfalso. apply Hn. now left.
    + apply IH; [| exact Hk]. intros Hin. apply Hn. now right.
Qed.

Lemma find_app_old {A} (f : A -> bool) (l : list A) (x : A) (extra : list A) :
  find f l = Some x -> find f (l ++ extra)%list = Some x.
Proof.
  induction l as [| a l IH]; simpl; [discriminate |].
  destruct (f a); [trivial | exact IH].
Qed.

Lemma NoDup_snoc {B} (l : list B) (b : B) :
  NoDup l -> ~ In b l -> NoDup (l ++ [b])%list.
Proof.
  intros Hl Hb. induction Hl as [| a l Ha Hl IH]; simpl.
  - constructor; [intros [] | constructor].
  - constructor.
    + intros Hin. apply in_app_or in Hin as [Hin | [-> | []]].
      * contradiction.
      * apply Hb. now left.
    + apply IH. intros Hin. apply Hb. now right.
Qed.

End TableFacts.

(** ** Prisma operations that went through *)

Section PrismaFacts.
Import Prisma.

Lemma transaction2_Ok (a b : Db -> result Db) (db db' : Db) :
  transaction [a; b] db = Ok db' ->
  exists d1, a db = Ok d1 /\ b d1 = Ok db'.
Proof.
  simpl. unfold bind. destruct (a db) as [d1 |]; [| discriminate].
  destruct (b d1) as [d2 |] eqn:E; [| discriminate].
  intros H. exists d1. split; [reflexivity |]. now rewrite E.
Qed.

Lemma transaction3_Ok (a b c : Db -> result Db) (db db' : Db) :
  transaction [a; b; c] db = Ok db' ->
  exists d1 d2, a db = Ok d1 /\ b d1 = Ok d2 /\ c d2 = Ok db'.
Proof.
  simpl. unfold bind. destruct (a db) as [d1 |]; [| discriminate].
  destruct (b d1) as [d2 |] eqn:E; [| discriminate].
  destruct (c d2) as [d3 |] eqn:E'; [| discriminate].
  intros H. exists d1, d2. repeat split; [exact E | now rewrite E'].
Qed.

Lemma user_update_Ok (id : string) (f : User -> User) (db db' : Db) :
  user_update id f db = Ok db' ->
  db' = set_users db (updateMany (fun u => (user_id u =? id)%string) f (users db)).
Proof.
  unfold user_update, update, bind.
  destruct (existsb _ (users db)); [| discriminate]. now intros [= <-].
Qed.

Lemma refreshToken_update_Ok (id : string) (f : RefreshToken -> RefreshToken)
      (db db' : Db) :
  refreshToken_update id f db = Ok db' ->
  db' = set_refreshTokens db
          (updateMany (fun t => (rt_id t =? id)%string) f (refreshTokens db)).
Proof.
  unfold refreshToken_update, update, bind.
  destruct (existsb _ (refreshTokens db)); [| discriminate]. now intros [= <-].
Qed.

Lemma refreshToken_create_Ok (row : RefreshToken) (db db' : Db) :
  refreshToken_create row db = Ok db' ->
  db' = set_refreshTokens db (refreshTokens db ++ [row])
  /\ ~ In (rt_id row) (map rt_id (refreshTokens db))
  /\ ~ In (rt_tokenHash row) (map rt_tokenHash (refreshTokens db)).
Proof.
  unfold refreshToken_create.
  destruct (existsb (fun t => (rt_id t =? rt_id row)%string) (refreshTokens db))
    eqn:E1; [discriminate |].
  destruct (existsb (fun t => (rt_tokenHash t =? rt_tokenHash row)%string)
                    (refreshTokens db)) eqn:E2; [discriminate |].
  simpl. destruct (negb _); [discriminate |].
  intros [= <-]. repeat split.
  - now apply existsb_key_false.
  - now apply existsb_key_false.
Qed.

Lemma passwordResetOtp_update_Ok (id : string)
      (f : PasswordResetOtp -> PasswordResetOtp) (db db' : Db) :
  passwordResetOtp_update id f db = Ok db' ->
  db' = set_passwordResetOtps db
          (updateMany (fun o => (otp_id o =? id)%string) f (passwordResetOtps db)).
Proof.
  unfold passwordResetOtp_update, update, bind.
  destruct (existsb _ (passwordResetOtps db)); [| discriminate]. now intros [= <-].
Qed.

Lemma passwordResetOtp_create_Ok (row : PasswordResetOtp) (db db' : Db) :
  passwordResetOtp_create row db = Ok db' ->
  db' = set_passwordResetOtps db (passwordResetOtps db ++ [row])
  /\ ~ In (otp_id row) (map otp_id (passwordResetOtps db)).
Proof.
  unfold passwordResetOtp_create.
  destruct (existsb _ (passwordResetOtps db)) eqn:E; [discriminate |].
  intros [= <-]. split; [reflexivity | now apply existsb_key_false].
Qed.

End PrismaFacts.

(** ** The refresh-token ledger *)

Ltac break_match :=
  match goal with
  | |- context [match ?x with _ => _ end] => destruct x eqn:?
  end.

Section LedgerFacts.
Context {D : Deps}.
Import Prisma AuthHandlers.

Lemma ledger_evolves_same (l : list RefreshToken) : ledger_evolves l l.
Proof.
  exists (fun _ => false), 0, []. split; [| now left].
  rewrite app_nil_r. symmetry. now apply updateMany_none.
Qed.

Lemma ledger_evolves_revoke (p : RefreshToken -> bool) (at_ : Z)
      (l : list RefreshToken) :
  ledger_evolves l (updateMany p (revoke at_) l).
Proof. exists p, at_, []. split; [now rewrite app_nil_r | now left]. Qed.

Lemma ledger_evolves_create (row : RefreshToken) (l : list RefreshToken) :
  ~ In (rt_id row) (map rt_id l) ->
  ~ In (rt_tokenHash row) (map rt_tokenHash l) ->
  ledger_evolves l (l ++ [row]).
Proof.
  intros Hi Hh. exists (fun _ => false), 0, [row]. split.
  - f_equal. symmetry. now apply updateMany_none.
  - right. now exists row.
Qed.

Lemma ledger_evolves_revoke_create (p : RefreshToken -> bool) (at_ : Z)
      (row : RefreshToken) (l : list RefreshToken) :
  ~ In (rt_id row) (map rt_id (updateMany p (revoke at_) l)) ->
  ~ In (rt_tokenHash row) (map rt_tokenHash (updateMany p (revoke at_) l)) ->
  ledger_evolves l (updateMany p (revoke at_) l ++ [row]).
Proof.
  rewrite !updateMany_keeps by reflexivity.
  intros Hi Hh. exists p, at_, [row]. split; [reflexivity |].
  right. now exists row.
Qed.

Lemma evolves_wf (db db' : Db) :
  ledger_evolves (refreshTokens db) (refreshTokens db') ->
  ledger_wf db -> ledger_wf db'.
Proof.
  intros (p & at_ & extra & E & Hextra) [Hid Hh]. unfold ledger_wf.
  rewrite E, !map_app, !updateMany_keeps by reflexivity.
  destruct Hextra as [-> | (row & -> & Hi & Hhh)]; simpl.
  - now rewrite !app_nil_r.
  - split; now apply NoDup_snoc.
Qed.

Lemma evolves_revoked (h : string) (db db' : Db) :
  ledger_evolves (refreshTokens db) (refreshTokens db') ->
  revoked_in h db -> revoked_in h db'.
Proof.
  intros (p & at_ & extra & E & _) (t & Hin & Hh & Hr).
  exists (if p t then revoke at_ t else t). unfold revoked_in. rewrite E.
  repeat split.
  - apply in_or_app. left. now apply In_updateMany.
  - now destruct (p t).
  - destruct (p t); [discriminate | exact Hr].
Qed.

(** A revoked hash is refused by [refresh], whatever the clock says. *)
Lemma refresh_refuses_revoked (c : Ctx) (req : Req) (db : Db) (tok : string) :
  ledger_wf db -> revoked_in (hashToken tok) db ->
  refreshSchema (body req) = Ok tok ->
  exists m, refresh c req db = (Responded (unauthorized (Some m)), db).
Proof.
  intros [_ Hnd] (t & Hin & Hh & Hr) Hparse.
  unfold refresh. rewrite Hparse.
  destruct (jwt_verify tok (JWT_REFRESH_SECRET env) (now c)) as [decoded |];
    [| eexists; reflexivity].
  destruct (negb (truthy decoded) || _ || _ || _); [eexists; reflexivity |].
  unfold refreshToken_findUnique_tokenHash. rewrite <- Hh.
  rewrite (find_key_unique rt_tokenHash _ t Hnd Hin).
  destruct (rt_revokedAt t); [| contradiction].
  eexists; reflexivity.
Qed.

End LedgerFacts.

(** ** What each handler does to the store *)

Section HandlerFacts.
Context {D : Deps}.
Import Prisma AuthHandlers.

Lemma strict_eq_JStr (v : jsval) (s : string) :
  strict_eq v (JStr s) = true -> v = JStr s.
Proof.
  destruct v; simpl; try discriminate.
  intros H. apply String.eqb_eq in H. now subst.
Qed.

Ltac refused := left; split; reflexivity.

(** [refresh] either refuses and leaves the store alone, or every check has
    passed and the store is the old one with the presented entry revoked and
    the entry of the next token added. *)
Lemma refresh_cases (c : Ctx) (req : Req) (db : Db) :
  (succeeded (fst (refresh c req db)) = false /\ snd (refresh c req db) = db)
  \/ exists tok stored u,
      refresh_admits c req db tok stored u
      /\ ~ In (cuid c) (map rt_id (refreshTokens db))
      /\ ~ In (hashToken (issueRefreshToken (buildJwtPayload u) c))
              (map rt_tokenHash (refreshTokens db))
      /\ refresh c req db
         = (Responded (success 200
              (JObj [("accessToken",
                      JStr (issueAccessToken (buildJwtPayload u) (now c)));
                     ("refreshToken",
                      JStr (issueRefreshToken (buildJwtPayload u) c));
                     ("user", toSafeUser u)])),
            set_refreshTokens db
              (updateMany (fun t => (rt_id t =? rt_id stored)%string)
                          (revoke (now c)) (refreshTokens db)
               ++ [newRefreshToken c (user_id u)
                     (issueRefreshToken (buildJwtPayload u) c)])).
Proof.
  unfold refresh.
  destruct (refreshSchema (body req)) as [tok | e] eqn:Hp; [| refused].
  destruct (jwt_verify tok (JWT_REFRESH_SECRET env) (now c)) as [decoded | n]
    eqn:Hv; [| refused].
  destruct (negb (truthy decoded) || negb (typeof_object decoded)
            || negb (strict_eq (get "tokenType" decoded) (JStr "refresh"))
            || negb (typeof_string (get "sub" decoded))) eqn:Hchk; [refused |].
  destruct (refreshToken_findUnique_tokenHash (hashToken tok) db)
    as [stored |] eqn:Hf; [| refused].
  destruct (rt_revokedAt stored) as [r |] eqn:Hr; [refused |]. simpl negb. cbv iota.
  destruct (rt_expiresAt stored <? now c) eqn:Hx; [refused |].
  destruct (user_findUnique_id (rt_userId stored) db) as [u |] eqn:Hu; [| refused].
  destruct (user_isActive u) eqn:Ha; [| refused]. simpl negb. cbv iota.
  destruct (transaction _ db) as [db' | e] eqn:Ht; [| refused].
  right. exists tok, stored, u.
  apply transaction2_Ok in Ht as (d1 & H1 & H2).
  apply refreshToken_update_Ok in H1. subst d1.
  apply refreshToken_create_Ok in H2 as (-> & Hi & Hh).
  simpl in Hi, Hh. rewrite updateMany_keeps in Hi, Hh by reflexivity.
  apply orb_false_elim in Hchk as [Hchk Hsub].
  apply orb_false_elim in Hchk as [_ Hkind].
  apply negb_false_iff in Hsub, Hkind. apply strict_eq_JStr in Hkind.
  apply Z.ltb_ge in Hx.
  repeat split; try assumption.
  exists decoded. repeat split; assumption.
Qed.

Lemma refresh_evolves (c : Ctx) (req : Req) (db : Db) :
  ledger_evolves (refreshTokens db) (refreshTokens (snd (refresh c req db))).
Proof.
  destruct (refresh_cases c req db) as [[_ ->] | (tok & stored & u & _ & Hi & Hh & ->)].
  - apply ledger_evolves_same.
  - simpl. apply ledger_evolves_revoke_create;
      now rewrite updateMany_keeps by reflexivity.
Qed.

Lemma login_evolves (c : Ctx) (req : Req) (db : Db) :
  ledger_evolves (refreshTokens db) (refreshTokens (snd (login c req db))).
Proof.
  unfold login.
  repeat break_match; simpl; try apply ledger_evolves_same.
  match goal with H : transaction _ _ = Ok _ |- _ =>
    apply transaction2_Ok in H as (d1 & H1 & H2) end.
  apply user_update_Ok in H1. subst d1.
  apply refreshToken_create_Ok in H2 as (-> & Hi & Hh).
  simpl in *. now apply ledger_evolves_create.
Qed.

Lemma logout_evolves (c : Ctx) (req : Req) (db : Db) :
  ledger_evolves (refreshTokens db) (refreshTokens (snd (logout c req db))).
Proof.
  unfold logout, refreshToken_updateMany.
  destruct (logoutSchema _) as [[tok |] | e]; simpl;
    try apply ledger_evolves_same.
  apply ledger_evolves_revoke.
Qed.

Lemma me_keeps (c : Ctx) (req : Req) (db : Db) : snd (me c req db) = db.
Proof. unfold me. repeat break_match; reflexivity. Qed.

Lemma changePassword_cases (c : Ctx) (req : Req) (db : Db) :
  (succeeded (fst (changePassword c req db)) = false
   /\ snd (changePassword c req db) = db)
  \/ exists u newPassword,
      get "sub" (user req) = JStr (user_id u)
      /\ user_findUnique_id (user_id u) db = Some u
      /\ changePassword c req db
         = (Responded (success 200
              (JObj [("message",
                      JStr "Password changed successfully. Please login again.")])),
            passwordChanged c u (bcrypt_hash newPassword (genSalt c)) db).
Proof.
  unfold changePassword.
  destruct (get "sub" (user req)) as [| | | | userId |] eqn:Hsub; try refused.
  destruct (userId =? "")%string; [refused |].
  destruct (changePasswordSchema (body req)) as [[cur new] | e]; [| refused].
  destruct (user_findUnique_id userId db) as [u |] eqn:Hu; [| refused].
  destruct (user_isActive u); [| refused]. simpl negb. cbv iota.
  destruct (bcrypt_compare cur (user_passwordHash u)); [| refused].
  simpl negb. cbv iota.
  destruct (bcrypt_compare new (user_passwordHash u)); [refused |].
  destruct (transaction _ db) as [db' | e] eqn:Ht; [| refused].
  right. exists u, new.
  apply transaction2_Ok in Ht as (d1 & H1 & H2).
  apply user_update_Ok in H1. subst d1.
  unfold refreshToken_updateMany in H2. injection H2 as <-.
  pose proof (find_key_some user_id userId (users db) u Hu) as [_ Hid].
  subst userId. repeat split; assumption.
Qed.

Lemma resetPassword_cases (c : Ctx) (req : Req) (db : Db) :
  (succeeded (fst (resetPassword c req db)) = false
   /\ snd (resetPassword c req db) = db)
  \/ exists u newPassword resetToken decoded,
      resetPasswordSchema (body req) = Ok (resetToken, newPassword)
      /\ jwt_verify resetToken passwordResetSecret (now c) = Verified decoded
      /\ get "sub" decoded = JStr (user_id u)
      /\ user_findUnique_id (user_id u) db = Some u
      /\ resetPassword c req db
         = (Responded (success 200
              (JObj [("message",
                      JStr "Password reset successful. Please login again.")])),
            set_passwordResetOtps
              (passwordChanged c u (bcrypt_hash newPassword (genSalt c)) db)
              (updateMany (fun o => (otp_email o =? user_email u)%string
                                    && is_null (otp_usedAt o))
                          (markUsed (now c)) (passwordResetOtps db))).
Proof.
  unfold resetPassword.
  destruct (resetPasswordSchema (body req)) as [[tok new] | e] eqn:Hp;
    [| refused].
  destruct (jwt_verify tok passwordResetSecret (now c)) as [decoded | n] eqn:Hv;
    [| refused].
  destruct (negb (truthy decoded) || _ || _ || _ || _); [refused |].
  destruct (get "sub" decoded) as [| | | | sub |] eqn:Hsub; try refused.
  destruct (user_findUnique_id sub db) as [u |] eqn:Hu; [| refused].
  destruct (negb (user_isActive u) || _); [refused |].
  destruct (transaction _ db) as [db' | e] eqn:Ht; [| refused].
  right. exists u, new, tok, decoded.
  apply transaction3_Ok in Ht as (d1 & d2 & H1 & H2 & H3).
  apply user_update_Ok in H1. subst d1.
  unfold refreshToken_updateMany in H2. injection H2 as <-.
  unfold passwordResetOtp_updateMany in H3. injection H3 as <-.
  pose proof (find_key_some user_id sub (users db) u Hu) as [_ Hid].
  subst sub. repeat split; try assumption; reflexivity.
Qed.

(** [verifyOtp] either refuses and leaves the store alone, or it found the
    newest unused record of the address, the code matched, and that record is
    now marked used. *)
Lemma verifyOtp_cases (c : Ctx) (req : Req) (db : Db) :
  (succeeded (fst (verifyOtp c req db)) = false /\ snd (verifyOtp c req db) = db)
  \/ exists email otp record u,
      verifyOtpSchema (body req) = Ok (email, otp)
      /\ passwordResetOtp_findFirst_desc
           (fun o => (otp_email o =? toLowerCase email)%string
                     && is_null (otp_usedAt o)) db = Some record
      /\ now c < otp_expiresAt record
      /\ bcrypt_compare otp (otp_otpHash record) = true
      /\ user_findUnique_email (toLowerCase email) db = Some u
      /\ user_isActive u = true
      /\ verifyOtp c req db
         = (Responded (success 200
              (JObj [("resetToken",
                      JStr (issuePasswordResetToken
                              [("sub", JStr (user_id u));
                               ("email", JStr (user_email u))] c));
                     ("expiresIn", JStr (PASSWORD_RESET_TOKEN_EXPIRES_IN env))])),
            set_passwordResetOtps db
              (updateMany (fun o => (otp_id o =? otp_id record)%string)
                          (markUsed (now c)) (passwordResetOtps db))).
Proof.
  unfold verifyOtp.
  destruct (verifyOtpSchema (body req)) as [[email otp] | e]; [| refused].
  destruct (passwordResetOtp_findFirst_desc _ db) as [record |] eqn:Hf;
    [| refused].
  destruct (otp_expiresAt record <=? now c) eqn:Hx; [refused |].
  destruct (bcrypt_compare otp (otp_otpHash record)) eqn:Hc; [| refused].
  simpl negb. cbv iota.
  destruct (user_findUnique_email (toLowerCase email) db) as [u |] eqn:Hu;
    [| refused].
  destruct (user_isActive u) eqn:Ha; [| refused]. simpl negb. cbv iota.
  destruct (passwordResetOtp_update _ _ db) as [db' | e] eqn:Ht; [| refused].
  right. exists email, otp, record, u.
  apply passwordResetOtp_update_Ok in Ht. subst db'.
  apply Z.leb_gt in Hx. repeat split; assumption.
Qed.

Lemma forgotPassword_cases (c : Ctx) (req : Req) (db : Db) :
  snd (forgotPassword c req db) = db
  \/ exists email u,
      forgotPasswordSchema (body req) = Ok email
      /\ user_findUnique_email (toLowerCase email) db = Some u
      /\ user_isActive u = true
      /\ ~ In (cuid c) (map otp_id (passwordResetOtps db))
      /\ snd (forgotPassword c req db)
         = set_passwordResetOtps db (otpsAfterIssue c email db).
Proof.
  unfold forgotPassword.
  destruct (forgotPasswordSchema (body req)) as [email | e]; [| now left].
  destruct (user_findUnique_email (toLowerCase email) db) as [u |] eqn:Hu;
    [| now left].
  destruct (user_isActive u) eqn:Ha; [| now left]. simpl negb. cbv iota.
  destruct (transaction _ db) as [db' | e] eqn:Ht; [| now left].
  right. exists email, u.
  apply transaction2_Ok in Ht as (d1 & H1 & H2).
  unfold passwordResetOtp_updateMany in H1. injection H1 as <-.
  apply passwordResetOtp_create_Ok in H2 as (-> & Hi).
  simpl in Hi. rewrite updateMany_keeps in Hi by reflexivity.
  repeat split; try assumption.
  destruct isMailerConfigured.
  - destruct (sendPasswordResetOtpEmail _ _ _); reflexivity.
  - destruct (NODE_ENV env =? "production")%string; reflexivity.
Qed.

(** The login route is the login handler, or the limiter's answer with the
    store untouched. *)
Lemma POST_auth_login_cases (c : Ctx) (req : Req) (db : Db) :
  POST_auth_login c req db = login c req db
  \/ POST_auth_login c req db = (Responded AuthRateLimit.handler, db).
Proof.
  unfold POST_auth_login, AuthRateLimit.loginRateLimiter.
  destruct (overLimit c); [now right | now left].
Qed.

Lemma handle_evolves (r : Route) (c : Ctx) (req : Req) (db : Db) :
  ledger_evolves (refreshTokens db) (refreshTokens (snd (handle r c req db))).
Proof.
  destruct r; simpl.
  - destruct (POST_auth_login_cases c req db) as [-> | ->];
      [apply login_evolves | apply ledger_evolves_same].
  - apply refresh_evolves.
  - apply logout_evolves.
  - rewrite me_keeps. apply ledger_evolves_same.
  - destruct (forgotPassword_cases c req db) as [-> | (e & u & _ & _ & _ & _ & ->)];
      apply ledger_evolves_same.
  - destruct (verifyOtp_cases c req db)
      as [[_ ->] | (e & o & rec & u & _ & _ & _ & _ & _ & _ & ->)];
      apply ledger_evolves_same.
  - destruct (resetPassword_cases c req db)
      as [[_ ->] | (u & pw & tok & dec & _ & _ & _ & _ & ->)];
      [apply ledger_evolves_same | apply ledger_evolves_revoke].
  - destruct (changePassword_cases c req db) as [[_ ->] | (u & pw & _ & _ & ->)];
      [apply ledger_evolves_same | apply ledger_evolves_revoke].
Qed.

(** Across any sequence of [/auth] requests the ledger keeps its keys unique
    and a revoked hash stays revoked. *)
Lemma serve_ledger (calls : list (Route * Ctx * Req)) (db : Db) (h : string) :
  ledger_wf db ->
  ledger_wf (serve calls db)
  /\ (revoked_in h db -> revoked_in h (serve calls db)).
Proof.
  revert db. induction calls as [| [[r c] req] calls IH]; intros db Hwf; simpl.
  - now split.
  - pose proof (handle_evolves r c req db) as Hev.
    destruct (IH _ (evolves_wf _ _ Hev Hwf)) as [Hwf' Hrev].
    split; [exact Hwf' |].
    intros Hr. apply Hrev. exact (evolves_revoked h _ _ Hev Hr).
Qed.

End HandlerFacts.

(** ** Refresh *)

Section RefreshFacts.
Context {D : Deps}.
Import Prisma AuthHandlers.

(** C1.  A refresh that succeeds does, in one transaction, set the
    revocation timestamp of the entry it was called with and add the entry of
    the token it hands out; from then on, after any further [/auth] traffic
    and at any clock reading, a refresh presenting the old token again is
    answered 401 and changes nothing. *)
Theorem refresh_rotation (c : Ctx) (req : Req) (db db' : Db) (r : Response) :
  ledger_wf db ->
  refresh c req db = (Responded r, db') -> status r = 200 ->
  exists tok stored u,
    refresh_admits c req db tok stored u
    /\ refreshTokens db'
       = (updateMany (fun t => (rt_id t =? rt_id stored)%string)
                     (revoke (now c)) (refreshTokens db)
          ++ [newRefreshToken c (user_id u)
                (issueRefreshToken (buildJwtPayload u) c)])%list
    /\ refreshToken_findUnique_tokenHash (hashToken tok) db'
       = Some (revoke (now c) stored)
    /\ refreshToken_findUnique_tokenHash
         (hashToken (issueRefreshToken (buildJwtPayload u) c)) db'
       = Some (newRefreshToken c (user_id u)
                 (issueRefreshToken (buildJwtPayload u) c))
    /\ get "refreshToken" (get "data" (json r))
       = JStr (issueRefreshToken (buildJwtPayload u) c)
    /\ forall calls c2 req2,
         refreshSchema (body req2) = Ok tok ->
         exists m,
           refresh c2 req2 (serve calls db')
           = (Responded (failure 401 "UNAUTHORIZED" m), serve calls db').
Proof.
  intros Hwf Hrun Hst.
  destruct (refresh_cases c req db)
    as [[Hfail _] | (tok & stored & u & Hadm & Hi & Hh & Heq)].
  { rewrite Hrun in Hfail. simpl in Hfail.
    apply Z.eqb_neq in Hfail. contradiction. }
  rewrite Hrun in Heq. injection Heq as -> ->.
  exists tok, stored, u.
  pose proof Hadm as (Hparse & _ & Hfind & Hrev & _).
  destruct Hwf as [Hid Hhash].
  apply find_key_some in Hfind as [Hin Hkey].
  assert (Hold : refreshToken_findUnique_tokenHash (hashToken tok)
                   (set_refreshTokens db
                      (updateMany (fun t => (rt_id t =? rt_id stored)%string)
                                  (revoke (now c)) (refreshTokens db)
                       ++ [newRefreshToken c (user_id u)
                             (issueRefreshToken (buildJwtPayload u) c)]))
                 = Some (revoke (now c) stored)).
  { unfold refreshToken_findUnique_tokenHash. simpl refreshTokens.
    apply find_app_old.
    rewrite <- Hkey.
    change (rt_tokenHash stored) with (rt_tokenHash (revoke (now c) stored)).
    apply find_key_unique.
    - now rewrite updateMany_keeps by reflexivity.
    - pose proof (In_updateMany (fun t => (rt_id t =? rt_id stored)%string)
                                (revoke (now c)) _ _ Hin) as H.
      simpl in H. now rewrite String.eqb_refl in H. }
  split; [exact Hadm |]. split; [reflexivity |]. split; [exact Hold |].
  split; [| split; [reflexivity |]].
  - unfold refreshToken_findUnique_tokenHash. simpl refreshTokens.
    apply find_app_fresh; [| reflexivity].
    now rewrite updateMany_keeps by reflexivity.
  - intros calls c2 req2 Hparse2.
    set (db1 := set_refreshTokens db _) in *.
    assert (Hwf1 : ledger_wf db1).
    { apply (evolves_wf db db1); [| now split].
      pose proof (refresh_evolves c req db) as Hev.
      rewrite Hrun in Hev. exact Hev. }
    assert (Hrev1 : revoked_in (hashToken tok) db1).
    { apply find_key_some in Hold as [Hin1 Hk1].
      exists (revoke (now c) stored). repeat split; [exact Hin1 | exact Hk1 |].
      discriminate. }
    destruct (serve_ledger calls db1 (hashToken tok) Hwf1) as [Hwf2 Hrev2].
    destruct (refresh_refuses_revoked c2 req2 _ tok Hwf2 (Hrev2 Hrev1) Hparse2)
      as [m Hm].
    eexists. exact Hm.
Qed.

(** C10.  A refresh that is not answered 200 leaves the store exactly as it
    found it, and a refresh answered 200 passed every check: body, signature,
    token kind, ledger entry present, unrevoked and unexpired, owner active. *)
Theorem refresh_failure_writes_nothing (c : Ctx) (req : Req) (db : Db) :
  (succeeded (fst (refresh c req db)) = false -> snd (refresh c req db) = db)
  /\ (succeeded (fst (refresh c req db)) = true ->
      exists tok stored u, refresh_admits c req db tok stored u).
Proof.
  destruct (refresh_cases c req db)
    as [[Hfail Hsame] | (tok & stored & u & Hadm & _ & _ & Heq)].
  - split; [intros _; exact Hsame | intros H; congruence].
  - split.
    + rewrite Heq. simpl. discriminate.
    + intros _. now exists tok, stored, u.
Qed.

(** C8, amended.  Once signature and payload are accepted, the four ledger
    checks all answer 401 with code UNAUTHORIZED and leave the store alone; a
    missing and a revoked entry share one message, an expired entry and an
    inactive or missing owner each have their own. *)
Theorem refresh_ledger_failures (c : Ctx) (req : Req) (db : Db)
        (tok : string) (decoded : jsval) :
  refreshSchema (body req) = Ok tok ->
  jwt_verify tok (JWT_REFRESH_SECRET env) (now c) = Verified decoded ->
  get "tokenType" decoded = JStr "refresh" ->
  typeof_string (get "sub" decoded) = true ->
  let found := refreshToken_findUnique_tokenHash (hashToken tok) db in
  let answer m := (Responded (failure 401 "UNAUTHORIZED" m), db) in
  (found = None ->
     refresh c req db = answer "Refresh token is revoked or invalid")
  /\ (forall t, found = Some t -> rt_revokedAt t <> None ->
      refresh c req db = answer "Refresh token is revoked or invalid")
  /\ (forall t, found = Some t -> rt_revokedAt t = None ->
      rt_expiresAt t < now c ->
      refresh c req db = answer "Refresh token is expired")
  /\ (forall t, found = Some t -> rt_revokedAt t = None ->
      now c <= rt_expiresAt t ->
      user_findUnique_id (rt_userId t) db = None
      \/ (exists u, user_findUnique_id (rt_userId t) db = Some u
                    /\ user_isActive u = false) ->
      refresh c req db = answer "User is inactive").
Proof.
  intros Hparse Hver Hkind Hsub found answer.
  assert (Hchk : negb (truthy decoded) || negb (typeof_object decoded)
                 || negb (strict_eq (get "tokenType" decoded) (JStr "refresh"))
                 || negb (typeof_string (get "sub" decoded)) = false).
  { rewrite Hsub, Hkind. destruct decoded; try discriminate. reflexivity. }
  unfold refresh. rewrite Hparse, Hver, Hchk. fold found.
  repeat split.
  - intros ->. reflexivity.
  - intros t -> Hr. destruct (rt_revokedAt t); [reflexivity | contradiction].
  - intros t -> -> Hx. apply Z.ltb_lt in Hx. simpl. rewrite Hx. reflexivity.
  - intros t -> -> Hx Hu. apply Z.ltb_ge in Hx. simpl. rewrite Hx.
    destruct Hu as [-> | (u & -> & ->)]; reflexivity.
Qed.

End RefreshFacts.

Lemma db0_ledger_wf : ledger_wf Samples.db0.
Proof.
  split; simpl; (constructor; [intros [] | constructor]).
Qed.

Lemma refresh_rotation_witness :
  exists m,
    AuthHandlers.refresh (D := Samples.sampleDeps) Samples.at3s
      (Samples.presenting "rt-1")
      (snd (AuthHandlers.refresh (D := Samples.sampleDeps) Samples.at2s
              (Samples.presenting "rt-1") Samples.db0))
    = (AuthHandlers.Responded (failure 401 "UNAUTHORIZED" m),
       snd (AuthHandlers.refresh (D := Samples.sampleDeps) Samples.at2s
              (Samples.presenting "rt-1") Samples.db0)).
Proof.
  eassert (E : AuthHandlers.refresh (D := Samples.sampleDeps) Samples.at2s
                 (Samples.presenting "rt-1") Samples.db0
               = (AuthHandlers.Responded _, _)) by (vm_compute; reflexivity).
  destruct (refresh_rotation (D := Samples.sampleDeps) _ _ _ _ _
              db0_ledger_wf E eq_refl)
    as (tok & stored & u & Hadm & _ & _ & _ & _ & H).
  destruct Hadm as (Hparse & _). vm_compute in Hparse.
  injection Hparse as <-.
  destruct (H [] Samples.at3s (Samples.presenting "rt-1") eq_refl) as [m Hm].
  exists m. rewrite E. exact Hm.
Defined.

Lemma refresh_failure_writes_nothing_witness :
  snd (AuthHandlers.refresh (D := Samples.sampleDeps) Samples.at2s
         (Samples.presenting "garbage") Samples.db0) = Samples.db0
  /\ exists tok stored u,
      refresh_admits (D := Samples.sampleDeps) Samples.at2s
                     (Samples.presenting "rt-1") Samples.db0 tok stored u.
Proof.
  split.
  - apply (refresh_failure_writes_nothing (D := Samples.sampleDeps)).
    vm_compute. reflexivity.
  - apply (refresh_failure_writes_nothing (D := Samples.sampleDeps)).
    vm_compute. reflexivity.
Defined.

(** C8, as the specification words it, fails: the answers to a revoked, an
    expired and an inactive-owner entry differ in their message, so the caller
    learns which check refused the token. *)
Lemma refresh_tells_ledger_failures_apart :
  let ask c db :=
    fst (AuthHandlers.refresh (D := Samples.sampleDeps) c
           (Samples.presenting "rt-1") db) in
  ask Samples.at2s Samples.db0_revoked
  = AuthHandlers.Responded
      (failure 401 "UNAUTHORIZED" "Refresh token is revoked or invalid")
  /\ ask Samples.muchLater Samples.db0
     = AuthHandlers.Responded (failure 401 "UNAUTHORIZED" "Refresh token is expired")
  /\ ask Samples.at2s Samples.db0_inactive_owner
     = AuthHandlers.Responded (failure 401 "UNAUTHORIZED" "User is inactive")
  /\ ask Samples.at2s Samples.db0_revoked <> ask Samples.muchLater Samples.db0
  /\ ask Samples.muchLater Samples.db0 <> ask Samples.at2s Samples.db0_inactive_owner
  /\ ask Samples.at2s Samples.db0_revoked <> ask Samples.at2s Samples.db0_inactive_owner.
Proof.
  intro ask. repeat split; try (vm_compute; reflexivity);
    vm_compute; discriminate.
Qed.

Lemma refresh_ledger_failures_witness :
  AuthHandlers.refresh (D := Samples.sampleDeps) Samples.at2s
    (Samples.presenting "rt-9") Samples.db0
  = (AuthHandlers.Responded
       (failure 401 "UNAUTHORIZED" "Refresh token is revoked or invalid"),
     Samples.db0)
  /\ AuthHandlers.refresh (D := Samples.sampleDeps) Samples.at2s
       (Samples.presenting "rt-1") Samples.db0_revoked
     = (AuthHandlers.Responded
          (failure 401 "UNAUTHORIZED" "Refresh token is revoked or invalid"),
        Samples.db0_revoked)
  /\ AuthHandlers.refresh (D := Samples.sampleDeps) Samples.muchLater
       (Samples.presenting "rt-1") Samples.db0
     = (AuthHandlers.Responded
          (failure 401 "UNAUTHORIZED" "Refresh token is expired"), Samples.db0)
  /\ AuthHandlers.refresh (D := Samples.sampleDeps) Samples.at2s
       (Samples.presenting "rt-1") Samples.db0_inactive_owner
     = (AuthHandlers.Responded (failure 401 "UNAUTHORIZED" "User is inactive"),
        Samples.db0_inactive_owner).
Proof.
  pose (payload := JObj [("sub", JStr "u1"); ("tokenType", JStr "refresh")]).
  destruct (refresh_ledger_failures (D := Samples.sampleDeps) Samples.at2s
              (Samples.presenting "rt-9") Samples.db0 "rt-9" payload
              eq_refl eq_refl eq_refl eq_refl) as (H1 & _).
  destruct (refresh_ledger_failures (D := Samples.sampleDeps) Samples.at2s
              (Samples.presenting "rt-1") Samples.db0_revoked "rt-1" payload
              eq_refl eq_refl eq_refl eq_refl) as (_ & H2 & _).
  destruct (refresh_ledger_failures (D := Samples.sampleDeps) Samples.muchLater
              (Samples.presenting "rt-1") Samples.db0 "rt-1" payload
              eq_refl eq_refl eq_refl eq_refl) as (_ & _ & H3 & _).
  destruct (refresh_ledger_failures (D := Samples.sampleDeps) Samples.at2s
              (Samples.presenting "rt-1") Samples.db0_inactive_owner "rt-1" payload
              eq_refl eq_refl eq_refl eq_refl) as (_ & _ & _ & H4).
  split; [| split; [| split]].
  - apply H1. reflexivity.
  - apply (H2 (AuthHandlers.revoke 1500 Samples.live1)); [reflexivity | discriminate].
  - apply (H3 Samples.live1); [reflexivity | reflexivity | reflexivity].
  - apply (H4 (mkRefreshToken "row-1" "u2" "h:rt-1" 9000000 None 1000));
      [reflexivity | reflexivity | discriminate |].
    right. exists Samples.retired. split; reflexivity.
Defined.

(** ** Logout *)

Section LogoutFacts.
Context {D : Deps}.
Import Prisma AuthHandlers.

Lemma updateMany_again {A} (p : A -> bool) (data data' : A -> A) (l : list A) :
  (forall x, p (data x) = false) ->
  updateMany p data' (updateMany p data l) = updateMany p data l.
Proof.
  intros Hp. apply updateMany_none. intros y Hy.
  apply In_updateMany_inv in Hy as (x & _ & ->).
  destruct (p x) eqn:E; [apply Hp | exact E].
Qed.

(** C4.  Whenever the body passes [logoutSchema] (no token, or any non-empty
    token string, known to the ledger or not), logout answers 200 with the
    same body; it revokes only entries whose revocation timestamp is still
    null; and a second logout with the same body answers the same and leaves
    the store as the first one left it. *)
Theorem logout_idempotent (c1 c2 : Ctx) (req : Req) (db : Db)
        (refreshToken : option string) :
  logoutSchema (js_or (body req) (JObj [])) = Ok refreshToken ->
  let loggedOut := Responded (success 200 (JObj [("message", JStr "Logged out")])) in
  let db1 := snd (logout c1 req db) in
  fst (logout c1 req db) = loggedOut
  /\ logout c2 req db1 = (loggedOut, db1)
  /\ users db1 = users db
  /\ passwordResetOtps db1 = passwordResetOtps db
  /\ exists hit,
      refreshTokens db1
      = updateMany (fun t => hit t && is_null (rt_revokedAt t))
                   (revoke (now c1)) (refreshTokens db).
Proof.
  intros Hparse loggedOut db1. subst db1. unfold logout. rewrite Hparse.
  destruct refreshToken as [tok |]; simpl.
  - repeat split.
    + unfold set_refreshTokens. simpl. f_equal. f_equal.
      apply updateMany_again. intros x. simpl. apply andb_false_r.
    + now exists (fun t => (rt_tokenHash t =? hashToken tok)%string).
  - repeat split. exists (fun _ => false).
    symmetry. now apply updateMany_none.
Qed.

End LogoutFacts.

Lemma logout_idempotent_witness :
  let loggedOut :=
    AuthHandlers.Responded (success 200 (JObj [("message", JStr "Logged out")])) in
  let db1 := snd (AuthHandlers.logout (D := Samples.sampleDeps) Samples.at2s
                    (Samples.presenting "rt-1") Samples.db0) in
  fst (AuthHandlers.logout (D := Samples.sampleDeps) Samples.at2s
         (Samples.presenting "rt-1") Samples.db0) = loggedOut
  /\ AuthHandlers.logout (D := Samples.sampleDeps) Samples.at3s
       (Samples.presenting "rt-1") db1 = (loggedOut, db1)
  /\ AuthHandlers.logout (D := Samples.sampleDeps) Samples.at3s
       (Samples.presenting "never-issued") Samples.db0 = (loggedOut, Samples.db0).
Proof.
  intros loggedOut db1.
  destruct (logout_idempotent (D := Samples.sampleDeps) Samples.at2s Samples.at3s
              (Samples.presenting "rt-1") Samples.db0 (Some "rt-1") eq_refl)
    as (H1 & H2 & _).
  destruct (logout_idempotent (D := Samples.sampleDeps) Samples.at3s Samples.at3s
              (Samples.presenting "never-issued") Samples.db0
              (Some "never-issued") eq_refl)
    as (H3 & _).
  split; [exact H1 | split; [exact H2 |]].
  rewrite (surjective_pairing (AuthHandlers.logout _ _ _)).
  rewrite H3. reflexivity.
Defined.

(** ** Password change and reset *)

Section PasswordFacts.
Context {D : Deps}.
Import Prisma AuthHandlers.

Lemma find_updateMany_key {A} (key : A -> string) (k : string) (data : A -> A)
      (l : list A) :
  (forall x, key (data x) = key x) ->
  find (fun y => (key y =? k)%string)
       (updateMany (fun y => (key y =? k)%string) data l)
  = option_map data (find (fun y => (key y =? k)%string) l).
Proof.
  intros Hk. induction l as [| a l IH]; simpl; [reflexivity |].
  destruct (key a =? k)%string eqn:E.
  - rewrite Hk, E. reflexivity.
  - rewrite E. exact IH.
Qed.

(** In the store [passwordChanged] builds, the account has the new hash and
    every ledger entry of the account is revoked. *)
Lemma passwordChanged_effect (c : Ctx) (u : User) (h : string) (db : Db) :
  user_findUnique_id (user_id u) db = Some u ->
  user_findUnique_id (user_id u) (passwordChanged c u h db)
  = Some (setPasswordHash h u)
  /\ forall t, In t (refreshTokens db) -> rt_userId t = user_id u ->
               revoked_in (rt_tokenHash t) (passwordChanged c u h db).
Proof.
  intros Hu. split.
  - unfold user_findUnique_id, passwordChanged. simpl.
    rewrite (find_updateMany_key user_id) by reflexivity.
    unfold user_findUnique_id in Hu. now rewrite Hu.
  - intros t Hin Hown. unfold revoked_in, passwordChanged. simpl.
    pose proof (In_updateMany
                  (fun t => (rt_userId t =? user_id u)%string
                            && is_null (rt_revokedAt t))
                  (revoke (now c)) _ _ Hin) as H.
    simpl in H. eexists. split; [exact H |].
    rewrite Hown, String.eqb_refl. simpl.
    destruct (rt_revokedAt t) eqn:E; simpl; split; try reflexivity;
      congruence.
Qed.

(** C2.  When change-password or reset-password is answered 200, the store
    it leaves is the old one with, from one and the same transaction, the
    account's password hash replaced and every unrevoked ledger entry of the
    account revoked; a refresh presenting a token of any such entry is then
    answered 401, after any further [/auth] traffic and at any clock reading. *)
Theorem password_change_revokes_sessions (c : Ctx) (req : Req) (db db' : Db)
        (r : Response) :
  ledger_wf db ->
  changePassword c req db = (Responded r, db')
  \/ resetPassword c req db = (Responded r, db') ->
  status r = 200 ->
  exists u h,
    user_findUnique_id (user_id u) db = Some u
    /\ (changePassword c req db = (Responded r, db') ->
        get "sub" (user req) = JStr (user_id u))
    /\ (resetPassword c req db = (Responded r, db') ->
        exists resetToken newPassword decoded,
          resetPasswordSchema (body req) = Ok (resetToken, newPassword)
          /\ jwt_verify resetToken passwordResetSecret (now c) = Verified decoded
          /\ get "sub" decoded = JStr (user_id u))
    /\ users db'
       = updateMany (fun x => (user_id x =? user_id u)%string)
                    (setPasswordHash h) (users db)
    /\ refreshTokens db'
       = updateMany (fun t => (rt_userId t =? user_id u)%string
                              && is_null (rt_revokedAt t))
                    (revoke (now c)) (refreshTokens db)
    /\ user_findUnique_id (user_id u) db' = Some (setPasswordHash h u)
    /\ (forall t, In t (refreshTokens db) -> rt_userId t = user_id u ->
                  revoked_in (rt_tokenHash t) db')
    /\ (forall t tok calls c2 req2,
          In t (refreshTokens db) -> rt_userId t = user_id u ->
          rt_tokenHash t = hashToken tok ->
          refreshSchema (body req2) = Ok tok ->
          exists m,
            refresh c2 req2 (serve calls db')
            = (Responded (failure 401 "UNAUTHORIZED" m), serve calls db')).
Proof.
  intros Hwf Hrun Hst.
  assert (Hok : forall p : Outcome * Db,
             p = (Responded r, db') -> succeeded (fst p) = false -> False).
  { intros p -> Hf. simpl in Hf. apply Z.eqb_neq in Hf. contradiction. }
  assert (Hshape : exists u h otps,
             user_findUnique_id (user_id u) db = Some u
             /\ db' = set_passwordResetOtps (passwordChanged c u h db) otps
             /\ (changePassword c req db = (Responded r, db') ->
                 get "sub" (user req) = JStr (user_id u))
             /\ (resetPassword c req db = (Responded r, db') ->
                 exists resetToken newPassword decoded,
                   resetPasswordSchema (body req) = Ok (resetToken, newPassword)
                   /\ jwt_verify resetToken passwordResetSecret (now c)
                      = Verified decoded
                   /\ get "sub" decoded = JStr (user_id u))).
  { destruct (changePassword_cases c req db)
      as [[Hf1 _] | (u1 & pw1 & Hsub1 & Hu1 & Heq1)];
    destruct (resetPassword_cases c req db)
      as [[Hf2 _] | (u2 & pw2 & tok & dec & Hp & Hv & Hsub2 & Hu2 & Heq2)].
    - exfalso. destruct Hrun as [Hrun | Hrun].
      + apply (Hok _ Hrun Hf1).
      + apply (Hok _ Hrun Hf2).
    - destruct Hrun as [Hrun | Hrun].
      + exfalso. apply (Hok _ Hrun Hf1).
      + pose proof Hrun as Hrun'. rewrite Heq2 in Hrun'. injection Hrun' as _ <-.
        exists u2, (bcrypt_hash pw2 (genSalt c)). eexists.
        split; [exact Hu2 |]. split; [reflexivity |]. split.
        * intros H1. exfalso.
          apply (Hok _ H1 Hf1).
        * intros _. now exists tok, pw2, dec.
    - destruct Hrun as [Hrun | Hrun].
      + pose proof Hrun as Hrun'. rewrite Heq1 in Hrun'. injection Hrun' as _ <-.
        exists u1, (bcrypt_hash pw1 (genSalt c)), (passwordResetOtps db).
        split; [exact Hu1 |]. split; [reflexivity |]. split.
        * intros _. exact Hsub1.
        * intros H2. exfalso.
          apply (Hok _ H2 Hf2).
      + exfalso. apply (Hok _ Hrun Hf2).
    - (* both calls would succeed: the answers differ, so [r] picks one *)
      destruct Hrun as [Hrun | Hrun].
      + pose proof Hrun as Hrun'. rewrite Heq1 in Hrun'.
        injection Hrun' as Hr <-.
        exists u1, (bcrypt_hash pw1 (genSalt c)), (passwordResetOtps db).
        split; [exact Hu1 |]. split; [reflexivity |]. split.
        * intros _. exact Hsub1.
        * intros H2. rewrite Heq2 in H2. subst r. discriminate H2.
      + pose proof Hrun as Hrun'. rewrite Heq2 in Hrun'.
        injection Hrun' as Hr <-.
        exists u2, (bcrypt_hash pw2 (genSalt c)). eexists.
        split; [exact Hu2 |]. split; [reflexivity |]. split.
        * intros H1. rewrite Heq1 in H1. subst r. discriminate H1.
        * intros _. now exists tok, pw2, dec. }
  destruct Hshape as (u & h & otps & Hu & -> & Hidc & Hidr).
  destruct (passwordChanged_effect c u h db Hu) as [Hpw Hrev].
  assert (Hwf' : ledger_wf (set_passwordResetOtps (passwordChanged c u h db) otps)).
  { apply (evolves_wf db); [| exact Hwf]. simpl. apply ledger_evolves_revoke. }
  exists u, h.
  split; [exact Hu |]. split; [exact Hidc |]. split; [exact Hidr |].
  split; [reflexivity |]. split; [reflexivity |].
  split; [exact Hpw |]. split.
  - intros t Hin Hown. destruct (Hrev t Hin Hown) as (t' & H1 & H2 & H3).
    exists t'. repeat split; assumption.
  - intros t tok calls c2 req2 Hin Hown Hhash Hparse.
    assert (Hr : revoked_in (hashToken tok)
                   (set_passwordResetOtps (passwordChanged c u h db) otps)).
    { rewrite <- Hhash. destruct (Hrev t Hin Hown) as (t' & H1 & H2 & H3).
      exists t'. repeat split; assumption. }
    destruct (serve_ledger calls _ (hashToken tok) Hwf') as [Hwf2 Hrev2].
    destruct (refresh_refuses_revoked c2 req2 _ tok Hwf2 (Hrev2 Hr) Hparse)
      as [m Hm].
    exists m. exact Hm.
Qed.

End PasswordFacts.

Lemma password_change_revokes_sessions_witness :
  (exists m,
     AuthHandlers.refresh (D := Samples.sampleDeps) Samples.at3s
       (Samples.presenting "rt-1")
       (snd (AuthHandlers.changePassword (D := Samples.sampleDeps) Samples.at2s
               Samples.changing Samples.db0))
     = (AuthHandlers.Responded (failure 401 "UNAUTHORIZED" m),
        snd (AuthHandlers.changePassword (D := Samples.sampleDeps) Samples.at2s
               Samples.changing Samples.db0)))
  /\ (exists m,
        AuthHandlers.refresh (D := Samples.sampleDeps) Samples.at3s
          (Samples.presenting "rt-1")
          (snd (AuthHandlers.resetPassword (D := Samples.sampleDeps) Samples.at2s
                  Samples.resetting Samples.db0))
        = (AuthHandlers.Responded (failure 401 "UNAUTHORIZED" m),
           snd (AuthHandlers.resetPassword (D := Samples.sampleDeps) Samples.at2s
                  Samples.resetting Samples.db0))).
Proof.
  split.
  - eassert (E : AuthHandlers.changePassword (D := Samples.sampleDeps) Samples.at2s
                   Samples.changing Samples.db0
                 = (AuthHandlers.Responded _, _)) by (vm_compute; reflexivity).
    destruct (password_change_revokes_sessions (D := Samples.sampleDeps)
                _ _ _ _ _ db0_ledger_wf (or_introl E) eq_refl)
      as (u & h & _ & Hid & _ & _ & _ & _ & _ & H).
    specialize (Hid E). vm_compute in Hid. injection Hid as Hid.
    destruct (H Samples.live1 "rt-1" [] Samples.at3s (Samples.presenting "rt-1"))
      as [m Hm]; [now left | exact Hid | reflexivity | reflexivity |].
    exists m. rewrite E. exact Hm.
  - eassert (E : AuthHandlers.resetPassword (D := Samples.sampleDeps) Samples.at2s
                   Samples.resetting Samples.db0
                 = (AuthHandlers.Responded _, _)) by (vm_compute; reflexivity).
    destruct (password_change_revokes_sessions (D := Samples.sampleDeps)
                _ _ _ _ _ db0_ledger_wf (or_intror E) eq_refl)
      as (u & h & _ & _ & Hid & _ & _ & _ & _ & H).
    destruct (Hid E) as (tok & pw & dec & Hp & Hv & Hsub).
    vm_compute in Hp. injection Hp as <- <-.
    vm_compute in Hv. injection Hv as <-.
    vm_compute in Hsub. injection Hsub as Hsub.
    destruct (H Samples.live1 "rt-1" [] Samples.at3s (Samples.presenting "rt-1"))
      as [m Hm]; [now left | exact Hsub | reflexivity | reflexivity |].
    exists m. rewrite E. exact Hm.
Defined.

(** ** One-time codes *)

Section OtpFacts.
Context {D : Deps}.
Import Prisma AuthHandlers.


Lemma filter_none {A} (p : A -> bool) (l : list A) :
  (forall x, In x l -> p x = false) -> filter p l = [].
Proof.
  induction l as [| a l IH]; intros H; simpl; [reflexivity |].
  rewrite (H a (or_introl eq_refl)). apply IH. intros x Hx. apply H. now right.
Qed.



(** After a code is issued for an address the new record is its only
    unused one. *)
Lemma issue_leaves_one (c : Ctx) (email : string) (db : Db) (o : PasswordResetOtp) :
  In o (otpsAfterIssue c email db) ->
  otp_email o = toLowerCase email -> otp_usedAt o = None ->
  o = issuedOtp c email.
Proof.
  unfold otpsAfterIssue. intros Hin Hemail Hunused.
  apply in_app_or in Hin as [Hin | [<- | []]]; [| reflexivity].
  apply In_updateMany_inv in Hin as (x & _ & ->).
  destruct ((otp_email x =? toLowerCase email)%string && is_null (otp_usedAt x))
    eqn:E; [discriminate |].
  rewrite Hunused, andb_true_r in E. apply String.eqb_neq in E. contradiction.
Qed.


Lemma login_otps (c : Ctx) (req : Req) (db : Db) :
  passwordResetOtps (snd (login c req db)) = passwordResetOtps db.
Proof.
  unfold login.
  repeat break_match; simpl; try reflexivity.
  match goal with H : transaction _ _ = Ok _ |- _ =>
    apply transaction2_Ok in H as (d1 & H1 & H2) end.
  apply user_update_Ok in H1. subst d1.
  apply refreshToken_create_Ok in H2 as (-> & _). reflexivity.
Qed.




Lemma no_unused_mark (email : string) (p : PasswordResetOtp -> bool) (at_ : Z)
      (db db' : Db) :
  passwordResetOtps db' = updateMany p (markUsed at_) (passwordResetOtps db) ->
  no_unused email db -> no_unused email db'.
Proof.
  intros E H o Ho Hemail. rewrite E in Ho.
  apply In_updateMany_inv in Ho as (x & Hx & ->).
  destruct (p x); [discriminate | now apply H].
Qed.

Lemma no_unused_same (email : string) (db db' : Db) :
  passwordResetOtps db' = passwordResetOtps db ->
  no_unused email db -> no_unused email db'.
Proof. unfold no_unused. now intros ->. Qed.

Lemma handle_no_unused (email : string) (r : Route) (c : Ctx) (req : Req)
      (db : Db) :
  r <> POST_forgot_password ->
  no_unused email db -> no_unused email (snd (handle r c req db)).
Proof.
  intros Hr H. destruct r; simpl; try contradiction.
  - destruct (POST_auth_login_cases c req db) as [-> | ->]; [| exact H].
    exact (no_unused_same _ _ _ (login_otps c req db) H).
  - destruct (refresh_cases c req db)
      as [[_ ->] | (tok & st & u & _ & _ & _ & ->)]; exact H.
  - unfold logout, refreshToken_updateMany.
    destruct (logoutSchema _) as [[tok |] | e]; exact H.
  - now rewrite me_keeps.
  - destruct (verifyOtp_cases c req db)
      as [[_ ->] | (e & o & rec & u & _ & _ & _ & _ & _ & _ & ->)]; [exact H |].
    eapply no_unused_mark; [| exact H]. reflexivity.
  - destruct (resetPassword_cases c req db)
      as [[_ ->] | (u & pw & tok & dec & _ & _ & _ & _ & ->)]; [exact H |].
    eapply no_unused_mark; [| exact H]. reflexivity.
  - destruct (changePassword_cases c req db) as [[_ ->] | (u & pw & _ & _ & ->)];
      exact H.
Qed.

Lemma serve_no_unused (email : string) (calls : list (Route * Ctx * Req))
      (db : Db) :
  issues_no_otp calls -> no_unused email db -> no_unused email (serve calls db).
Proof.
  revert db. induction calls as [| [[r c] req] calls IH]; intros db Hc H; simpl.
  - exact H.
  - apply IH.
    + intros r' c' req' Hin. apply (Hc r' c' req'). now right.
    + apply handle_no_unused; [| exact H]. apply (Hc r c req). now left.
Qed.

(** With no unused code for the address, [verifyOtp] refuses. *)
Lemma verifyOtp_no_unused (c : Ctx) (req : Req) (db : Db) (email otp : string) :
  verifyOtpSchema (body req) = Ok (email, otp) ->
  no_unused (toLowerCase email) db ->
  verifyOtp c req db
  = (Responded (failure 400 "INVALID_OTP" "Invalid or expired OTP"), db).
Proof.
  intros Hp H. unfold verifyOtp. rewrite Hp.
  unfold passwordResetOtp_findFirst_desc. rewrite filter_none; [reflexivity |].
  intros x Hx.
  destruct (otp_email x =? toLowerCase email)%string eqn:E; [| reflexivity].
  apply String.eqb_eq in E. specialize (H x Hx E).
  destruct (otp_usedAt x); [reflexivity | contradiction].
Qed.

Lemma existsb_key_fresh {A} (key : A -> string) (k : string) (l : list A) :
  ~ In k (map key l) -> existsb (fun x => (key x =? k)%string) l = false.
Proof.
  intros H. destruct (existsb _ l) eqn:E; [| reflexivity].
  apply existsb_exists in E as (x & Hx & Hk). apply String.eqb_eq in Hk.
  exfalso. apply H. subst k. now apply in_map.
Qed.

(** For a known, active account and a fresh row id, [forgotPassword] commits
    the issue transaction (whatever the mailer does afterwards). *)
Lemma forgotPassword_issues (c : Ctx) (req : Req) (db : Db) (email : string)
      (u : User) :
  forgotPasswordSchema (body req) = Ok email ->
  user_findUnique_email (toLowerCase email) db = Some u ->
  user_isActive u = true ->
  ~ In (cuid c) (map otp_id (passwordResetOtps db)) ->
  snd (forgotPassword c req db)
  = set_passwordResetOtps db (otpsAfterIssue c email db).
Proof.
  intros Hp Hu Ha Hfresh. unfold forgotPassword. rewrite Hp, Hu, Ha.
  simpl negb. cbv iota.
  unfold transaction, bind, passwordResetOtp_updateMany, passwordResetOtp_create.
  simpl passwordResetOtps. simpl otp_id.
  rewrite existsb_key_fresh by now rewrite updateMany_keeps by reflexivity.
  destruct isMailerConfigured.
  - destruct (sendPasswordResetOtpEmail _ _ _); reflexivity.
  - destruct (NODE_ENV env =? "production")%string; reflexivity.
Qed.











End OtpFacts.




(** ** Forgot-password answers *)

Section ForgotPasswordFacts.
Context {D : Deps}.
Import Prisma AuthHandlers.

(** For an address without an account the answer carries the message only. *)
Lemma forgotPassword_unknown (c : Ctx) (req : Req) (db : Db) (email : string) :
  forgotPasswordSchema (body req) = Ok email ->
  user_findUnique_email (toLowerCase email) db = None ->
  forgotPassword c req db
  = (Responded (success 200
       (JObj [("message",
               JStr "If your account exists, a verification code has been generated")])),
     db).
Proof. intros Hp Hu. unfold forgotPassword. now rewrite Hp, Hu. Qed.

(** For an active account, once the code is stored and the mail is out, the
    answer also carries [otpExpiresAt], in every runtime mode. *)
Lemma forgotPassword_known (c : Ctx) (req : Req) (db : Db) (email : string)
      (u : User) :
  forgotPasswordSchema (body req) = Ok email ->
  user_findUnique_email (toLowerCase email) db = Some u ->
  user_isActive u = true ->
  ~ In (cuid c) (map otp_id (passwordResetOtps db)) ->
  isMailerConfigured = true ->
  sendPasswordResetOtpEmail (toLowerCase email) (toString (randomInt c))
                            (PASSWORD_RESET_OTP_EXPIRES_MINUTES env) = Ok tt ->
  exists r,
    fst (forgotPassword c req db) = Responded r
    /\ status r = 200
    /\ In "otpExpiresAt" (keys (get "data" (wire r)))
    /\ (NODE_ENV env = "production" ->
        keys (get "data" (wire r)) = ["message"; "otpExpiresAt"]).
Proof.
  intros Hp Hu Ha Hfresh Hm Hsend. unfold forgotPassword. rewrite Hp, Hu, Ha.
  simpl negb. cbv iota.
  unfold transaction, bind, passwordResetOtp_updateMany, passwordResetOtp_create.
  simpl passwordResetOtps. simpl otp_id.
  rewrite existsb_key_fresh by now rewrite updateMany_keeps by reflexivity.
  rewrite Hm, Hsend. eexists. split; [reflexivity |]. split; [reflexivity |].
  split.
  - destruct (NODE_ENV env =? "production")%string; simpl; auto.
  - intros ->. reflexivity.
Qed.

End ForgotPasswordFacts.

(** C7 does not hold of the handler.  In production, with the mailer
    working, both requests are answered 200, but the body for the existing
    account has the property [otpExpiresAt] and the body for the unknown
    address has not. *)
Theorem forgotPassword_reveals_account :
  let ask email :=
    AuthHandlers.reply
      (fst (AuthHandlers.forgotPassword (D := Samples.sampleDeps) Samples.at2s
              (Samples.forgetting email) Samples.db0)) in
  NODE_ENV (env (Deps := Samples.sampleDeps)) = "production"
  /\ status (ask "admin@school.edu") = 200
  /\ status (ask "nobody@school.edu") = 200
  /\ keys (get "data" (wire (ask "admin@school.edu"))) = ["message"; "otpExpiresAt"]
  /\ keys (get "data" (wire (ask "nobody@school.edu"))) = ["message"]
  /\ get "otpExpiresAt" (get "data" (wire (ask "admin@school.edu")))
     = JStr "1970-01-01T00:10:02.000Z"
  /\ get "otpExpiresAt" (get "data" (wire (ask "nobody@school.edu"))) = JUndefined.
Proof. intro ask. repeat split. Qed.


(** * Further properties of the surrounding code *)

(** ** Tenant scope, seen from its callers *)

Section ScopeSafety.
Import SchoolScope.

Lemma strict_eq_true (a b : jsval) : strict_eq a b = true -> a = b.
Proof.
  destruct a, b; simpl; try discriminate; intros H; try reflexivity.
  - apply Bool.eqb_prop in H. now subst.
  - apply Z.eqb_eq in H. now subst.
  - apply String.eqb_eq in H. now subst.
Qed.

Lemma resolveSchoolId_tenant_own (req : Request) (schoolIdInput : jsval)
      (options : Options) (v : jsval) :
  resolveSchoolId req schoolIdInput options = Ok v ->
  isSuperadmin req = false -> v = get "schoolId" (user req).
Proof.
  unfold resolveSchoolId. intros H Hs. rewrite Hs in H.
  destruct (negb (truthy (get "schoolId" (user req)))); [discriminate |].
  destruct (truthy schoolIdInput && _); [discriminate |].
  now injection H as <-.
Qed.

(** X1.  Whatever [resolveSchoolId] returns to a tenant-bound caller is that
    caller's own, non-empty tenant id, and a requested id that was given is
    equal to it; what it returns to a SUPERADMIN is the requested id or
    [null], and never [null] when the caller asked for it to be required.
    Everything it throws is a 403, or the 400 reserved for SUPERADMIN. *)
Theorem resolveSchoolId_sound (req : Request) (schoolIdInput : jsval)
        (options : Options) :
  (forall v, resolveSchoolId req schoolIdInput options = Ok v ->
     (isSuperadmin req = false ->
        v = get "schoolId" (user req) /\ truthy v = true
        /\ (truthy schoolIdInput = true -> schoolIdInput = v))
     /\ (isSuperadmin req = true ->
         v = js_or schoolIdInput JNull
         /\ (requireForSuperadmin_opt options = Some true -> truthy v = true)))
  /\ (forall e, resolveSchoolId req schoolIdInput options = Throw e ->
        exists h, e = HttpErr h
                  /\ (statusCode h = 403 /\ isSuperadmin req = false
                      \/ statusCode h = 400 /\ isSuperadmin req = true)).
Proof.
  unfold resolveSchoolId. split.
  - intros v H. destruct (isSuperadmin req) eqn:Hs.
    + split; [discriminate |]. intros _.
      destruct (requireForSuperadmin_opt options) as [[|] |] eqn:Ho; simpl in H.
      * destruct (truthy (js_or schoolIdInput JNull)) eqn:Ht; simpl in H;
          [| discriminate].
        injection H as <-. now split.
      * injection H as <-. split; [reflexivity | discriminate].
      * injection H as <-. split; [reflexivity | discriminate].
    + split; [| discriminate]. intros _.
      destruct (truthy (get "schoolId" (user req))) eqn:Hown; simpl in H;
        [| discriminate].
      destruct (truthy schoolIdInput) eqn:Hin; simpl in H.
      * destruct (strict_eq schoolIdInput (get "schoolId" (user req))) eqn:He;
          simpl in H; [| discriminate].
        injection H as <-. repeat split; [exact Hown |].
        intros _. now apply strict_eq_true.
      * injection H as <-. repeat split; [exact Hown | discriminate].
  - intros e H. destruct (isSuperadmin req) eqn:Hs.
    + destruct (_ && negb (truthy (js_or schoolIdInput JNull))); [| discriminate].
      injection H as <-. eexists. split; [reflexivity |]. right. now split.
    + destruct (negb (truthy (get "schoolId" (user req)))).
      * injection H as <-. eexists. split; [reflexivity |]. left. now split.
      * destruct (truthy schoolIdInput && _); [| discriminate].
        injection H as <-. eexists. split; [reflexivity |]. left. now split.
Qed.

End ScopeSafety.

Lemma resolveSchoolId_sound_witness :
  JStr "school-A" = get "schoolId" (SchoolScope.user Samples.teacherOfA)
  /\ (exists h, HttpErr (forbidden (Some "Cannot access another school's data"))
                = HttpErr h
                /\ (statusCode h = 403
                    /\ SchoolScope.isSuperadmin Samples.teacherOfA = false
                    \/ statusCode h = 400
                       /\ SchoolScope.isSuperadmin Samples.teacherOfA = true)).
Proof.
  split.
  - destruct (resolveSchoolId_sound Samples.teacherOfA (JStr "school-A")
                (SchoolScope.mkOptions None)) as [H _].
    destruct (H (JStr "school-A") eq_refl) as [H1 _].
    exact (proj1 (H1 eq_refl)).
  - destruct (resolveSchoolId_sound Samples.teacherOfA (JStr "school-B")
                (SchoolScope.mkOptions None)) as [_ H].
    exact (H _ eq_refl).
Defined.

(** ** Scoped lookups of the school module *)

Section SchoolCommonFacts.
Import SchoolCommon.

Lemma scopedSchoolId_unfold (req : Request) (schoolIdInput : jsval)
      (r : option bool) :
  scopedSchoolId req schoolIdInput r
  = SchoolScope.resolveSchoolId (SchoolScope.mkRequest (user req))
      (js_or schoolIdInput (getQuerySchoolId req))
      (SchoolScope.mkOptions (Some match r with Some b => b | None => true end)).
Proof. reflexivity. Qed.

(** X2.  With its default, [scopedSchoolId] never returns an empty tenant
    id, and to a caller who is not SUPERADMIN it returns the caller's own id;
    a [schoolId] query parameter that is not a string is ignored; and a
    tenant-bound caller who names another tenant in the query string alone is
    refused with 403 just as for a body parameter. *)
Theorem scopedSchoolId_sound (req : Request) (schoolIdInput : jsval) :
  (forall v, scopedSchoolId req schoolIdInput None = Ok v ->
     truthy v = true
     /\ (strict_eq (get "role" (user req)) (JStr "SUPERADMIN") = false ->
         v = get "schoolId" (user req)))
  /\ (forall r, typeof_string (query_schoolId req) = false ->
        scopedSchoolId req schoolIdInput r
        = scopedSchoolId (mkRequest (user req) JUndefined) schoolIdInput r)
  /\ (forall r other,
        strict_eq (get "role" (user req)) (JStr "SUPERADMIN") = false ->
        truthy (get "schoolId" (user req)) = true ->
        truthy schoolIdInput = false ->
        query_schoolId req = JStr other -> other <> "" ->
        JStr other <> get "schoolId" (user req) ->
        scopedSchoolId req schoolIdInput r
        = Throw (HttpErr (forbidden (Some "Cannot access another school's data")))).
Proof.
  split; [| split].
  - intros v H. rewrite scopedSchoolId_unfold in H.
    unfold SchoolScope.resolveSchoolId, SchoolScope.isSuperadmin in H.
    simpl in H.
    destruct (strict_eq (get "role" (user req)) (JStr "SUPERADMIN")) eqn:Hs.
    + destruct (truthy (js_or (js_or schoolIdInput (getQuerySchoolId req)) JNull))
        eqn:Ht; simpl in H; [| discriminate].
      injection H as <-. split; [exact Ht | discriminate].
    + destruct (truthy (get "schoolId" (user req))) eqn:Hown; simpl in H;
        [| discriminate].
      destruct (truthy (js_or schoolIdInput (getQuerySchoolId req))
                && negb (strict_eq (js_or schoolIdInput (getQuerySchoolId req))
                                   (get "schoolId" (user req))));
        [discriminate |].
      injection H as <-. now split.
  - intros r Hq. rewrite !scopedSchoolId_unfold. unfold getQuerySchoolId.
    simpl. now rewrite Hq.
  - intros r other Hs Hown Hin Hq Hne Hdiff. rewrite scopedSchoolId_unfold.
    assert (E : strict_eq (JStr other) (get "schoolId" (user req)) = false).
    { destruct (strict_eq (JStr other) (get "schoolId" (user req))) eqn:E;
        [| reflexivity].
      apply strict_eq_true in E. contradiction. }
    simpl in E.
    unfold SchoolScope.resolveSchoolId, SchoolScope.isSuperadmin,
      getQuerySchoolId, js_or.
    simpl. rewrite Hs, Hown, Hin, Hq. simpl.
    apply String.eqb_neq in Hne. rewrite Hne. simpl.
    rewrite E. reflexivity.
Qed.

(** X3.  A row fetched with the id [scopedSchoolId] returned belongs to that
    tenant, hence, for every caller who is not SUPERADMIN, to the caller's
    own; and a row of another tenant is answered with the very error of a row
    that does not exist. *)
Theorem findScopedOrThrow_isolates (table : list Item) (req : Request)
        (schoolIdInput : jsval) (r : option bool) (sid : jsval)
        (entityName : string) (code : option string) :
  scopedSchoolId req schoolIdInput r = Ok sid ->
  (forall id item,
     findScopedOrThrow table id sid entityName code = Ok item ->
     In item table /\ item_id item = id /\ JStr (item_schoolId item) = sid
     /\ (strict_eq (get "role" (user req)) (JStr "SUPERADMIN") = false ->
         JStr (item_schoolId item) = get "schoolId" (user req)))
  /\ (forall id item absent,
        find (fun i => (item_id i =? id)%string) table = Some item ->
        JStr (item_schoolId item) <> sid ->
        find (fun i => (item_id i =? absent)%string) table = None ->
        findScopedOrThrow table id sid entityName code
        = findScopedOrThrow table absent sid entityName code).
Proof.
  intros Hscope. split.
  - intros id item H. unfold findScopedOrThrow in H.
    destruct (find _ table) as [i |] eqn:Hf; [| discriminate].
    destruct (strict_eq (JStr (item_schoolId i)) sid) eqn:He; simpl in H;
      [| discriminate].
    injection H as <-. apply strict_eq_true in He.
    apply find_key_some in Hf as [Hin Hid].
    repeat split; try assumption.
    intros Hs. rewrite He.
    rewrite scopedSchoolId_unfold in Hscope.
    exact (resolveSchoolId_tenant_own _ _ _ _ Hscope Hs).
  - intros id item absent Hf Hne Habs. unfold findScopedOrThrow.
    rewrite Hf, Habs.
    destruct (strict_eq (JStr (item_schoolId item)) sid) eqn:He;
      [| reflexivity].
    apply strict_eq_true in He. contradiction.
Qed.

End SchoolCommonFacts.

Lemma scopedSchoolId_sound_witness :
  truthy (JStr "school-A") = true
  /\ SchoolCommon.scopedSchoolId
       (Samples.teacherOfA_browsing (JObj [("0", JStr "school-B")])) JUndefined None
     = SchoolCommon.scopedSchoolId
         (SchoolCommon.mkRequest
            (SchoolCommon.user (Samples.teacherOfA_browsing JUndefined)) JUndefined)
         JUndefined None
  /\ SchoolCommon.scopedSchoolId
       (Samples.teacherOfA_browsing (JStr "school-B")) JUndefined (Some false)
     = Throw (HttpErr (forbidden (Some "Cannot access another school's data"))).
Proof.
  destruct (scopedSchoolId_sound (Samples.teacherOfA_browsing JUndefined)
              JUndefined) as (H1 & _).
  destruct (scopedSchoolId_sound
              (Samples.teacherOfA_browsing (JObj [("0", JStr "school-B")]))
              JUndefined) as (_ & H2 & _).
  destruct (scopedSchoolId_sound (Samples.teacherOfA_browsing (JStr "school-B"))
              JUndefined) as (_ & _ & H3).
  split; [| split].
  - exact (proj1 (H1 (JStr "school-A") eq_refl)).
  - exact (H2 None eq_refl).
  - apply (H3 (Some false) "school-B"); try reflexivity; discriminate.
Defined.

Lemma findScopedOrThrow_isolates_witness :
  (In (SchoolCommon.mkItem "staff-1" "school-A") Samples.staffTable
   /\ SchoolCommon.item_id (SchoolCommon.mkItem "staff-1" "school-A") = "staff-1"
   /\ JStr (SchoolCommon.item_schoolId (SchoolCommon.mkItem "staff-1" "school-A"))
      = JStr "school-A"
   /\ (strict_eq (get "role"
                   (SchoolCommon.user (Samples.teacherOfA_browsing JUndefined)))
                 (JStr "SUPERADMIN") = false ->
       JStr (SchoolCommon.item_schoolId (SchoolCommon.mkItem "staff-1" "school-A"))
       = get "schoolId"
           (SchoolCommon.user (Samples.teacherOfA_browsing JUndefined))))
  /\ SchoolCommon.findScopedOrThrow Samples.staffTable "staff-2" (JStr "school-A")
       "Staff" (Some "STAFF_NOT_FOUND")
     = SchoolCommon.findScopedOrThrow Samples.staffTable "staff-9" (JStr "school-A")
         "Staff" (Some "STAFF_NOT_FOUND").
Proof.
  destruct (findScopedOrThrow_isolates Samples.staffTable
              (Samples.teacherOfA_browsing JUndefined) JUndefined None
              (JStr "school-A") "Staff" (Some "STAFF_NOT_FOUND") eq_refl)
    as [H1 H2].
  split.
  - exact (H1 "staff-1" (SchoolCommon.mkItem "staff-1" "school-A") eq_refl).
  - apply (H2 "staff-2" (SchoolCommon.mkItem "staff-2" "school-B") "staff-9");
      [reflexivity | discriminate | reflexivity].
Defined.

(** ** Scope helpers of the students module *)

Section StudentsFacts.
Import Students.

(** X4.  The students module's own resolver returns what [resolveSchoolId]
    returns whenever the latter succeeds, but, unlike it, does not look at
    the requested id of a tenant-bound caller: such a caller gets the own id
    back whatever was requested.  [ensureSchoolScopeForList] never returns an
    empty id, and answers a SUPERADMIN who names no tenant with 400
    SCHOOL_CONTEXT_REQUIRED. *)
Theorem getRequestSchoolId_vs_resolveSchoolId (req : Request)
        (schoolIdInput : jsval) :
  (forall options v,
     SchoolScope.resolveSchoolId (SchoolScope.mkRequest (user req))
                                 schoolIdInput options = Ok v ->
     getRequestSchoolId req schoolIdInput = Ok v)
  /\ (strict_eq (get "role" (user req)) (JStr "SUPERADMIN") = false ->
      truthy (get "schoolId" (user req)) = true ->
      getRequestSchoolId req schoolIdInput = Ok (get "schoolId" (user req)))
  /\ (forall v, ensureSchoolScopeForList req schoolIdInput = Ok v ->
                truthy v = true /\ getRequestSchoolId req schoolIdInput = Ok v)
  /\ (strict_eq (get "role" (user req)) (JStr "SUPERADMIN") = true ->
      truthy schoolIdInput = false ->
      ensureSchoolScopeForList req schoolIdInput
      = Throw (HttpErr (badRequest
                 "schoolId is required for SUPERADMIN while listing students"
                 (Some "SCHOOL_CONTEXT_REQUIRED")))).
Proof.
  split; [| split; [| split]].
  - intros options v H.
    unfold SchoolScope.resolveSchoolId, SchoolScope.isSuperadmin in H.
    simpl in H. unfold getRequestSchoolId.
    destruct (strict_eq (get "role" (user req)) (JStr "SUPERADMIN")).
    + destruct (_ && negb (truthy (js_or schoolIdInput JNull))); [discriminate |].
      exact H.
    + destruct (negb (truthy (get "schoolId" (user req)))); [discriminate |].
      destruct (truthy schoolIdInput && _); [discriminate | exact H].
  - intros Hs Hown. unfold getRequestSchoolId. now rewrite Hs, Hown.
  - intros v H. unfold ensureSchoolScopeForList, bind in H.
    destruct (getRequestSchoolId req schoolIdInput) as [sid |]; [| discriminate].
    destruct (truthy sid) eqn:Ht; simpl in H; [| discriminate].
    injection H as <-. now split.
  - intros Hs Hin. unfold ensureSchoolScopeForList, getRequestSchoolId, js_or, bind.
    rewrite Hs, Hin. reflexivity.
Qed.

(** X5.  A student handed back by [findScopedStudentOrThrow] has the id asked
    for and lies in the caller's scope: the caller's own school for everyone
    but SUPERADMIN, the named school for a SUPERADMIN who named one.  A
    student outside that scope is answered with the same 404 as a student
    that does not exist. *)
Theorem findScopedStudentOrThrow_isolates (students : list Student)
        (req : Request) (schoolIdInput : jsval) :
  let superadmin := strict_eq (get "role" (user req)) (JStr "SUPERADMIN") in
  (forall studentId student,
     findScopedStudentOrThrow students req studentId schoolIdInput = Ok student ->
     In student students /\ student_id student = studentId
     /\ (superadmin = false ->
         JStr (student_schoolId student) = get "schoolId" (user req))
     /\ (superadmin = true -> truthy schoolIdInput = true ->
         JStr (student_schoolId student) = schoolIdInput))
  /\ (forall studentId student scope,
        getRequestSchoolId req schoolIdInput = Ok scope ->
        find (fun s => (student_id s =? studentId)%string) students = Some student ->
        JStr (student_schoolId student) <> scope ->
        superadmin = false \/ truthy schoolIdInput = true ->
        findScopedStudentOrThrow students req studentId schoolIdInput
        = Throw (HttpErr (notFound None)))
  /\ (forall studentId,
        find (fun s => (student_id s =? studentId)%string) students = None ->
        forall scope, getRequestSchoolId req schoolIdInput = Ok scope ->
        findScopedStudentOrThrow students req studentId schoolIdInput
        = Throw (HttpErr (notFound None))).
Proof.
  intro superadmin. split; [| split].
  - intros studentId student H. unfold findScopedStudentOrThrow, bind in H.
    fold superadmin in H.
    destruct (getRequestSchoolId req schoolIdInput) as [scope |] eqn:Hg;
      [| discriminate].
    destruct (find _ students) as [s |] eqn:Hf; [| discriminate].
    apply find_key_some in Hf as [Hin Hid].
    unfold getRequestSchoolId in Hg. fold superadmin in Hg.
    destruct superadmin eqn:Hs; cbn [negb andb] in H.
    + cbn [negb andb] in Hg. injection Hg as <-.
      destruct (truthy (js_or schoolIdInput JNull)) eqn:Ht; cbn [negb andb] in H.
      * destruct (strict_eq (JStr (student_schoolId s)) (js_or schoolIdInput JNull))
          eqn:He; cbn [negb andb] in H; [| discriminate].
        injection H as <-. repeat split; try assumption; try discriminate.
        intros _ Hin'. apply strict_eq_true in He.
        unfold js_or in He. now rewrite Hin' in He.
      * injection H as <-. repeat split; try assumption; try discriminate.
        intros _ Hin'. unfold js_or in Ht. rewrite Hin' in Ht. congruence.
    + destruct (negb (truthy (get "schoolId" (user req)))); [discriminate |].
      injection Hg as <-.
      destruct (strict_eq (JStr (student_schoolId s)) (get "schoolId" (user req)))
        eqn:He; cbn [negb andb] in H; [| discriminate].
      injection H as <-. repeat split; try assumption; try discriminate.
      intros _. now apply strict_eq_true.
  - intros studentId student scope Hg Hf Hne Hcase.
    unfold findScopedStudentOrThrow, bind. fold superadmin.
    rewrite Hg, Hf.
    assert (E : strict_eq (JStr (student_schoolId student)) scope = false).
    { destruct (strict_eq (JStr (student_schoolId student)) scope) eqn:E;
        [| reflexivity].
      apply strict_eq_true in E. contradiction. }
    rewrite E. destruct superadmin eqn:Hs; simpl; [| reflexivity].
    destruct Hcase as [Hc | Hc]; [discriminate |].
    unfold getRequestSchoolId in Hg. fold superadmin in Hg. rewrite Hs in Hg.
    injection Hg as <-. unfold js_or. rewrite Hc. simpl. rewrite Hc. reflexivity.
  - intros studentId Hf scope Hg. unfold findScopedStudentOrThrow, bind.
    now rewrite Hg, Hf.
Qed.

End StudentsFacts.

Lemma getRequestSchoolId_vs_resolveSchoolId_witness :
  Students.getRequestSchoolId Samples.hrOfA (JStr "school-A") = Ok (JStr "school-A")
  /\ Students.getRequestSchoolId Samples.hrOfA (JStr "school-B")
     = Ok (JStr "school-A")
  /\ truthy (JStr "school-B") = true
  /\ Students.ensureSchoolScopeForList Samples.rootUser JUndefined
     = Throw (HttpErr (Students.badRequest
                "schoolId is required for SUPERADMIN while listing students"
                (Some "SCHOOL_CONTEXT_REQUIRED"))).
Proof.
  destruct (getRequestSchoolId_vs_resolveSchoolId Samples.hrOfA (JStr "school-A"))
    as (H1 & _).
  destruct (getRequestSchoolId_vs_resolveSchoolId Samples.hrOfA (JStr "school-B"))
    as (_ & H2 & _).
  destruct (getRequestSchoolId_vs_resolveSchoolId Samples.rootUser
              (JStr "school-B")) as (_ & _ & H3 & _).
  destruct (getRequestSchoolId_vs_resolveSchoolId Samples.rootUser JUndefined)
    as (_ & _ & _ & H4).
  split; [| split; [| split]].
  - exact (H1 (SchoolScope.mkOptions None) (JStr "school-A") eq_refl).
  - exact (H2 eq_refl eq_refl).
  - exact (proj1 (H3 (JStr "school-B") eq_refl)).
  - exact (H4 eq_refl eq_refl).
Defined.

Lemma findScopedStudentOrThrow_isolates_witness :
  JStr (Students.student_schoolId (Students.mkStudent "st-1" "school-A"))
  = get "schoolId" (Students.user Samples.hrOfA)
  /\ Students.findScopedStudentOrThrow Samples.studentTable Samples.hrOfA "st-2"
       JUndefined
     = Throw (HttpErr (Students.notFound None))
  /\ Students.findScopedStudentOrThrow Samples.studentTable Samples.hrOfA "st-9"
       JUndefined
     = Throw (HttpErr (Students.notFound None)).
Proof.
  destruct (findScopedStudentOrThrow_isolates Samples.studentTable Samples.hrOfA
              JUndefined) as (H1 & H2 & H3).
  split; [| split].
  - destruct (H1 "st-1" (Students.mkStudent "st-1" "school-A") eq_refl)
      as (_ & _ & H & _).
    exact (H eq_refl).
  - apply (H2 "st-2" (Students.mkStudent "st-2" "school-B") (JStr "school-A"));
      [reflexivity | reflexivity | discriminate | now left].
  - exact (H3 "st-9" eq_refl (JStr "school-A") eq_refl).
Defined.


(** ** Token extraction *)

Section ExtractionFacts.
Import AuthMiddleware.

Lemma dropStart_head (p : ascii -> bool) (s : string) :
  headOutside p (dropStart p s).
Proof.
  induction s as [| c r IH]; simpl; [exact I |].
  destruct (p c) eqn:E; [exact IH | exact E].
Qed.

Lemma dropStart_fixed (p : ascii -> bool) (s : string) :
  headOutside p s -> dropStart p s = s.
Proof. destruct s as [| c r]; simpl; [reflexivity | now intros ->]. Qed.

Lemma dropEnd_head (p : ascii -> bool) (s : string) :
  headOutside p s -> headOutside p (dropEnd p s).
Proof.
  destruct s as [| c r]; simpl; [trivial |]. intros Hc.
  destruct (dropEnd p r); [rewrite Hc |]; exact Hc.
Qed.

Lemma dropEnd_again (p : ascii -> bool) (s : string) :
  dropEnd p (dropEnd p s) = dropEnd p s.
Proof.
  induction s as [| c r IH]; simpl; [reflexivity |].
  destruct (dropEnd p r) as [| c' r'] eqn:E.
  - destruct (p c) eqn:Ec; simpl; [reflexivity | now rewrite Ec].
  - simpl in IH |- *. now rewrite IH.
Qed.

Lemma trim_again (s : string) : trim (trim s) = trim s.
Proof.
  unfold trim.
  rewrite (dropStart_fixed isSpace (dropEnd isSpace (dropStart isSpace s))).
  - apply dropEnd_again.
  - apply dropEnd_head, dropStart_head.
Qed.

Lemma dropStart_outside (p : ascii -> bool) (t : string) :
  string_forall (fun c => negb (p c)) t = true -> dropStart p t = t.
Proof.
  destruct t as [| c r]; simpl; [reflexivity |].
  intros H. apply andb_prop in H as [H _]. apply negb_true_iff in H.
  now rewrite H.
Qed.

Lemma dropEnd_outside (p : ascii -> bool) (t : string) :
  string_forall (fun c => negb (p c)) t = true -> dropEnd p t = t.
Proof.
  induction t as [| c r IH]; simpl; [reflexivity |].
  intros H. apply andb_prop in H as [Hc Hr]. apply negb_true_iff in Hc.
  rewrite (IH Hr). destruct r; [now rewrite Hc | reflexivity].
Qed.

Lemma dropEnd_append (p : ascii -> bool) (pre t : string) :
  dropEnd p t = t -> t <> "" -> dropEnd p (String.append pre t) = String.append pre t.
Proof.
  intros Ht Hne. induction pre as [| c pre IH]; simpl; [exact Ht |].
  rewrite IH. destruct (String.append pre t) eqn:E; [| reflexivity].
  destruct pre; simpl in E; [contradiction | discriminate].
Qed.

Lemma string_forall_weaken (p q : ascii -> bool) (t : string) :
  (forall c, p c = true -> q c = true) ->
  string_forall p t = true -> string_forall q t = true.
Proof.
  intros Hpq. induction t as [| c r IH]; simpl; [trivial |].
  intros H. apply andb_prop in H as [Hc Hr].
  now rewrite (Hpq c Hc), (IH Hr).
Qed.

Lemma string_forall_get (p : ascii -> bool) (t : string) (n : nat) (c : ascii) :
  string_forall p t = true -> String.get n t = Some c -> p c = true.
Proof.
  revert n. induction t as [| a r IH]; intros n H Hg; simpl in *; [discriminate |].
  apply andb_prop in H as [Ha Hr].
  destruct n; [now injection Hg as <- | exact (IH n Hr Hg)].
Qed.

Lemma substring_whole (s : string) : substring 0 (String.length s) s = s.
Proof. induction s as [| c r IH]; simpl; [reflexivity | now rewrite IH]. Qed.

Lemma plainToken_spaces (t : string) :
  plainToken t -> string_forall (fun c => negb (isSpace c)) t = true.
Proof.
  intros (_ & _ & _ & H). revert H. apply string_forall_weaken.
  intros c Hc. apply negb_true_iff in Hc. apply orb_false_elim in Hc as [Hc _].
  now rewrite Hc.
Qed.

Lemma plainToken_quotes (t : string) :
  plainToken t -> string_forall (fun c => negb (isQuote c)) t = true.
Proof.
  intros (_ & _ & _ & H). revert H. apply string_forall_weaken.
  intros c Hc. apply negb_true_iff in Hc. apply orb_false_elim in Hc as [_ Hc].
  now rewrite Hc.
Qed.

Lemma plainToken_trim (t : string) : plainToken t -> trim t = t.
Proof.
  intros H. unfold trim.
  rewrite (dropStart_outside _ _ (plainToken_spaces t H)).
  exact (dropEnd_outside _ _ (plainToken_spaces t H)).
Qed.

Lemma plainToken_no_prefix (t : string) : plainToken t -> hasBearerPrefix t = false.
Proof.
  intros H. unfold hasBearerPrefix.
  destruct (String.get 6 t) as [c |] eqn:E; [| apply andb_false_r].
  pose proof (string_forall_get _ _ _ _ (plainToken_spaces t H) E) as Hc.
  apply negb_true_iff in Hc. rewrite Hc. apply andb_false_r.
Qed.

(** One "Bearer " in front of a text without surrounding white space is
    recognised and taken off again. *)
Lemma bearer_taken_off (u : string) :
  headOutside isSpace u -> dropEnd isSpace u = u ->
  hasBearerPrefix (String.append "Bearer " u) = true
  /\ dropBearerPrefix (String.append "Bearer " u) = u.
Proof.
  intros Hh He. split; [reflexivity |].
  unfold dropBearerPrefix. simpl. rewrite substring_whole.
  unfold trim. now rewrite !(dropStart_fixed isSpace u Hh), He.
Qed.

Lemma dropEnd_strip (p : ascii -> bool) (t : string) (c : ascii) :
  string_forall (fun c => negb (p c)) t = true -> p c = true ->
  dropEnd p (String.append t (String c EmptyString)) = t.
Proof.
  intros Ht Hc. induction t as [| a r IH]; simpl.
  - now rewrite Hc.
  - simpl in Ht. apply andb_prop in Ht as [Ha Hr]. apply negb_true_iff in Ha.
    rewrite (IH Hr). destruct r; [now rewrite Ha | reflexivity].
Qed.

Lemma string_forall_append (p : ascii -> bool) (a b : string) :
  string_forall p a = true -> string_forall p b = true ->
  string_forall p (String.append a b) = true.
Proof.
  intros Ha Hb. induction a as [| c r IH]; simpl in *; [exact Hb |].
  apply andb_prop in Ha as [Hc Hr]. now rewrite Hc, (IH Hr).
Qed.

(** [parseTokenValue] step by step. *)
Lemma parseTokenValue_steps (s t : string) :
  (trim s =? "")%string = false ->
  (let t2 := if hasBearerPrefix (trim s) then dropBearerPrefix (trim s)
             else trim s in
   let t3 := trim (dropEnd isQuote (dropStart isQuote t2)) in
   (if hasBearerPrefix t3 then dropBearerPrefix t3 else t3) = t) ->
  t <> "" -> t <> "undefined" -> t <> "null" ->
  parseTokenValue (JStr s) = Some t.
Proof.
  intros Hs Ht H1 H2 H3. unfold parseTokenValue. rewrite Hs.
  cbv zeta in Ht |- *. rewrite Ht.
  apply String.eqb_neq in H1, H2, H3. now rewrite H1, H2, H3.
Qed.

(** X6.  What [parseTokenValue] yields is never empty, never the text
    "undefined" or "null", and carries no white space at either end; only a
    string yields anything. *)
Theorem parseTokenValue_normal (value : jsval) (t : string) :
  parseTokenValue value = Some t ->
  (exists s, value = JStr s)
  /\ t <> "" /\ t <> "undefined" /\ t <> "null" /\ trim t = t.
Proof.
  unfold parseTokenValue. destruct value; try discriminate.
  destruct (trim s =? "")%string; [discriminate |].
  cbv zeta.
  set (t2 := if hasBearerPrefix (trim s) then dropBearerPrefix (trim s)
             else trim s).
  set (t3 := trim (dropEnd isQuote (dropStart isQuote t2))).
  set (t4 := if hasBearerPrefix t3 then dropBearerPrefix t3 else t3).
  destruct (t4 =? "")%string eqn:E1; [discriminate |].
  destruct (t4 =? "undefined")%string eqn:E2; [discriminate |].
  destruct (t4 =? "null")%string eqn:E3; [discriminate |].
  simpl. intros [= <-]. apply String.eqb_neq in E1, E2, E3.
  split; [now exists s |]. repeat split; try assumption.
  subst t4. destruct (hasBearerPrefix t3).
  - unfold dropBearerPrefix. apply trim_again.
  - subst t3. apply trim_again.
Qed.

(** X7.  A plain token is recovered from each of the forms the comments of
    the source name: as it is, behind "Bearer ", behind a doubled
    "Bearer Bearer ", and wrapped in single quotes. *)
Theorem parseTokenValue_recovers (t : string) :
  plainToken t ->
  parseTokenValue (JStr t) = Some t
  /\ parseTokenValue (JStr (String.append "Bearer " t)) = Some t
  /\ parseTokenValue (JStr (String.append "Bearer Bearer " t)) = Some t
  /\ parseTokenValue (JStr (String.append "'" (String.append t "'"))) = Some t.
Proof.
  intros H. pose proof H as (Hne & Hu & Hn & Hall).
  pose proof (plainToken_trim t H) as Htrim.
  pose proof (plainToken_no_prefix t H) as Hnp.
  pose proof (plainToken_spaces t H) as Hsp.
  pose proof (plainToken_quotes t H) as Hq.
  assert (Hhead : headOutside isSpace t).
  { destruct t as [| c r]; [exact I |]. simpl in Hsp |- *.
    apply andb_prop in Hsp as [Hc _]. now apply negb_true_iff in Hc. }
  assert (Hend : dropEnd isSpace t = t) by now apply dropEnd_outside.
  assert (Hqs : dropEnd isQuote (dropStart isQuote t) = t).
  { rewrite (dropStart_outside _ _ Hq). now apply dropEnd_outside. }
  assert (Hne' : (t =? "")%string = false) by now apply String.eqb_neq.
  destruct (bearer_taken_off t Hhead Hend) as [Hb1 Hb2].
  assert (Htrim1 : trim (String.append "Bearer " t) = String.append "Bearer " t).
  { unfold trim. rewrite dropStart_fixed by reflexivity.
    now apply dropEnd_append. }
  split; [| split; [| split]].
  - apply parseTokenValue_steps; try assumption.
    + now rewrite Htrim.
    + cbv zeta. now rewrite Htrim, Hnp, Hqs, Htrim, Hnp.
  - apply parseTokenValue_steps; try assumption.
    + now rewrite Htrim1.
    + cbv zeta. now rewrite Htrim1, Hb1, Hb2, Hqs, Htrim, Hnp.
  - set (u := String.append "Bearer " t) in *.
    assert (Hu_end : dropEnd isSpace u = u) by now apply dropEnd_append.
    destruct (bearer_taken_off u eq_refl Hu_end) as [Hc1 Hc2].
    assert (Htrim2 : trim (String.append "Bearer " u) = String.append "Bearer " u).
    { unfold trim. rewrite dropStart_fixed by reflexivity.
      apply dropEnd_append; [exact Hu_end | discriminate]. }
    assert (Hqu : dropEnd isQuote (dropStart isQuote u) = u).
    { rewrite dropStart_fixed by reflexivity.
      apply dropEnd_append; [now apply dropEnd_outside | exact Hne]. }
    change (String.append "Bearer Bearer " t) with (String.append "Bearer " u).
    apply parseTokenValue_steps; try assumption.
    + now rewrite Htrim2.
    + cbv zeta. now rewrite Htrim2, Hc1, Hc2, Hqu, Htrim1, Hb1, Hb2.
  - set (q := String.append "'" (String.append t "'")).
    assert (Hq_sp : string_forall (fun c => negb (isSpace c)) q = true).
    { unfold q. simpl. now apply string_forall_append. }
    assert (Htrimq : trim q = q).
    { unfold trim. rewrite (dropStart_outside _ _ Hq_sp).
      now apply dropEnd_outside. }
    assert (Hnpq : hasBearerPrefix q = false).
    { unfold hasBearerPrefix.
      destruct (String.get 6 q) as [c |] eqn:E; [| apply andb_false_r].
      pose proof (string_forall_get _ _ _ _ Hq_sp E) as Hc.
      apply negb_true_iff in Hc. rewrite Hc. apply andb_false_r. }
    assert (Hstrip : dropEnd isQuote (dropStart isQuote q) = t).
    { unfold q. simpl.
      rewrite dropStart_fixed.
      - now apply dropEnd_strip.
      - destruct t as [| c r]; [contradiction |]. simpl in Hq |- *.
        apply andb_prop in Hq as [Hc _]. now apply negb_true_iff in Hc. }
    apply parseTokenValue_steps; try assumption.
    + rewrite Htrimq. reflexivity.
    + cbv zeta. now rewrite Htrimq, Hnpq, Hstrip, Htrim, Hnp.
Qed.

End ExtractionFacts.

Lemma parseTokenValue_normal_witness :
  (exists s, JStr (Samples.nbsp ++ " bearer " ++ Samples.nbsp ++ " 'abc.def' "
                   ++ Samples.nbsp) = JStr s)
  /\ "abc.def" <> "" /\ "abc.def" <> "undefined" /\ "abc.def" <> "null"
  /\ trim "abc.def" = "abc.def".
Proof.
  apply (parseTokenValue_normal
           (JStr (Samples.nbsp ++ " bearer " ++ Samples.nbsp ++ " 'abc.def' "
                  ++ Samples.nbsp)) "abc.def").
  reflexivity.
Defined.

Lemma parseTokenValue_recovers_witness :
  AuthMiddleware.parseTokenValue (JStr "abc.def") = Some "abc.def"
  /\ AuthMiddleware.parseTokenValue (JStr "Bearer abc.def") = Some "abc.def"
  /\ AuthMiddleware.parseTokenValue (JStr "Bearer Bearer abc.def") = Some "abc.def"
  /\ AuthMiddleware.parseTokenValue (JStr "'abc.def'") = Some "abc.def".
Proof.
  apply (parseTokenValue_recovers "abc.def").
  split; [discriminate | split; [discriminate | split; [discriminate |]]].
  reflexivity.
Defined.

(** ** Authenticator and role gate *)

Section GateFacts.
Context {D : Deps}.
Import AuthMiddleware RequireRole Routes.

(** X8.  A token found in the Authorization header is the one used, whatever
    the other headers and the cookie hold; and whatever [extractAccessToken]
    returns came from one of the five headers, or, when none of them yields a
    token, from the trimmed cookie. *)
Theorem extractAccessToken_precedence (req : Request) :
  (forall t, parseTokenValue (authorization req) = Some t ->
             extractAccessToken req = Some t)
  /\ (forall t, extractAccessToken req = Some t ->
        (exists header,
            In header [authorization req; x_access_token req; auth_token req;
                       token req; auothorization req]
            /\ parseTokenValue header = Some t)
        \/ (firstParsed [authorization req; x_access_token req; auth_token req;
                         token req; auothorization req] = None
            /\ exists cookie, cookie_accessToken req = JStr cookie
                              /\ t = trim cookie /\ t <> "")).
Proof.
  split.
  - intros t Ht. unfold extractAccessToken. simpl. rewrite Ht.
    pose proof (parseTokenValue_nonempty _ _ Ht) as Hne.
    apply String.eqb_neq in Hne. now rewrite Hne.
  - intros t. unfold extractAccessToken.
    set (candidates := [authorization req; x_access_token req; auth_token req;
                        token req; auothorization req]).
    destruct (firstParsed candidates) as [p |] eqn:Hf.
    + intros [= <-]. left. clear -Hf.
      induction candidates as [| v l IH]; simpl in Hf; [discriminate |].
      destruct (parseTokenValue v) as [q |] eqn:Hq.
      * destruct (q =? "")%string.
        -- destruct (IH Hf) as (h & Hin & Hh). exists h. split; [now right | exact Hh].
        -- injection Hf as <-. exists v. split; [now left | exact Hq].
      * destruct (IH Hf) as (h & Hin & Hh). exists h. split; [now right | exact Hh].
    + destruct (cookie_accessToken req) as [| | | | cookie |] eqn:Hc;
        try discriminate.
      destruct (trim cookie =? "")%string eqn:E; [discriminate |].
      intros [= <-]. right. split; [reflexivity |].
      exists cookie. repeat split. now apply String.eqb_neq.
Qed.

Lemma auth_Next_inv (req : Request) (now : Z) (u : jsval) :
  auth req now = Next u ->
  exists t, extractAccessToken req = Some t
            /\ jwt_verify t (JWT_ACCESS_SECRET env) now = Verified u
            /\ get "tokenType" u = JStr "access"
            /\ typeof_string (get "sub" u) = true.
Proof.
  unfold auth.
  destruct (extractAccessToken req) as [t |]; [| discriminate].
  destruct (t =? "")%string; [discriminate |].
  destruct (jwt_verify t (JWT_ACCESS_SECRET env) now) as [payload | name] eqn:Hv.
  - destruct (negb (truthy payload) || negb (typeof_object payload));
      [discriminate |].
    destruct (strict_eq (get "tokenType" payload) (JStr "access")) eqn:Hk;
      simpl; [| discriminate].
    destruct (typeof_string (get "sub" payload)) eqn:Hs; simpl; [| discriminate].
    intros [= <-]. exists t. repeat split; try assumption.
    now apply strict_eq_true.
  - destruct (match jwt_verify t (JWT_REFRESH_SECRET env) now with
              | Verified p => _ | VerifyError _ => false end); [discriminate |].
    destruct (name =? "TokenExpiredError")%string; discriminate.
Qed.

Lemma auth_Respond_401 (req : Request) (now : Z) (r : Response) :
  auth req now = Respond r ->
  status r = 401 /\ get "success" (json r) = JBool false.
Proof.
  unfold auth. intros H.
  repeat match type of H with
         | context [match ?x with _ => _ end] => destruct x
         end;
    try discriminate; injection H as <-; split; reflexivity.
Qed.

(** X9.  The authenticator lets a request through only with the payload of a
    token that verified under the access secret, is of kind "access" and has
    a string subject; every other request is answered 401 with
    [success: false]. *)
Theorem auth_sound (req : Request) (now : Z) :
  (forall u, auth req now = Next u ->
     exists t, extractAccessToken req = Some t
               /\ jwt_verify t (JWT_ACCESS_SECRET env) now = Verified u
               /\ get "tokenType" u = JStr "access"
               /\ typeof_string (get "sub" u) = true)
  /\ (forall r, auth req now = Respond r ->
        status r = 401 /\ get "success" (json r) = JBool false).
Proof.
  split; [apply auth_Next_inv | apply auth_Respond_401].
Qed.

Lemma includes_In (allowedRoles : list string) (v : jsval) :
  includes allowedRoles v = true -> exists r, In r allowedRoles /\ v = JStr r.
Proof.
  unfold includes. intros H. apply existsb_exists in H as (r & Hin & He).
  apply strict_eq_true in He. now exists r.
Qed.

(** X10.  Behind [auth] and [requireRole(allowedRoles)] a request reaches
    the routes only with a verified access payload whose role is one of the
    allowed ones; a verified caller without a role is answered 401, one with
    a role outside the list 403, and nothing else is ever answered. *)
Theorem guarded_sound (allowedRoles : list string) (req : Request) (now : Z) :
  (forall u, guarded allowedRoles req now = Next u ->
     auth req now = Next u
     /\ exists role, In role allowedRoles /\ get "role" u = JStr role)
  /\ (forall r, guarded allowedRoles req now = Respond r ->
        auth req now = Respond r /\ status r = 401
        \/ exists u, auth req now = Next u
                     /\ (truthy (get "role" u) = false /\ status r = 401
                         \/ truthy (get "role" u) = true
                            /\ includes allowedRoles (get "role" u) = false
                            /\ status r = 403)).
Proof.
  unfold guarded, requireRole. split.
  - intros u H. destruct (auth req now) as [r | user]; [discriminate |].
    destruct (truthy (get "role" user)); simpl in H; [| discriminate].
    destruct (includes allowedRoles (get "role" user)) eqn:Hi; simpl in H;
      [| discriminate].
    injection H as <-. split; [reflexivity |]. now apply includes_In.
  - intros r H. destruct (auth req now) as [r' | user] eqn:Ha.
    + injection H as <-. left. split; [reflexivity |].
      exact (proj1 (auth_Respond_401 _ _ _ Ha)).
    + right. exists user. split; [reflexivity |].
      destruct (truthy (get "role" user)); simpl in H.
      * destruct (includes allowedRoles (get "role" user)); simpl in H;
          [discriminate |].
        injection H as <-. right. repeat split.
      * injection H as <-. left. split; reflexivity.
Qed.

End GateFacts.

Lemma extractAccessToken_precedence_witness :
  AuthMiddleware.extractAccessToken
    (AuthMiddleware.mkRequest (JStr "Bearer at-root") (JStr "at-hr") JUndefined
                              JUndefined JUndefined (JStr "at-admin"))
  = Some "at-root"
  /\ ((exists header,
          In header [JUndefined; JUndefined; JUndefined; JUndefined; JUndefined]
          /\ AuthMiddleware.parseTokenValue header = Some "at-admin")
      \/ (AuthMiddleware.firstParsed
            [JUndefined; JUndefined; JUndefined; JUndefined; JUndefined] = None
          /\ exists cookie, JStr " at-admin " = JStr cookie
                            /\ "at-admin" = trim cookie /\ "at-admin" <> "")).
Proof.
  split.
  - apply (extractAccessToken_precedence
             (AuthMiddleware.mkRequest (JStr "Bearer at-root") (JStr "at-hr")
                JUndefined JUndefined JUndefined (JStr "at-admin"))).
    reflexivity.
  - apply (extractAccessToken_precedence (Samples.cookieOnly " at-admin ")).
    reflexivity.
Defined.

Lemma auth_sound_witness :
  (exists t, AuthMiddleware.extractAccessToken (Samples.bearer "Bearer at-hr")
             = Some t
             /\ jwt_verify (Deps := Samples.gateDeps) t
                  (JWT_ACCESS_SECRET Samples.sampleEnv) 1000
                = Verified Samples.hrPayload
             /\ get "tokenType" Samples.hrPayload = JStr "access"
             /\ typeof_string (get "sub" Samples.hrPayload) = true)
  /\ (status (failure 401 "UNAUTHORIZED" "Missing access token") = 401
      /\ get "success" (json (failure 401 "UNAUTHORIZED" "Missing access token"))
         = JBool false).
Proof.
  split.
  - apply (auth_sound (D := Samples.gateDeps) (Samples.bearer "Bearer at-hr") 1000).
    reflexivity.
  - apply (auth_sound (D := Samples.gateDeps) (Samples.cookieOnly "  ") 1000).
    reflexivity.
Defined.

Lemma guarded_sound_witness :
  (AuthMiddleware.auth (D := Samples.gateDeps) (Samples.bearer "at-root") 1000
   = AuthMiddleware.Next Samples.rootPayload
   /\ exists role, In role ["SUPERADMIN"]
                   /\ get "role" Samples.rootPayload = JStr role)
  /\ (AuthMiddleware.auth (D := Samples.gateDeps) (Samples.bearer "at-hr") 1000
      = AuthMiddleware.Respond (failure 403 "FORBIDDEN" "Access denied for this role")
      /\ status (failure 403 "FORBIDDEN" "Access denied for this role") = 401
      \/ exists u,
          AuthMiddleware.auth (D := Samples.gateDeps) (Samples.bearer "at-hr") 1000
          = AuthMiddleware.Next u
          /\ (truthy (get "role" u) = false
              /\ status (failure 403 "FORBIDDEN" "Access denied for this role") = 401
              \/ truthy (get "role" u) = true
                 /\ RequireRole.includes ["SUPERADMIN"] (get "role" u) = false
                 /\ status (failure 403 "FORBIDDEN" "Access denied for this role")
                    = 403)).
Proof.
  split.
  - apply (guarded_sound (D := Samples.gateDeps) ["SUPERADMIN"]
             (Samples.bearer "at-root") 1000).
    reflexivity.
  - apply (guarded_sound (D := Samples.gateDeps) ["SUPERADMIN"]
             (Samples.bearer "at-hr") 1000).
    reflexivity.
Defined.

(** ** Login *)

Section LoginFacts.
Context {D : Deps}.
Import Prisma AuthHandlers.

Ltac refused := left; split; reflexivity.

Lemma login_cases (c : Ctx) (req : Req) (db : Db) :
  (succeeded (fst (login c req db)) = false /\ snd (login c req db) = db)
  \/ exists email password u,
      loginSchema (body req) = Ok (email, password)
      /\ user_findUnique_email (toLowerCase email) db = Some u
      /\ user_isActive u = true
      /\ bcrypt_compare password (user_passwordHash u) = true
      /\ ~ In (cuid c) (map rt_id (refreshTokens db))
      /\ ~ In (hashToken (issueRefreshToken (buildJwtPayload u) c))
              (map rt_tokenHash (refreshTokens db))
      /\ login c req db
         = (Responded (success 200
              (JObj [("accessToken",
                      JStr (issueAccessToken (buildJwtPayload u) (now c)));
                     ("refreshToken",
                      JStr (issueRefreshToken (buildJwtPayload u) c));
                     ("user", toSafeUser u)])),
            mkDb (updateMany (fun x => (user_id x =? user_id u)%string)
                             (setLastLoginAt (now c)) (users db))
                 (refreshTokens db
                  ++ [newRefreshToken c (user_id u)
                        (issueRefreshToken (buildJwtPayload u) c)])
                 (passwordResetOtps db)).
Proof.
  unfold login.
  destruct (loginSchema (body req)) as [[email password] | e]; [| refused].
  destruct (user_findUnique_email (toLowerCase email) db) as [u |] eqn:Hu;
    [| refused].
  destruct (user_isActive u) eqn:Ha; [| refused]. simpl negb. cbv iota.
  destruct (bcrypt_compare password (user_passwordHash u)) eqn:Hc; [| refused].
  simpl negb. cbv iota.
  destruct (transaction _ db) as [db' | e] eqn:Ht; [| refused].
  right. exists email, password, u.
  apply transaction2_Ok in Ht as (d1 & H1 & H2).
  apply user_update_Ok in H1. subst d1.
  apply refreshToken_create_Ok in H2 as (-> & Hi & Hh).
  repeat split; assumption.
Qed.

(** X11.  Login refuses an unknown address, a disabled account and a wrong
    password with one and the same answer, and writes nothing. *)
Theorem login_refusals_alike (c : Ctx) (req : Req) (db : Db)
        (email password : string) :
  loginSchema (body req) = Ok (email, password) ->
  user_findUnique_email (toLowerCase email) db = None
  \/ (exists u, user_findUnique_email (toLowerCase email) db = Some u
                /\ (user_isActive u = false
                    \/ bcrypt_compare password (user_passwordHash u) = false)) ->
  login c req db
  = (Responded (failure 401 "UNAUTHORIZED" "Invalid email or password"), db).
Proof.
  intros Hp Hcase. unfold login. rewrite Hp.
  destruct Hcase as [-> | (u & -> & [Ha | Hc])]; [reflexivity | |].
  - now rewrite Ha.
  - destruct (user_isActive u); [now rewrite Hc | reflexivity].
Qed.

(** X12.  A login answered 200 has, in one transaction, stamped the
    account's last login and added one unrevoked ledger entry, owned by that
    account, for the refresh token it hands out; it changes nothing else, and
    the account it describes in the answer is shown without its password
    hash. *)
Theorem login_opens_session (c : Ctx) (req : Req) (db db' : Db) (r : Response) :
  ledger_wf db ->
  login c req db = (Responded r, db') -> status r = 200 ->
  exists email password u t,
    loginSchema (body req) = Ok (email, password)
    /\ user_findUnique_email (toLowerCase email) db = Some u
    /\ get "refreshToken" (get "data" (json r)) = JStr t
    /\ refreshTokens db'
       = (refreshTokens db ++ [newRefreshToken c (user_id u) t])%list
    /\ refreshToken_findUnique_tokenHash (hashToken t) db'
       = Some (newRefreshToken c (user_id u) t)
    /\ rt_revokedAt (newRefreshToken c (user_id u) t) = None
    /\ users db'
       = updateMany (fun x => (user_id x =? user_id u)%string)
                    (setLastLoginAt (now c)) (users db)
    /\ passwordResetOtps db' = passwordResetOtps db
    /\ ledger_wf db'
    /\ get "user" (get "data" (json r)) = toSafeUser u
    /\ get "passwordHash" (toSafeUser u) = JUndefined.
Proof.
  intros Hwf Hrun Hst.
  destruct (login_cases c req db)
    as [[Hfail _] | (email & password & u & Hp & Hu & _ & _ & Hi & Hh & Heq)].
  { rewrite Hrun in Hfail. simpl in Hfail.
    apply Z.eqb_neq in Hfail. contradiction. }
  rewrite Hrun in Heq. injection Heq as -> ->.
  exists email, password, u, (issueRefreshToken (buildJwtPayload u) c).
  repeat split; try assumption; try reflexivity.
  - unfold refreshToken_findUnique_tokenHash. simpl.
    now apply find_app_fresh.
  - simpl. rewrite map_app. simpl. apply NoDup_snoc; [apply Hwf | exact Hi].
  - simpl. rewrite map_app. simpl. apply NoDup_snoc; [apply Hwf | exact Hh].
Qed.

End LoginFacts.

(** ** Sessions from login to logout *)

Section SessionFacts.
Context {D : Deps}.
Import Prisma AuthHandlers.

Lemma existsb_key_In {A} (key : A -> string) (l : list A) (x : A) :
  In x l -> existsb (fun y => (key y =? key x)%string) l = true.
Proof.
  intros H. apply existsb_exists. exists x. split; [exact H |].
  apply String.eqb_refl.
Qed.

Lemma payload_accepted (decoded : jsval) (kind : string) :
  get "tokenType" decoded = JStr kind ->
  negb (truthy decoded) || negb (typeof_object decoded) = false.
Proof. destruct decoded; simpl; try discriminate. reflexivity. Qed.

(** When every check passes and the generated id and hash are new, [refresh]
    answers 200. *)
Lemma refresh_succeeds (c : Ctx) (req : Req) (db : Db) (tok : string)
      (stored : RefreshToken) (u : User) :
  refresh_admits c req db tok stored u ->
  ~ In (cuid c) (map rt_id (refreshTokens db)) ->
  ~ In (hashToken (issueRefreshToken (buildJwtPayload u) c))
       (map rt_tokenHash (refreshTokens db)) ->
  succeeded (fst (refresh c req db)) = true.
Proof.
  intros (Hp & (decoded & Hv & Hk & Hs) & Hf & Hr & Hx & Hu & Ha) Hi Hh.
  unfold refresh. rewrite Hp, Hv.
  rewrite (payload_accepted decoded _ Hk), Hk, Hs. simpl orb. cbv iota.
  rewrite Hf, Hr. simpl negb. cbv iota.
  apply Z.ltb_ge in Hx. rewrite Hx, Hu, Ha. simpl negb. cbv iota.
  apply find_key_some in Hf as [Hin _].
  apply find_key_some in Hu as [Huin Huid].
  unfold transaction, bind, refreshToken_update, update.
  rewrite (existsb_key_In rt_id _ _ Hin).
  unfold refreshToken_create. simpl.
  rewrite !existsb_key_fresh by now rewrite updateMany_keeps by reflexivity.
  simpl. rewrite (existsb_key_In user_id _ _ Huin). reflexivity.
Qed.

(** X13.  The refresh token a login hands out is honoured by the next
    refresh: if the library verifies it as a refresh token, its expiry has
    not passed, and the row id and the hash of the following token are new,
    the refresh is answered 200. *)
Theorem login_then_refresh (c c2 : Ctx) (req req2 : Req) (db db1 : Db)
        (r : Response) (t : string) (decoded : jsval) :
  users_wf db ->
  login c req db = (Responded r, db1) -> status r = 200 ->
  get "refreshToken" (get "data" (json r)) = JStr t ->
  refreshSchema (body req2) = Ok t ->
  jwt_verify t (JWT_REFRESH_SECRET env) (now c2) = Verified decoded ->
  get "tokenType" decoded = JStr "refresh" ->
  typeof_string (get "sub" decoded) = true ->
  now c2 <= tokenExpiryFromJwt t (now c) ->
  ~ In (cuid c2) (map rt_id (refreshTokens db1)) ->
  (forall u, ~ In (hashToken (issueRefreshToken (buildJwtPayload u) c2))
                  (map rt_tokenHash (refreshTokens db1))) ->
  succeeded (fst (refresh c2 req2 db1)) = true.
Proof.
  intros Hus Hrun Hst Htok Hp Hv Hk Hs Hx Hi Hh.
  destruct (login_cases c req db)
    as [[Hfail _] | (email & password & u & _ & Hu & Ha & _ & Hi0 & Hh0 & Heq)].
  { rewrite Hrun in Hfail. simpl in Hfail.
    apply Z.eqb_neq in Hfail. contradiction. }
  rewrite Hrun in Heq. injection Heq as -> ->.
  simpl in Htok. injection Htok as Htok. subst t.
  apply (refresh_succeeds c2 req2 _ (issueRefreshToken (buildJwtPayload u) c)
           (newRefreshToken c (user_id u) (issueRefreshToken (buildJwtPayload u) c))
           (setLastLoginAt (now c) u)).
  - split; [exact Hp |]. split; [now exists decoded |]. split.
    { unfold refreshToken_findUnique_tokenHash. simpl.
      now apply find_app_fresh. }
    split; [reflexivity |]. split; [exact Hx |]. split; [| exact Ha].
    unfold user_findUnique_id. simpl.
    rewrite (find_updateMany_key user_id) by reflexivity.
    unfold user_findUnique_email in Hu. apply find_some in Hu as [Hin _].
    now rewrite (find_key_unique user_id _ u Hus Hin).
  - exact Hi.
  - exact (Hh (setLastLoginAt (now c) u)).
Qed.

(** A hash the ledger does not hold, or holds revoked, is refused. *)
Lemma refresh_refuses_unusable (c : Ctx) (req : Req) (db : Db) (tok : string) :
  refreshSchema (body req) = Ok tok ->
  (forall e, refreshToken_findUnique_tokenHash (hashToken tok) db = Some e ->
             rt_revokedAt e <> None) ->
  exists m, refresh c req db = (Responded (failure 401 "UNAUTHORIZED" m), db).
Proof.
  intros Hp Hun. unfold refresh. rewrite Hp.
  destruct (jwt_verify tok (JWT_REFRESH_SECRET env) (now c)) as [decoded |];
    [| eexists; reflexivity].
  destruct (negb (truthy decoded) || _ || _ || _); [eexists; reflexivity |].
  destruct (refreshToken_findUnique_tokenHash (hashToken tok) db) as [e |] eqn:Hf;
    [| eexists; reflexivity].
  specialize (Hun e eq_refl).
  destruct (rt_revokedAt e); [eexists; reflexivity | contradiction].
Qed.

(** X14.  After a logout with a token, a refresh presenting that token is
    answered 401 and changes nothing, whether or not the ledger ever held it;
    and if the ledger did hold it, this stays so after any further [/auth]
    traffic. *)
Theorem logout_ends_session (c : Ctx) (req : Req) (db : Db) (t : string) :
  ledger_wf db ->
  logoutSchema (js_or (body req) (JObj [])) = Ok (Some t) ->
  (forall c2 req2, refreshSchema (body req2) = Ok t ->
     exists m, refresh c2 req2 (snd (logout c req db))
               = (Responded (failure 401 "UNAUTHORIZED" m), snd (logout c req db)))
  /\ (forall e calls c2 req2,
        In e (refreshTokens db) -> rt_tokenHash e = hashToken t ->
        refreshSchema (body req2) = Ok t ->
        exists m, refresh c2 req2 (serve calls (snd (logout c req db)))
                  = (Responded (failure 401 "UNAUTHORIZED" m),
                     serve calls (snd (logout c req db)))).
Proof.
  intros Hwf Hp.
  assert (Hdb1 : snd (logout c req db)
                 = set_refreshTokens db
                     (updateMany (fun x => (rt_tokenHash x =? hashToken t)%string
                                           && is_null (rt_revokedAt x))
                                 (revoke (now c)) (refreshTokens db))).
  { unfold logout. now rewrite Hp. }
  rewrite Hdb1. split.
  - intros c2 req2 Hp2. apply refresh_refuses_unusable with (tok := t);
      [exact Hp2 |].
    intros e He. apply find_key_some in He as [Hin Hh]. simpl in Hin.
    apply In_updateMany_inv in Hin as (x & _ & ->).
    destruct ((rt_tokenHash x =? hashToken t)%string && is_null (rt_revokedAt x))
      eqn:E; [discriminate |].
    rewrite Hh, String.eqb_refl in E. simpl in E.
    destruct (rt_revokedAt x); [discriminate | discriminate].
  - intros e calls c2 req2 Hin Hh Hp2.
    set (db1 := set_refreshTokens db _).
    assert (Hev : ledger_evolves (refreshTokens db) (refreshTokens db1))
      by apply ledger_evolves_revoke.
    assert (Hrev : revoked_in (hashToken t) db1).
    { exists (if (rt_tokenHash e =? hashToken t)%string && is_null (rt_revokedAt e)
              then revoke (now c) e else e).
      split; [| split].
      - simpl. exact (In_updateMany _ _ _ _ Hin).
      - now destruct (_ && _).
      - rewrite Hh, String.eqb_refl. simpl.
        destruct (rt_revokedAt e) eqn:E; simpl; congruence. }
    destruct (serve_ledger calls db1 (hashToken t) (evolves_wf _ _ Hev Hwf))
      as [Hwf2 Hrev2].
    exact (refresh_refuses_revoked c2 req2 _ t Hwf2 (Hrev2 Hrev) Hp2).
Qed.

End SessionFacts.

Lemma db0_users_wf : users_wf Samples.db0.
Proof.
  unfold users_wf. simpl.
  constructor; [intros [H | []]; discriminate |].
  constructor; [intros [] | constructor].
Qed.

Lemma login_refusals_alike_witness :
  AuthHandlers.login (D := Samples.sampleDeps) Samples.at2s
    (Samples.loggingIn "nobody@school.edu" "Admin123!") Samples.db0
  = (AuthHandlers.Responded (failure 401 "UNAUTHORIZED" "Invalid email or password"),
     Samples.db0)
  /\ AuthHandlers.login (D := Samples.sampleDeps) Samples.at2s
       (Samples.loggingIn "Admin@school.edu" "Wrong123!") Samples.db0
     = (AuthHandlers.Responded
          (failure 401 "UNAUTHORIZED" "Invalid email or password"), Samples.db0)
  /\ AuthHandlers.login (D := Samples.sampleDeps) Samples.at2s
       (Samples.loggingIn "ravi@school.edu" "Ravi123!") Samples.db0
     = (AuthHandlers.Responded
          (failure 401 "UNAUTHORIZED" "Invalid email or password"), Samples.db0).
Proof.
  split; [| split].
  - apply (login_refusals_alike (D := Samples.sampleDeps) _ _ _
             "nobody@school.edu" "Admin123!"); [reflexivity |].
    left. reflexivity.
  - apply (login_refusals_alike (D := Samples.sampleDeps) _ _ _
             "Admin@school.edu" "Wrong123!"); [reflexivity |].
    right. exists Samples.admin. split; [reflexivity | right; reflexivity].
  - apply (login_refusals_alike (D := Samples.sampleDeps) _ _ _
             "ravi@school.edu" "Ravi123!"); [reflexivity |].
    right. exists Samples.retired. split; [reflexivity | left; reflexivity].
Defined.

Lemma login_opens_session_witness :
  exists t,
    get "refreshToken"
        (get "data"
           (json (AuthHandlers.reply
                    (fst (AuthHandlers.login (D := Samples.sampleDeps) Samples.at2s
                            (Samples.loggingIn "Admin@school.edu" "Admin123!")
                            Samples.db0))))) = JStr t
    /\ Prisma.refreshToken_findUnique_tokenHash
         (AuthHandlers.hashToken (D := Samples.sampleDeps) t)
         (snd (AuthHandlers.login (D := Samples.sampleDeps) Samples.at2s
                 (Samples.loggingIn "Admin@school.edu" "Admin123!") Samples.db0))
       <> None.
Proof.
  eassert (E : AuthHandlers.login (D := Samples.sampleDeps) Samples.at2s
                 (Samples.loggingIn "Admin@school.edu" "Admin123!") Samples.db0
               = (AuthHandlers.Responded _, _)) by (vm_compute; reflexivity).
  destruct (login_opens_session (D := Samples.sampleDeps) _ _ _ _ _
              db0_ledger_wf E eq_refl)
    as (email & password & u & t & _ & _ & Ht & _ & Hf & _).
  exists t. rewrite E. split; [exact Ht |].
  simpl snd. rewrite Hf. discriminate.
Defined.

Lemma login_then_refresh_witness :
  succeeded
    (fst (AuthHandlers.refresh (D := Samples.sampleDeps) Samples.at3s
            (Samples.presenting "rt-2")
            (snd (AuthHandlers.login (D := Samples.sampleDeps) Samples.at2s
                    (Samples.loggingIn "Admin@school.edu" "Admin123!")
                    Samples.db0)))) = true.
Proof.
  eassert (E : AuthHandlers.login (D := Samples.sampleDeps) Samples.at2s
                 (Samples.loggingIn "Admin@school.edu" "Admin123!") Samples.db0
               = (AuthHandlers.Responded _, _)) by (vm_compute; reflexivity).
  rewrite E.
  apply (login_then_refresh (D := Samples.sampleDeps) Samples.at2s Samples.at3s
           (Samples.loggingIn "Admin@school.edu" "Admin123!")
           (Samples.presenting "rt-2") Samples.db0 _ _ "rt-2"
           (JObj [("sub", JStr "u1"); ("tokenType", JStr "refresh")])
           db0_users_wf E);
    try reflexivity.
  - discriminate.
  - simpl. intros [H | [H | []]]; discriminate.
  - intros u. simpl. intros [H | [H | []]]; discriminate.
Defined.

Lemma logout_ends_session_witness :
  exists m,
    AuthHandlers.refresh (D := Samples.sampleDeps) Samples.at3s
      (Samples.presenting "rt-1")
      (snd (AuthHandlers.logout (D := Samples.sampleDeps) Samples.at2s
              (Samples.presenting "rt-1") Samples.db0))
    = (AuthHandlers.Responded (failure 401 "UNAUTHORIZED" m),
       snd (AuthHandlers.logout (D := Samples.sampleDeps) Samples.at2s
              (Samples.presenting "rt-1") Samples.db0)).
Proof.
  destruct (logout_ends_session (D := Samples.sampleDeps) Samples.at2s
              (Samples.presenting "rt-1") Samples.db0 "rt-1" db0_ledger_wf eq_refl)
    as [H _].
  exact (H Samples.at3s (Samples.presenting "rt-1") eq_refl).
Defined.


(** ** Issued codes *)

Section IssueFacts.
Context {D : Deps}.
Import Prisma AuthHandlers.

(** Right after a code is issued for an address, it is the record
    [verifyOtp] finds for that address. *)
Lemma issued_is_newest (c : Ctx) (email : string) (db : Db) :
  passwordResetOtp_findFirst_desc
    (fun o => (otp_email o =? toLowerCase email)%string && is_null (otp_usedAt o))
    (set_passwordResetOtps db (otpsAfterIssue c email db))
  = Some (issuedOtp c email).
Proof.
  unfold passwordResetOtp_findFirst_desc. simpl. unfold otpsAfterIssue.
  rewrite filter_app, filter_none.
  - simpl. now rewrite String.eqb_refl.
  - intros x Hx. apply In_updateMany_inv in Hx as (x0 & _ & ->).
    destruct ((otp_email x0 =? toLowerCase email)%string
              && is_null (otp_usedAt x0)) eqn:E; [| exact E].
    simpl. apply andb_false_r.
Qed.

End IssueFacts.

(** ** Refusals and the store *)

Section RefusalFacts.
Context {D : Deps}.
Import Prisma AuthHandlers.

(** X15.  On every [/auth] route but forgot-password, a request that is not
    answered 200 leaves the store exactly as it was: a wrong password, a
    wrong one-time code, a bad reset token or a failed transaction consume
    nothing. *)
Theorem refusals_write_nothing (r : Route) (c : Ctx) (req : Req) (db : Db) :
  r <> POST_forgot_password ->
  succeeded (fst (handle r c req db)) = false ->
  snd (handle r c req db) = db.
Proof.
  intros Hr. destruct r; simpl; try contradiction.
  - destruct (POST_auth_login_cases c req db) as [-> | ->]; [| reflexivity].
    destruct (login_cases c req db)
      as [[_ H] | (e & pw & u & _ & _ & _ & _ & _ & _ & ->)];
      [trivial | discriminate].
  - destruct (refresh_cases c req db)
      as [[_ H] | (tok & st & u & _ & _ & _ & ->)]; [trivial | discriminate].
  - unfold logout, refreshToken_updateMany.
    destruct (logoutSchema _) as [[tok |] | e]; simpl; try discriminate.
    reflexivity.
  - intros _. apply me_keeps.
  - destruct (verifyOtp_cases c req db)
      as [[_ H] | (e & o & rec & u & _ & _ & _ & _ & _ & _ & ->)];
      [trivial | discriminate].
  - destruct (resetPassword_cases c req db)
      as [[_ H] | (u & pw & tok & dec & _ & _ & _ & _ & ->)];
      [trivial | discriminate].
  - destruct (changePassword_cases c req db)
      as [[_ H] | (u & pw & _ & _ & ->)]; [trivial | discriminate].
Qed.

(** X16.  Forgot-password is the exception: it commits the new code before
    it turns to the mailer, so when the mailer throws, or is not configured
    in production, the request fails although the earlier codes of the
    address are used up and the new one is stored. *)
Theorem forgotPassword_commits_before_mail (c : Ctx) (req : Req) (db : Db)
        (email : string) (u : User) (e : Thrown) :
  forgotPasswordSchema (body req) = Ok email ->
  user_findUnique_email (toLowerCase email) db = Some u ->
  user_isActive u = true ->
  ~ In (cuid c) (map otp_id (passwordResetOtps db)) ->
  (isMailerConfigured = true
   /\ sendPasswordResetOtpEmail (toLowerCase email) (toString (randomInt c))
                                (PASSWORD_RESET_OTP_EXPIRES_MINUTES env) = Throw e)
  \/ (isMailerConfigured = false /\ NODE_ENV env = "production"
      /\ e = PlainError "Email service is not configured in production") ->
  forgotPassword c req db
  = (NextError e, set_passwordResetOtps db (otpsAfterIssue c email db))
  /\ passwordResetOtp_findFirst_desc
       (fun o => (otp_email o =? toLowerCase email)%string
                 && is_null (otp_usedAt o))
       (set_passwordResetOtps db (otpsAfterIssue c email db))
     = Some (issuedOtp c email).
Proof.
  intros Hp Hu Ha Hfresh Hmail. split.
  - unfold forgotPassword. rewrite Hp, Hu, Ha. simpl negb. cbv iota.
    unfold transaction, bind, passwordResetOtp_updateMany, passwordResetOtp_create.
    simpl passwordResetOtps. simpl otp_id.
    rewrite existsb_key_fresh by now rewrite updateMany_keeps by reflexivity.
    destruct Hmail as [[-> ->] | (-> & -> & ->)]; reflexivity.
  - apply issued_is_newest.
Qed.

End RefusalFacts.

(** ** From a forgotten password to a new one *)

Section ResetFacts.
Context {D : Deps}.
Import Prisma AuthHandlers.

(** X17.  The code forgot-password issues is accepted by verify-otp: for the
    same address in any letter case, before the code expires, and provided
    bcrypt matches the code against its own hash, verify-otp answers 200 with
    a reset token for that account and marks the code used. *)
Theorem forgot_then_verify (c c2 : Ctx) (req req2 : Req) (db : Db)
        (email email2 : string) (u : User) :
  forgotPasswordSchema (body req) = Ok email ->
  user_findUnique_email (toLowerCase email) db = Some u ->
  user_isActive u = true ->
  ~ In (cuid c) (map otp_id (passwordResetOtps db)) ->
  verifyOtpSchema (body req2) = Ok (email2, toString (randomInt c)) ->
  toLowerCase email2 = toLowerCase email ->
  now c2 < now c + PASSWORD_RESET_OTP_EXPIRES_MINUTES env * 60 * 1000 ->
  bcrypt_compare (toString (randomInt c))
                 (bcrypt_hash (toString (randomInt c)) (genSalt c)) = true ->
  let db1 := snd (forgotPassword c req db) in
  fst (verifyOtp c2 req2 db1)
  = Responded (success 200
      (JObj [("resetToken",
              JStr (issuePasswordResetToken
                      [("sub", JStr (user_id u)); ("email", JStr (user_email u))]
                      c2));
             ("expiresIn", JStr (PASSWORD_RESET_TOKEN_EXPIRES_IN env))]))
  /\ no_unused (toLowerCase email) (snd (verifyOtp c2 req2 db1)).
Proof.
  intros Hp Hu Ha Hfresh Hp2 Hcase Hx Hc db1. subst db1.
  rewrite (forgotPassword_issues c req db email u Hp Hu Ha Hfresh).
  assert (Hrun : verifyOtp c2 req2
                   (set_passwordResetOtps db (otpsAfterIssue c email db))
                 = (Responded (success 200
                      (JObj [("resetToken",
                              JStr (issuePasswordResetToken
                                      [("sub", JStr (user_id u));
                                       ("email", JStr (user_email u))] c2));
                             ("expiresIn",
                              JStr (PASSWORD_RESET_TOKEN_EXPIRES_IN env))])),
                    set_passwordResetOtps db
                      (updateMany (fun o => (otp_id o =? cuid c)%string)
                                  (markUsed (now c2))
                                  (otpsAfterIssue c email db)))).
  { unfold verifyOtp. rewrite Hp2, Hcase, issued_is_newest.
    apply Z.leb_gt in Hx. simpl otp_expiresAt. rewrite Hx.
    simpl otp_otpHash. rewrite Hc. simpl negb. cbv iota.
    change (user_findUnique_email (toLowerCase email)
              (set_passwordResetOtps db (otpsAfterIssue c email db)))
      with (user_findUnique_email (toLowerCase email) db).
    rewrite Hu, Ha. simpl negb. cbv iota.
    unfold passwordResetOtp_update, update, bind. simpl.
    assert (Hex : existsb (fun o => (otp_id o =? cuid c)%string)
                          (otpsAfterIssue c email db) = true).
    { apply existsb_exists. exists (issuedOtp c email). split.
      - unfold otpsAfterIssue. apply in_or_app. right. now left.
      - apply String.eqb_refl. }
    rewrite Hex. reflexivity. }
  rewrite Hrun. split; [reflexivity |].
  intros o Ho Hemail Hunused. simpl in Ho.
  apply In_updateMany_inv in Ho as (x & Hx0 & ->).
  destruct (otp_id x =? cuid c)%string eqn:Eid; [discriminate |].
  rewrite (issue_leaves_one c email db x Hx0 Hemail Hunused) in Eid.
  simpl in Eid. rewrite String.eqb_refl in Eid. discriminate.
Qed.

Lemma resetPassword_success_inv (c : Ctx) (req : Req) (db db' : Db)
      (r : Response) :
  resetPassword c req db = (Responded r, db') -> status r = 200 ->
  exists tok pw decoded u,
    resetPasswordSchema (body req) = Ok (tok, pw)
    /\ jwt_verify tok passwordResetSecret (now c) = Verified decoded
    /\ negb (truthy decoded) || negb (typeof_object decoded)
       || negb (strict_eq (get "tokenType" decoded) (JStr "password_reset"))
       || negb (typeof_string (get "sub" decoded))
       || negb (typeof_string (get "email" decoded)) = false
    /\ get "sub" decoded = JStr (user_id u)
    /\ user_findUnique_id (user_id u) db = Some u
    /\ negb (user_isActive u)
       || negb (strict_eq (JStr (user_email u)) (get "email" decoded)) = false
    /\ db' = set_passwordResetOtps
               (passwordChanged c u (bcrypt_hash pw (genSalt c)) db)
               (updateMany (fun o => (otp_email o =? user_email u)%string
                                     && is_null (otp_usedAt o))
                           (markUsed (now c)) (passwordResetOtps db)).
Proof.
  unfold resetPassword. intros H Hst.
  destruct (resetPasswordSchema (body req)) as [[tok pw] | e];
    [| discriminate].
  destruct (jwt_verify tok passwordResetSecret (now c)) as [decoded | n] eqn:Hv;
    [| injection H as <- _; discriminate].
  destruct (negb (truthy decoded) || _ || _ || _ || _) eqn:Hchk;
    [injection H as <- _; discriminate |].
  destruct (get "sub" decoded) as [| | | | sub |] eqn:Hsub;
    try (injection H as <- _; discriminate).
  destruct (user_findUnique_id sub db) as [u |] eqn:Hu;
    [| injection H as <- _; discriminate].
  destruct (negb (user_isActive u) || _) eqn:Hok;
    [injection H as <- _; discriminate |].
  destruct (transaction _ db) as [d | e] eqn:Ht; [| discriminate].
  injection H as _ <-.
  apply transaction3_Ok in Ht as (d1 & d2 & H1 & H2 & H3).
  apply user_update_Ok in H1. subst d1.
  unfold refreshToken_updateMany in H2. injection H2 as <-.
  unfold passwordResetOtp_updateMany in H3. injection H3 as <-.
  pose proof (find_key_some user_id sub (users db) u Hu) as [_ Hid]. subst sub.
  rewrite <- Hsub in Hchk.
  exists tok, pw, decoded, u. repeat split; try assumption; reflexivity.
Qed.

(** X18.  A reset-password answered 200 leaves the address its token was
    issued for without an unused code: until forgot-password runs again,
    every verify-otp for that address is refused as INVALID_OTP, whatever
    code it carries. *)
Theorem resetPassword_uses_up_codes (c : Ctx) (req : Req) (db db' : Db)
        (r : Response) :
  resetPassword c req db = (Responded r, db') -> status r = 200 ->
  exists tok pw decoded address,
    resetPasswordSchema (body req) = Ok (tok, pw)
    /\ jwt_verify tok passwordResetSecret (now c) = Verified decoded
    /\ get "email" decoded = JStr address
    /\ no_unused address db'
    /\ forall calls c2 req2 email otp,
         issues_no_otp calls ->
         verifyOtpSchema (body req2) = Ok (email, otp) ->
         toLowerCase email = address ->
         verifyOtp c2 req2 (serve calls db')
         = (Responded (failure 400 "INVALID_OTP" "Invalid or expired OTP"),
            serve calls db').
Proof.
  intros Hrun Hst.
  destruct (resetPassword_success_inv c req db db' r Hrun Hst)
    as (tok & pw & decoded & u & Hp & Hv & _ & _ & Hu & Hok & ->).
  apply orb_false_elim in Hok as [_ Hmail]. apply negb_false_iff in Hmail.
  apply strict_eq_true in Hmail.
  assert (Hnone : no_unused (user_email u)
                    (set_passwordResetOtps
                       (passwordChanged c u (bcrypt_hash pw (genSalt c)) db)
                       (updateMany (fun o => (otp_email o =? user_email u)%string
                                             && is_null (otp_usedAt o))
                                   (markUsed (now c)) (passwordResetOtps db)))).
  { intros o Ho Hemail. simpl in Ho.
    apply In_updateMany_inv in Ho as (x & _ & ->).
    destruct ((otp_email x =? user_email u)%string && is_null (otp_usedAt x))
      eqn:E; [discriminate |].
    rewrite Hemail, String.eqb_refl in E. simpl in E.
    destruct (otp_usedAt x); [discriminate | discriminate]. }
  exists tok, pw, decoded, (user_email u).
  split; [exact Hp |]. split; [exact Hv |]. split; [now symmetry |].
  split; [exact Hnone |].
  intros calls c2 req2 email otp Hcalls Hp2 Hemail.
  apply (verifyOtp_no_unused _ _ _ email otp Hp2).
  rewrite Hemail. now apply serve_no_unused.
Qed.

(** X19.  A successful reset does not consume the reset token: as long as
    the library still verifies it, the same request is answered 200 again. *)
Theorem resetPassword_token_not_consumed (c c2 : Ctx) (req : Req) (db db' : Db)
        (r : Response) :
  resetPassword c req db = (Responded r, db') -> status r = 200 ->
  (forall tok pw, resetPasswordSchema (body req) = Ok (tok, pw) ->
                  jwt_verify tok passwordResetSecret (now c2)
                  = jwt_verify tok passwordResetSecret (now c)) ->
  succeeded (fst (resetPassword c2 req db')) = true.
Proof.
  intros Hrun Hst Hstill.
  destruct (resetPassword_success_inv c req db db' r Hrun Hst)
    as (tok & pw & decoded & u & Hp & Hv & Hchk & Hsub & Hu & Hok & ->).
  destruct (passwordChanged_effect c u (bcrypt_hash pw (genSalt c)) db Hu)
    as [Hfind _].
  unfold resetPassword. rewrite Hp, (Hstill tok pw Hp), Hv, Hchk, Hsub.
  change (user_findUnique_id (user_id u) (set_passwordResetOtps ?d ?o))
    with (user_findUnique_id (user_id u) d).
  rewrite Hfind. simpl user_isActive. simpl user_email. rewrite Hok.
  unfold transaction, bind, user_update, update. simpl user_id.
  unfold user_findUnique_id in Hfind.
  apply find_some in Hfind as [Hin _].
  match goal with |- context [existsb ?f ?l] =>
    assert (Hex : existsb f l = true)
  end.
  { apply existsb_exists. eexists. split; [exact Hin |]. apply String.eqb_refl. }
  rewrite Hex. reflexivity.
Qed.

End ResetFacts.

Lemma refusals_write_nothing_witness :
  let db1 := snd (AuthHandlers.forgotPassword (D := Samples.sampleDeps)
                    Samples.at2s (Samples.forgetting "admin@school.edu")
                    Samples.db0) in
  snd (AuthHandlers.handle (D := Samples.sampleDeps) AuthHandlers.POST_verify_otp
         Samples.at3s (Samples.guessing "000000") db1) = db1.
Proof.
  intro db1.
  apply (refusals_write_nothing (D := Samples.sampleDeps)
           AuthHandlers.POST_verify_otp Samples.at3s (Samples.guessing "000000") db1).
  - discriminate.
  - vm_compute. reflexivity.
Defined.

Lemma forgotPassword_commits_before_mail_witness :
  AuthHandlers.forgotPassword (D := Samples.noMailDeps) Samples.at2s
    (Samples.forgetting "admin@school.edu") Samples.db0
  = (AuthHandlers.NextError
       (PlainError "Email service is not configured in production"),
     Prisma.set_passwordResetOtps Samples.db0
       (otpsAfterIssue (D := Samples.noMailDeps) Samples.at2s "admin@school.edu"
                       Samples.db0))
  /\ Prisma.passwordResetOtp_findFirst_desc
       (fun o => (otp_email o =? toLowerCase "admin@school.edu")%string
                 && is_null (otp_usedAt o))
       (Prisma.set_passwordResetOtps Samples.db0
          (otpsAfterIssue (D := Samples.noMailDeps) Samples.at2s
                          "admin@school.edu" Samples.db0))
     = Some (issuedOtp (D := Samples.noMailDeps) Samples.at2s "admin@school.edu").
Proof.
  apply (forgotPassword_commits_before_mail (D := Samples.noMailDeps) Samples.at2s
           (Samples.forgetting "admin@school.edu") Samples.db0 "admin@school.edu"
           Samples.admin);
    try reflexivity.
  - intros [].
  - right. repeat split.
Defined.

Lemma forgot_then_verify_witness :
  let db1 := snd (AuthHandlers.forgotPassword (D := Samples.sampleDeps)
                    Samples.at2s (Samples.forgetting "admin@school.edu")
                    Samples.db0) in
  succeeded (fst (AuthHandlers.verifyOtp (D := Samples.sampleDeps) Samples.at3s
                    Samples.verifying db1)) = true
  /\ no_unused "admin@school.edu"
       (snd (AuthHandlers.verifyOtp (D := Samples.sampleDeps) Samples.at3s
               Samples.verifying db1)).
Proof.
  intro db1.
  destruct (forgot_then_verify (D := Samples.sampleDeps) Samples.at2s Samples.at3s
              (Samples.forgetting "admin@school.edu") Samples.verifying Samples.db0
              "admin@school.edu" "Admin@School.edu" Samples.admin)
    as [H1 H2]; try reflexivity.
  - intros [].
  - fold db1 in H1, H2. rewrite H1. split; [reflexivity | exact H2].
Defined.

Lemma resetPassword_uses_up_codes_witness :
  let db1 := snd (AuthHandlers.forgotPassword (D := Samples.sampleDeps)
                    Samples.at2s (Samples.forgetting "admin@school.edu")
                    Samples.db0) in
  let db2 := snd (AuthHandlers.resetPassword (D := Samples.sampleDeps)
                    Samples.at3s Samples.resetting db1) in
  AuthHandlers.verifyOtp (D := Samples.sampleDeps) Samples.at3s Samples.verifying db2
  = (AuthHandlers.Responded (failure 400 "INVALID_OTP" "Invalid or expired OTP"),
     db2).
Proof.
  intros db1 db2.
  eassert (E : AuthHandlers.resetPassword (D := Samples.sampleDeps) Samples.at3s
                 Samples.resetting db1
               = (AuthHandlers.Responded _, _)) by (vm_compute; reflexivity).
  destruct (resetPassword_uses_up_codes (D := Samples.sampleDeps) _ _ _ _ _ E
              eq_refl) as (tok & pw & decoded & address & Hp & Hv & Ha & _ & H).
  vm_compute in Hp. injection Hp as <- <-.
  vm_compute in Hv. injection Hv as <-.
  vm_compute in Ha. injection Ha as <-.
  subst db2. rewrite E.
  apply (H [] Samples.at3s Samples.verifying "Admin@School.edu" "123456");
    [intros r c req [] | reflexivity | reflexivity].
Defined.

Lemma resetPassword_token_not_consumed_witness :
  succeeded
    (fst (AuthHandlers.resetPassword (D := Samples.sampleDeps) Samples.at3s
            Samples.resetting
            (snd (AuthHandlers.resetPassword (D := Samples.sampleDeps) Samples.at2s
                    Samples.resetting Samples.db0)))) = true.
Proof.
  eassert (E : AuthHandlers.resetPassword (D := Samples.sampleDeps) Samples.at2s
                 Samples.resetting Samples.db0
               = (AuthHandlers.Responded _, _)) by (vm_compute; reflexivity).
  rewrite E.
  apply (resetPassword_token_not_consumed (D := Samples.sampleDeps) Samples.at2s
           Samples.at3s Samples.resetting Samples.db0 _ _ E eq_refl).
  intros tok pw _. reflexivity.
Defined.

(** ** Password policy *)

Section PolicyFacts.
Context {D : Deps}.
Import Prisma AuthHandlers.

Lemma newPasswordSchema_iff (v : jsval) (s : string) :
  newPasswordSchema v = Ok s <-> v = JStr s /\ strongPassword s = true.
Proof.
  unfold newPasswordSchema, strongPassword, bind, z_string, z_min, z_regex, zfail.
  split.
  - destruct v; try discriminate.
    destruct (8 <=? String.length s0)%nat eqn:E1; [| discriminate].
    destruct (string_exists isUpper s0) eqn:E2; [| discriminate].
    destruct (string_exists isLower s0) eqn:E3; [| discriminate].
    destruct (string_exists isDigit s0) eqn:E4; [| discriminate].
    destruct (string_exists
                (fun c => negb (isUpper c || isLower c || isDigit c)) s0) eqn:E5;
      [| discriminate].
    intros H. injection H as H. subst s0. now rewrite E1, E2, E3, E4, E5.
  - intros [-> H].
    repeat (apply andb_prop in H as [H ?]).
    now repeat match goal with Hx : _ = true |- _ => rewrite Hx; clear Hx end.
Qed.

Lemma resetPasswordSchema_strong (b : jsval) (tok pw : string) :
  resetPasswordSchema b = Ok (tok, pw) -> strongPassword pw = true.
Proof.
  unfold resetPasswordSchema, bind.
  destruct (z_object b) as [o |]; [| discriminate].
  destruct (z_string (get "resetToken" o)) as [t |]; [| discriminate].
  destruct (z_min 1 t); [| discriminate].
  destruct (newPasswordSchema (get "newPassword" o)) as [p |] eqn:E;
    [| discriminate].
  intros [= _ <-]. exact (proj2 (proj1 (newPasswordSchema_iff _ _) E)).
Qed.

Lemma changePasswordSchema_strong (b : jsval) (cur pw : string) :
  changePasswordSchema b = Ok (cur, pw) -> strongPassword pw = true.
Proof.
  unfold changePasswordSchema, bind.
  destruct (z_object b) as [o |]; [| discriminate].
  destruct (z_string (get "currentPassword" o)) as [t |]; [| discriminate].
  destruct (z_min 6 t); [| discriminate].
  destruct (newPasswordSchema (get "newPassword" o)) as [p |] eqn:E;
    [| discriminate].
  intros [= _ <-]. exact (proj2 (proj1 (newPasswordSchema_iff _ _) E)).
Qed.

(** The accepted passwords are the two fields of the body. *)
Lemma changePasswordSchema_fields (b : jsval) (cur pw : string) :
  changePasswordSchema b = Ok (cur, pw) ->
  get "currentPassword" b = JStr cur /\ get "newPassword" b = JStr pw.
Proof.
  unfold changePasswordSchema, bind.
  destruct (z_object b) as [o |] eqn:Eo; [| discriminate].
  assert (o = b) by (unfold z_object, zfail in Eo; destruct b; congruence).
  subst o.
  destruct (z_string (get "currentPassword" b)) as [t |] eqn:Et; [| discriminate].
  destruct (z_min 6 t) as [t' |] eqn:Em; [| discriminate].
  destruct (newPasswordSchema (get "newPassword" b)) as [p |] eqn:E;
    [| discriminate].
  intros [= <- <-]. split.
  - unfold z_min in Em. destruct (6 <=? String.length t)%nat; [| discriminate].
    injection Em as <-.
    unfold z_string, zfail in Et.
    destruct (get "currentPassword" b); congruence.
  - exact (proj1 (proj1 (newPasswordSchema_iff _ _) E)).
Qed.

Lemma changePassword_success_inv (c : Ctx) (req : Req) (db db' : Db)
      (r : Response) :
  changePassword c req db = (Responded r, db') -> status r = 200 ->
  exists cur pw u,
    get "sub" (user req) = JStr (user_id u)
    /\ changePasswordSchema (body req) = Ok (cur, pw)
    /\ user_findUnique_id (user_id u) db = Some u
    /\ user_isActive u = true
    /\ bcrypt_compare cur (user_passwordHash u) = true
    /\ bcrypt_compare pw (user_passwordHash u) = false
    /\ db' = passwordChanged c u (bcrypt_hash pw (genSalt c)) db.
Proof.
  unfold changePassword. intros H Hst.
  destruct (get "sub" (user req)) as [| | | | userId |] eqn:Hsub;
    try (injection H as <- _; discriminate).
  destruct (userId =? "")%string; [injection H as <- _; discriminate |].
  destruct (changePasswordSchema (body req)) as [[cur pw] | e]; [| discriminate].
  destruct (user_findUnique_id userId db) as [u |] eqn:Hu;
    [| injection H as <- _; discriminate].
  destruct (user_isActive u) eqn:Ha; [| injection H as <- _; discriminate].
  simpl negb in H. cbv iota in H.
  destruct (bcrypt_compare cur (user_passwordHash u)) eqn:Hc;
    [| injection H as <- _; discriminate].
  simpl negb in H. cbv iota in H.
  destruct (bcrypt_compare pw (user_passwordHash u)) eqn:Hsame;
    [injection H as <- _; discriminate |].
  destruct (transaction _ db) as [d | e] eqn:Ht; [| discriminate].
  injection H as _ <-.
  apply transaction2_Ok in Ht as (d1 & H1 & H2).
  apply user_update_Ok in H1. subst d1.
  unfold refreshToken_updateMany in H2. injection H2 as <-.
  pose proof (find_key_some user_id userId (users db) u Hu) as [_ Hid].
  subst userId. exists cur, pw, u. repeat split; try assumption; reflexivity.
Qed.

(** X20.  [newPasswordSchema] accepts exactly the strings of at least eight
    characters with an upper-case letter, a lower-case letter, a digit and
    another character; so the hash change-password or reset-password stores
    is always the hash of such a password, and change-password never stores
    a password that bcrypt matches against the old hash. *)
Theorem stored_password_is_strong (c : Ctx) (req : Req) (db db' : Db)
        (r : Response) :
  (forall v s, newPasswordSchema v = Ok s <-> v = JStr s /\ strongPassword s = true)
  /\ (changePassword c req db = (Responded r, db') -> status r = 200 ->
      exists u pw,
        strongPassword pw = true
        /\ bcrypt_compare pw (user_passwordHash u) = false
        /\ user_findUnique_id (user_id u) db = Some u
        /\ user_findUnique_id (user_id u) db'
           = Some (setPasswordHash (bcrypt_hash pw (genSalt c)) u))
  /\ (resetPassword c req db = (Responded r, db') -> status r = 200 ->
      exists u pw,
        strongPassword pw = true
        /\ user_findUnique_id (user_id u) db = Some u
        /\ user_findUnique_id (user_id u) db'
           = Some (setPasswordHash (bcrypt_hash pw (genSalt c)) u)).
Proof.
  split; [exact newPasswordSchema_iff |]. split.
  - intros Hrun Hst.
    destruct (changePassword_success_inv c req db db' r Hrun Hst)
      as (cur & pw & u & _ & Hp & Hu & _ & _ & Hsame & ->).
    exists u, pw. split; [exact (changePasswordSchema_strong _ _ _ Hp) |].
    split; [exact Hsame |]. split; [exact Hu |].
    exact (proj1 (passwordChanged_effect c u _ db Hu)).
  - intros Hrun Hst.
    destruct (resetPassword_success_inv c req db db' r Hrun Hst)
      as (tok & pw & decoded & u & Hp & _ & _ & _ & Hu & _ & ->).
    exists u, pw. split; [exact (resetPasswordSchema_strong _ _ _ Hp) |].
    split; [exact Hu |].
    exact (proj1 (passwordChanged_effect c u _ db Hu)).
Qed.

End PolicyFacts.

Lemma stored_password_is_strong_witness :
  (AuthHandlers.newPasswordSchema (D := Samples.sampleDeps) (JStr "Better456?")
   = Ok "Better456?")
  /\ (exists u pw,
         strongPassword pw = true
         /\ bcrypt_compare (Deps := Samples.sampleDeps) pw (user_passwordHash u)
            = false
         /\ Prisma.user_findUnique_id (user_id u) Samples.db0 = Some u
         /\ Prisma.user_findUnique_id (user_id u)
              (snd (AuthHandlers.changePassword (D := Samples.sampleDeps)
                      Samples.at2s Samples.changing Samples.db0))
            = Some (AuthHandlers.setPasswordHash
                      (bcrypt_hash (Deps := Samples.sampleDeps) pw "salt") u))
  /\ (exists u pw,
         strongPassword pw = true
         /\ Prisma.user_findUnique_id (user_id u) Samples.db0 = Some u
         /\ Prisma.user_findUnique_id (user_id u)
              (snd (AuthHandlers.resetPassword (D := Samples.sampleDeps)
                      Samples.at2s Samples.resetting Samples.db0))
            = Some (AuthHandlers.setPasswordHash
                      (bcrypt_hash (Deps := Samples.sampleDeps) pw "salt") u)).
Proof.
  eassert (E1 : AuthHandlers.changePassword (D := Samples.sampleDeps) Samples.at2s
                  Samples.changing Samples.db0
                = (AuthHandlers.Responded _, _)) by (vm_compute; reflexivity).
  eassert (E2 : AuthHandlers.resetPassword (D := Samples.sampleDeps) Samples.at2s
                  Samples.resetting Samples.db0
                = (AuthHandlers.Responded _, _)) by (vm_compute; reflexivity).
  split; [| split].
  - apply (proj1 (stored_password_is_strong (D := Samples.sampleDeps) Samples.at2s
                    Samples.changing Samples.db0 Samples.db0
                    (success 200 JNull))).
    split; reflexivity.
  - rewrite E1.
    exact (proj1 (proj2 (stored_password_is_strong (D := Samples.sampleDeps)
                           _ _ _ _ _)) E1 eq_refl).
  - rewrite E2.
    exact (proj2 (proj2 (stored_password_is_strong (D := Samples.sampleDeps)
                           _ _ _ _ _)) E2 eq_refl).
Defined.

(** ** The two routes behind the authenticator *)

Section ProtectedRouteFacts.
Context {D : Deps}.
Import Prisma AuthMiddleware AuthHandlers Routes.

Lemma behindAuth_200 (h : Handler) (headers : Request) (c : Ctx) (req : Req)
      (db db' : Db) (r : Response) :
  behindAuth h headers c req db = (Responded r, db') -> status r = 200 ->
  exists t payload,
    extractAccessToken headers = Some t
    /\ jwt_verify t (JWT_ACCESS_SECRET env) (now c) = Verified payload
    /\ get "tokenType" payload = JStr "access"
    /\ h c (mkReq (body req) payload) db = (Responded r, db').
Proof.
  unfold behindAuth. intros H Hst.
  destruct (auth headers (now c)) as [r' | payload] eqn:Ha.
  - injection H as <- _. destruct (auth_Respond_401 _ _ _ Ha) as [H401 _].
    rewrite H401 in Hst. discriminate.
  - destruct (auth_Next_inv _ _ _ Ha) as (t & He & Hv & Hk & _).
    now exists t, payload.
Qed.

(** X21.  [GET /auth/me] never writes, and when it answers 200 it describes
    the active account whose id is the subject of the access token that was
    verified, without the password hash. *)
Theorem me_route_sound (headers : Request) (c : Ctx) (req : Req) (db : Db) :
  snd (GET_auth_me headers c req db) = db
  /\ forall r, fst (GET_auth_me headers c req db) = Responded r ->
               status r = 200 ->
     exists t payload u,
       extractAccessToken headers = Some t
       /\ jwt_verify t (JWT_ACCESS_SECRET env) (now c) = Verified payload
       /\ get "sub" payload = JStr (user_id u)
       /\ user_findUnique_id (user_id u) db = Some u
       /\ user_isActive u = true
       /\ get "user" (get "data" (json r)) = toSafeUser u
       /\ get "passwordHash" (get "user" (get "data" (json r))) = JUndefined.
Proof.
  split.
  - unfold GET_auth_me, behindAuth.
    destruct (auth headers (now c)); [reflexivity | apply me_keeps].
  - intros r Hr Hst.
    destruct (GET_auth_me headers c req db) as [o db'] eqn:Hrun.
    simpl in Hr. subst o.
    destruct (behindAuth_200 me headers c req db db' r Hrun Hst)
      as (t & payload & He & Hv & _ & Hme).
    exists t, payload. unfold me in Hme. simpl user in Hme.
    destruct (get "sub" payload) as [| | | | userId |] eqn:Hsub;
      try (injection Hme as <- _; discriminate).
    destruct (userId =? "")%string; [injection Hme as <- _; discriminate |].
    destruct (user_findUnique_id userId db) as [u |] eqn:Hu;
      [| injection Hme as <- _; discriminate].
    destruct (user_isActive u) eqn:Ha; [| injection Hme as <- _; discriminate].
    simpl in Hme. injection Hme as <- _.
    pose proof (find_key_some user_id userId (users db) u Hu) as [_ Hid].
    subst userId. exists u. repeat split; assumption.
Qed.

(** X22.  [POST /auth/change-password] changes a password only for the
    account whose id is the subject of a verified access token: a request
    the authenticator refuses is answered by it and writes nothing; after a
    request answered 200 the stored hash of that account is the bcrypt hash
    of the [newPassword] of the body, the [currentPassword] of the body
    matched the hash stored before, and every other account and every
    one-time code are as they were. *)
Theorem change_password_route_sound (headers : Request) (c : Ctx) (req : Req)
        (db : Db) :
  (forall r, auth headers (now c) = Respond r ->
             POST_auth_change_password headers c req db = (Responded r, db))
  /\ forall r db',
       POST_auth_change_password headers c req db = (Responded r, db') ->
       status r = 200 ->
       exists t payload u cur pw u',
         extractAccessToken headers = Some t
         /\ jwt_verify t (JWT_ACCESS_SECRET env) (now c) = Verified payload
         /\ get "tokenType" payload = JStr "access"
         /\ get "sub" payload = JStr (user_id u)
         /\ user_findUnique_id (user_id u) db = Some u
         /\ get "currentPassword" (body req) = JStr cur
         /\ bcrypt_compare cur (user_passwordHash u) = true
         /\ get "newPassword" (body req) = JStr pw
         /\ user_findUnique_id (user_id u) db' = Some u'
         /\ user_passwordHash u' = bcrypt_hash pw (genSalt c)
         /\ standing u' = standing u
         /\ (forall x, In x (users db) -> user_id x <> user_id u ->
                       In x (users db'))
         /\ passwordResetOtps db' = passwordResetOtps db.
Proof.
  split.
  - intros r Ha. unfold POST_auth_change_password, behindAuth. now rewrite Ha.
  - intros r db' Hrun Hst.
    destruct (behindAuth_200 changePassword headers c req db db' r Hrun Hst)
      as (t & payload & He & Hv & Hk & Hcp).
    destruct (changePassword_success_inv c _ db db' r Hcp Hst)
      as (cur & pw & u & Hsub & Hp & Hu & _ & Hcur & _ & ->).
    simpl in Hsub, Hp.
    destruct (changePasswordSchema_fields _ _ _ Hp) as [Hfc Hfn].
    exists t, payload, u, cur, pw, (setPasswordHash (bcrypt_hash pw (genSalt c)) u).
    split; [exact He |]. split; [exact Hv |]. split; [exact Hk |].
    split; [exact Hsub |]. split; [exact Hu |]. split; [exact Hfc |].
    split; [exact Hcur |]. split; [exact Hfn |].
    split; [exact (proj1 (passwordChanged_effect c u _ db Hu)) |].
    split; [reflexivity |]. split; [reflexivity |]. split; [| reflexivity].
    intros x Hin Hne. simpl.
    pose proof (In_updateMany (fun y => (user_id y =? user_id u)%string)
                              (setPasswordHash (bcrypt_hash pw (genSalt c)))
                              _ _ Hin) as H.
    simpl in H. apply String.eqb_neq in Hne. now rewrite Hne in H.
Qed.

End ProtectedRouteFacts.

Lemma me_route_sound_witness :
  exists t payload u,
    AuthMiddleware.extractAccessToken (Samples.bearer "Bearer at-admin") = Some t
    /\ jwt_verify (Deps := Samples.gateDeps) t
         (JWT_ACCESS_SECRET (env (Deps := Samples.gateDeps))) 2000
       = Verified payload
    /\ get "sub" payload = JStr (user_id u)
    /\ Prisma.user_findUnique_id (user_id u) Samples.db0 = Some u
    /\ user_isActive u = true.
Proof.
  eassert (E : fst (Routes.GET_auth_me (D := Samples.gateDeps)
                      (Samples.bearer "Bearer at-admin") Samples.at2s
                      (AuthHandlers.mkReq JUndefined JUndefined) Samples.db0)
               = AuthHandlers.Responded _) by (vm_compute; reflexivity).
  destruct (me_route_sound (D := Samples.gateDeps)
              (Samples.bearer "Bearer at-admin") Samples.at2s
              (AuthHandlers.mkReq JUndefined JUndefined) Samples.db0) as [_ H].
  destruct (H _ E eq_refl) as (t & payload & u & H1 & H2 & H3 & H4 & H5 & _).
  now exists t, payload, u.
Defined.

Lemma change_password_route_sound_witness :
  Routes.POST_auth_change_password (D := Samples.gateDeps)
    (Samples.bearer "Bearer rt-7") Samples.at2s Samples.changing Samples.db0
  = (AuthHandlers.Responded
       (failure 401 "UNAUTHORIZED"
          "Refresh token cannot be used here. Send accessToken in Authorization header."),
     Samples.db0)
  /\ (let db' := snd (Routes.POST_auth_change_password (D := Samples.gateDeps)
                        (Samples.bearer "Bearer at-admin") Samples.at2s
                        Samples.changing Samples.db0) in
      In Samples.retired (users db')
      /\ exists u', Prisma.user_findUnique_id "u1" db' = Some u'
                    /\ user_passwordHash u' = "Better456?").
Proof.
  destruct (change_password_route_sound (D := Samples.gateDeps)
              (Samples.bearer "Bearer rt-7") Samples.at2s Samples.changing
              Samples.db0) as [H1 _].
  destruct (change_password_route_sound (D := Samples.gateDeps)
              (Samples.bearer "Bearer at-admin") Samples.at2s Samples.changing
              Samples.db0) as [_ H2].
  split.
  - apply H1. reflexivity.
  - eassert (E : Routes.POST_auth_change_password (D := Samples.gateDeps)
                   (Samples.bearer "Bearer at-admin") Samples.at2s
                   Samples.changing Samples.db0
                 = (AuthHandlers.Responded _, _)) by (vm_compute; reflexivity).
    destruct (H2 _ _ E eq_refl)
      as (t & payload & u & cur & pw & u' & He & Hv & _ & Hsub & _ & _ & _
          & Hnew & Hfound & Hhash & _ & Hkeep & _).
    vm_compute in He. injection He as <-.
    vm_compute in Hv. injection Hv as <-.
    change (JStr "u1" = JStr (user_id u)) in Hsub. injection Hsub as Hsub.
    change (JStr "Better456?" = JStr pw) in Hnew. injection Hnew as Hnew.
    rewrite E. cbv zeta. split.
    + apply Hkeep; [right; now left |].
      rewrite <- Hsub. discriminate.
    + exists u'. rewrite <- Hsub in Hfound. split; [exact Hfound |].
      rewrite Hhash, <- Hnew. reflexivity.
Defined.


(** ** The response envelope *)

Section EnvelopeFacts.
Context {D : Deps}.
Import Prisma AuthHandlers.

Lemma enveloped_failure (st : Z) (code message : string) :
  In st [400; 401; 404; 409; 500] -> enveloped (failure st code message).
Proof. intros H. right. repeat split. exact H. Qed.

Lemma enveloped_success (data : jsval) : enveloped (success 200 data).
Proof. left. repeat split. Qed.

Lemma enveloped_zod (m : option string) : enveloped (errorHandler (ZodError m)).
Proof.
  simpl. apply enveloped_failure. simpl. tauto.
Qed.

Lemma enveloped_prisma (code : string) : enveloped (errorHandler (PrismaError code)).
Proof.
  simpl. destruct (code =? "P2002")%string; apply enveloped_failure; simpl; tauto.
Qed.

Lemma enveloped_plain (msg : string) : enveloped (errorHandler (PlainError msg)).
Proof. simpl. apply enveloped_failure. simpl. tauto. Qed.

Ltac zod_throw :=
  unfold bind, z_object, z_string, z_min, z_email, z_regex, zfail;
  repeat match goal with
         | |- context [match ?x with _ => _ end] =>
             lazymatch x with
             | context [match _ with _ => _ end] => fail
             | _ => destruct x
             end
         end;
  try discriminate; intros [= <-]; eexists; reflexivity.

Lemma loginSchema_throws (b : jsval) (e : Thrown) :
  loginSchema b = Throw e -> exists m, e = ZodError m.
Proof. unfold loginSchema. zod_throw. Qed.

Lemma refreshSchema_throws (b : jsval) (e : Thrown) :
  refreshSchema b = Throw e -> exists m, e = ZodError m.
Proof. unfold refreshSchema. zod_throw. Qed.

Lemma logoutSchema_throws (b : jsval) (e : Thrown) :
  logoutSchema b = Throw e -> exists m, e = ZodError m.
Proof. unfold logoutSchema. zod_throw. Qed.

Lemma forgotPasswordSchema_throws (b : jsval) (e : Thrown) :
  forgotPasswordSchema b = Throw e -> exists m, e = ZodError m.
Proof. unfold forgotPasswordSchema. zod_throw. Qed.

Lemma verifyOtpSchema_throws (b : jsval) (e : Thrown) :
  verifyOtpSchema b = Throw e -> exists m, e = ZodError m.
Proof. unfold verifyOtpSchema. zod_throw. Qed.

Lemma newPasswordSchema_throws (v : jsval) (e : Thrown) :
  newPasswordSchema v = Throw e -> exists m, e = ZodError m.
Proof. unfold newPasswordSchema. zod_throw. Qed.

Lemma resetPasswordSchema_throws (b : jsval) (e : Thrown) :
  resetPasswordSchema b = Throw e -> exists m, e = ZodError m.
Proof.
  unfold resetPasswordSchema, bind.
  destruct (z_object b) as [o |] eqn:Eo.
  - destruct (z_string (get "resetToken" o)) as [t |] eqn:Et.
    + destruct (z_min 1 t) as [t' |] eqn:Em.
      * destruct (newPasswordSchema (get "newPassword" o)) eqn:En;
          [discriminate |].
        intros [= <-]. exact (newPasswordSchema_throws _ _ En).
      * intros [= <-]. revert Em. zod_throw.
    + intros [= <-]. revert Et. zod_throw.
  - intros [= <-]. revert Eo. zod_throw.
Qed.

Lemma changePasswordSchema_throws (b : jsval) (e : Thrown) :
  changePasswordSchema b = Throw e -> exists m, e = ZodError m.
Proof.
  unfold changePasswordSchema, bind.
  destruct (z_object b) as [o |] eqn:Eo.
  - destruct (z_string (get "currentPassword" o)) as [t |] eqn:Et.
    + destruct (z_min 6 t) as [t' |] eqn:Em.
      * destruct (newPasswordSchema (get "newPassword" o)) eqn:En;
          [discriminate |].
        intros [= <-]. exact (newPasswordSchema_throws _ _ En).
      * intros [= <-]. revert Em. zod_throw.
    + intros [= <-]. revert Et. zod_throw.
  - intros [= <-]. revert Eo. zod_throw.
Qed.

Lemma update_throws {A} (p : A -> bool) (f : A -> A) (l : list A) (e : Thrown) :
  update p f l = Throw e -> e = PrismaError "P2025".
Proof. unfold update. destruct (existsb p l); [discriminate | now intros [= <-]]. Qed.

Lemma user_update_throws (id : string) (f : User -> User) :
  throws_prisma (user_update id f).
Proof.
  intros db e. unfold user_update, bind.
  destruct (update _ f (users db)) eqn:E; [discriminate |].
  intros [= <-]. apply update_throws in E. eauto.
Qed.

Lemma refreshToken_update_throws (id : string) (f : RefreshToken -> RefreshToken) :
  throws_prisma (refreshToken_update id f).
Proof.
  intros db e. unfold refreshToken_update, bind.
  destruct (update _ f (refreshTokens db)) eqn:E; [discriminate |].
  intros [= <-]. apply update_throws in E. eauto.
Qed.

Lemma passwordResetOtp_update_throws (id : string)
      (f : PasswordResetOtp -> PasswordResetOtp) :
  throws_prisma (passwordResetOtp_update id f).
Proof.
  intros db e. unfold passwordResetOtp_update, bind.
  destruct (update _ f (passwordResetOtps db)) eqn:E; [discriminate |].
  intros [= <-]. apply update_throws in E. eauto.
Qed.

Lemma refreshToken_create_throws (row : RefreshToken) :
  throws_prisma (refreshToken_create row).
Proof.
  intros db e. unfold refreshToken_create.
  destruct (_ || _); [intros [= <-]; eauto |].
  destruct (negb _); [intros [= <-]; eauto | discriminate].
Qed.

Lemma passwordResetOtp_create_throws (row : PasswordResetOtp) :
  throws_prisma (passwordResetOtp_create row).
Proof.
  intros db e. unfold passwordResetOtp_create.
  destruct (existsb _ _); [intros [= <-]; eauto | discriminate].
Qed.

Lemma refreshToken_updateMany_throws (p : RefreshToken -> bool)
      (f : RefreshToken -> RefreshToken) :
  throws_prisma (refreshToken_updateMany p f).
Proof. intros db e. discriminate. Qed.

Lemma passwordResetOtp_updateMany_throws (p : PasswordResetOtp -> bool)
      (f : PasswordResetOtp -> PasswordResetOtp) :
  throws_prisma (passwordResetOtp_updateMany p f).
Proof. intros db e. discriminate. Qed.

Lemma transaction_throws (ops : list (Db -> result Db)) :
  Forall throws_prisma ops -> throws_prisma (transaction ops).
Proof.
  induction 1 as [| op ops Hop _ IH]; intros db e; simpl; [discriminate |].
  unfold bind. destruct (op db) as [d |] eqn:E.
  - apply IH.
  - intros [= <-]. exact (Hop db _ E).
Qed.

Ltac answered :=
  simpl fst; simpl reply;
  first [ apply enveloped_success
        | apply enveloped_failure; simpl; tauto ].

Ltac zod_error H lemma :=
  simpl fst; simpl reply;
  let m := fresh "m" in
  destruct (lemma _ _ H) as [m ->]; apply enveloped_zod.

Ltac prisma_error H :=
  simpl fst; simpl reply;
  let code := fresh "code" in
  apply transaction_throws in H;
  [ destruct H as [code ->]; apply enveloped_prisma
  | repeat (apply Forall_cons;
            [ first [ apply user_update_throws | apply refreshToken_update_throws
                    | apply refreshToken_create_throws
                    | apply refreshToken_updateMany_throws
                    | apply passwordResetOtp_updateMany_throws
                    | apply passwordResetOtp_create_throws ] | ]);
    apply Forall_nil ].

Lemma login_enveloped (c : Ctx) (req : Req) (db : Db) :
  enveloped (reply (fst (login c req db))).
Proof.
  unfold login.
  destruct (loginSchema (body req)) as [[email password] | e] eqn:Hp;
    [| zod_error Hp loginSchema_throws].
  destruct (user_findUnique_email _ db) as [u |]; [| answered].
  destruct (negb (user_isActive u)); [answered |].
  destruct (negb (bcrypt_compare password (user_passwordHash u))); [answered |].
  destruct (transaction _ db) as [db' | e] eqn:Ht; [answered | prisma_error Ht].
Qed.

Lemma refresh_enveloped (c : Ctx) (req : Req) (db : Db) :
  enveloped (reply (fst (refresh c req db))).
Proof.
  unfold refresh.
  destruct (refreshSchema (body req)) as [tok | e] eqn:Hp;
    [| zod_error Hp refreshSchema_throws].
  destruct (jwt_verify tok _ _) as [decoded | n]; [| answered].
  destruct (negb (truthy decoded) || _ || _ || _); [answered |].
  destruct (refreshToken_findUnique_tokenHash _ db) as [stored |]; [| answered].
  destruct (negb (is_null (rt_revokedAt stored))); [answered |].
  destruct (rt_expiresAt stored <? now c); [answered |].
  destruct (user_findUnique_id _ db) as [u |]; [| answered].
  destruct (negb (user_isActive u)); [answered |].
  destruct (transaction _ db) as [db' | e] eqn:Ht; [answered | prisma_error Ht].
Qed.

Lemma logout_enveloped (c : Ctx) (req : Req) (db : Db) :
  enveloped (reply (fst (logout c req db))).
Proof.
  unfold logout, refreshToken_updateMany.
  destruct (logoutSchema _) as [[tok |] | e] eqn:Hp;
    [answered | answered | zod_error Hp logoutSchema_throws].
Qed.

Lemma me_enveloped (c : Ctx) (req : Req) (db : Db) :
  enveloped (reply (fst (me c req db))).
Proof.
  unfold me.
  destruct (get "sub" (user req)) as [| | | | userId |]; try answered.
  destruct (userId =? "")%string; [answered |].
  destruct (user_findUnique_id userId db) as [u |]; [| answered].
  destruct (negb (user_isActive u)); answered.
Qed.

Lemma verifyOtp_enveloped (c : Ctx) (req : Req) (db : Db) :
  enveloped (reply (fst (verifyOtp c req db))).
Proof.
  unfold verifyOtp.
  destruct (verifyOtpSchema (body req)) as [[email otp] | e] eqn:Hp;
    [| zod_error Hp verifyOtpSchema_throws].
  destruct (passwordResetOtp_findFirst_desc _ db) as [record |]; [| answered].
  destruct (otp_expiresAt record <=? now c); [answered |].
  destruct (negb (bcrypt_compare otp (otp_otpHash record))); [answered |].
  destruct (user_findUnique_email _ db) as [u |]; [| answered].
  destruct (negb (user_isActive u)); [answered |].
  destruct (passwordResetOtp_update _ _ db) as [db' | e] eqn:Ht; [answered |].
  simpl fst. simpl reply.
  destruct (passwordResetOtp_update_throws _ _ _ _ Ht) as [code ->].
  apply enveloped_prisma.
Qed.

Lemma resetPassword_enveloped (c : Ctx) (req : Req) (db : Db) :
  enveloped (reply (fst (resetPassword c req db))).
Proof.
  unfold resetPassword.
  destruct (resetPasswordSchema (body req)) as [[tok pw] | e] eqn:Hp;
    [| zod_error Hp resetPasswordSchema_throws].
  destruct (jwt_verify tok _ _) as [decoded | n]; [| answered].
  destruct (negb (truthy decoded) || _ || _ || _ || _); [answered |].
  destruct (get "sub" decoded) as [| | | | sub |]; try answered.
  destruct (user_findUnique_id sub db) as [u |]; [| answered].
  destruct (negb (user_isActive u) || _); [answered |].
  destruct (transaction _ db) as [db' | e] eqn:Ht; [answered | prisma_error Ht].
Qed.

Lemma changePassword_enveloped (c : Ctx) (req : Req) (db : Db) :
  enveloped (reply (fst (changePassword c req db))).
Proof.
  unfold changePassword.
  destruct (get "sub" (user req)) as [| | | | userId |]; try answered.
  destruct (userId =? "")%string; [answered |].
  destruct (changePasswordSchema (body req)) as [[cur pw] | e] eqn:Hp;
    [| zod_error Hp changePasswordSchema_throws].
  destruct (user_findUnique_id userId db) as [u |]; [| answered].
  destruct (negb (user_isActive u)); [answered |].
  destruct (negb (bcrypt_compare cur (user_passwordHash u))); [answered |].
  destruct (bcrypt_compare pw (user_passwordHash u)); [answered |].
  destruct (transaction _ db) as [db' | e] eqn:Ht; [answered | prisma_error Ht].
Qed.

Lemma forgotPassword_enveloped (c : Ctx) (req : Req) (db : Db) :
  mailer_throws_plain -> enveloped (reply (fst (forgotPassword c req db))).
Proof.
  intros Hmail. unfold forgotPassword.
  destruct (forgotPasswordSchema (body req)) as [email | e] eqn:Hp;
    [| zod_error Hp forgotPasswordSchema_throws].
  destruct (user_findUnique_email _ db) as [u |]; [| answered].
  destruct (negb (user_isActive u)); [answered |].
  destruct (transaction _ db) as [db' | e] eqn:Ht; [| prisma_error Ht].
  destruct isMailerConfigured.
  - destruct (sendPasswordResetOtpEmail _ _ _) as [[] | e] eqn:Hs; [answered |].
    simpl fst. simpl reply. destruct (Hmail _ _ _ _ Hs) as [msg ->].
    apply enveloped_plain.
  - destruct (NODE_ENV env =? "production")%string; [| answered].
    simpl fst. simpl reply.
    exact (enveloped_plain "Email service is not configured in production").
Qed.

Lemma auth_Respond_failure (headers : AuthMiddleware.Request) (now : Z)
      (r : Response) :
  AuthMiddleware.auth headers now = AuthMiddleware.Respond r ->
  exists code message, r = failure 401 code message.
Proof.
  unfold AuthMiddleware.auth. intros H.
  repeat match type of H with
         | context [match ?x with _ => _ end] => destruct x
         end;
    try discriminate; injection H as <-; eexists; eexists; reflexivity.
Qed.

Lemma behindAuth_enveloped (h : Handler) (headers : AuthMiddleware.Request)
      (c : Ctx) (req : Req) (db : Db) :
  (forall req', enveloped (reply (fst (h c req' db)))) ->
  enveloped (reply (fst (Routes.behindAuth h headers c req db))).
Proof.
  intros Hh. unfold Routes.behindAuth.
  destruct (AuthMiddleware.auth headers (now c)) as [r | payload] eqn:Ha.
  - destruct (auth_Respond_failure _ _ _ Ha) as (code & message & ->).
    apply enveloped_failure. simpl. tauto.
  - apply Hh.
Qed.

(** X23.  Provided the mailer fails with plain errors only, every answer the
    router of [auth.routes.js] gives, with the rate limiter in front of
    login and [auth] in front of me and change-password, is, once
    [errorHandler] has run: the limiter's 429 TOO_MANY_REQUESTS, on the
    login route for a client over the limit; and otherwise either status 200
    with [success: true] and no [error], or one of 400, 401, 404, 409, 500
    with [success: false], no [data], and an [error] with a string code and
    message. *)
Theorem auth_replies_enveloped (r : Route) (headers : AuthMiddleware.Request)
        (c : Ctx) (req : Req) (db : Db) :
  mailer_throws_plain ->
  let answer := reply (fst (Routes.authRoutes r headers c req db)) in
  (r = POST_login -> overLimit c = true ->
   answer = failure 429 "TOO_MANY_REQUESTS"
                    "Too many failed login attempts. Try again later.")
  /\ (r <> POST_login \/ overLimit c = false -> enveloped answer).
Proof.
  intros Hmail answer. subst answer. split.
  - intros -> Hover. simpl Routes.authRoutes.
    unfold POST_auth_login. now rewrite Hover.
  - intros Hr. destruct r; simpl Routes.authRoutes.
    + destruct Hr as [Hr | Hover]; [contradiction |].
      unfold POST_auth_login. rewrite Hover. apply login_enveloped.
    + apply refresh_enveloped.
    + apply logout_enveloped.
    + apply behindAuth_enveloped. intros req'. apply me_enveloped.
    + now apply forgotPassword_enveloped.
    + apply verifyOtp_enveloped.
    + apply resetPassword_enveloped.
    + apply behindAuth_enveloped. intros req'. apply changePassword_enveloped.
Qed.

End EnvelopeFacts.

Lemma auth_replies_enveloped_witness :
  enveloped
    (AuthHandlers.reply
       (fst (Routes.authRoutes (D := Samples.noMailDeps)
               AuthHandlers.POST_forgot_password (Samples.bearer "")
               Samples.at2s (Samples.forgetting "admin@school.edu") Samples.db0)))
  /\ enveloped
       (AuthHandlers.reply
          (fst (Routes.authRoutes (D := Samples.sampleDeps)
                  AuthHandlers.GET_me (Samples.bearer "Bearer rt-7") Samples.at2s
                  (AuthHandlers.mkReq JNull JUndefined) Samples.db0)))
  /\ status
       (AuthHandlers.reply
          (fst (Routes.authRoutes (D := Samples.sampleDeps)
                  AuthHandlers.POST_login (Samples.bearer "") Samples.throttled
                  (Samples.loggingIn "admin@school.edu" "Admin123!")
                  Samples.db0))) = 429.
Proof.
  assert (Hquiet : forall D0 : Deps,
             sendPasswordResetOtpEmail (Deps := D0) = (fun _ _ _ => Ok tt) ->
             mailer_throws_plain (D := D0)).
  { intros D0 E to otp minutes e H. rewrite E in H. discriminate H. }
  split; [| split].
  - apply (auth_replies_enveloped (D := Samples.noMailDeps));
      [exact (Hquiet Samples.noMailDeps eq_refl) | left; discriminate].
  - apply (auth_replies_enveloped (D := Samples.sampleDeps));
      [exact (Hquiet Samples.sampleDeps eq_refl) | left; discriminate].
  - destruct (auth_replies_enveloped (D := Samples.sampleDeps)
                AuthHandlers.POST_login (Samples.bearer "") Samples.throttled
                (Samples.loggingIn "admin@school.edu" "Admin123!") Samples.db0
                (Hquiet Samples.sampleDeps eq_refl)) as [H _].
    rewrite (H eq_refl eq_refl). reflexivity.
Defined.

(** ** What [/auth] traffic never does *)

Section TrafficFacts.
Context {D : Deps}.
Import Prisma AuthHandlers.

Lemma evolves_keeps_entry (l l' : list RefreshToken) (e : RefreshToken) :
  ledger_evolves l l' -> In e l ->
  exists e', In e' l'
             /\ rt_id e' = rt_id e /\ rt_tokenHash e' = rt_tokenHash e
             /\ rt_userId e' = rt_userId e /\ rt_expiresAt e' = rt_expiresAt e
             /\ rt_createdAt e' = rt_createdAt e
             /\ (rt_revokedAt e <> None -> rt_revokedAt e' <> None).
Proof.
  intros (p & at_ & extra & -> & _) Hin.
  exists (if p e then revoke at_ e else e). split.
  - apply in_or_app. left. now apply In_updateMany.
  - destruct (p e); simpl; repeat split; trivial. discriminate.
Qed.

(** X24.  The refresh-token ledger is append-only under [/auth] traffic: an
    entry is never deleted, its id, hash, owner, expiry and creation time
    never change, and once revoked it stays revoked; the ledger never gets
    shorter. *)
Theorem ledger_append_only (calls : list (Route * Ctx * Req)) (db : Db)
        (e : RefreshToken) :
  In e (refreshTokens db) ->
  (exists e', In e' (refreshTokens (serve calls db))
              /\ rt_id e' = rt_id e /\ rt_tokenHash e' = rt_tokenHash e
              /\ rt_userId e' = rt_userId e /\ rt_expiresAt e' = rt_expiresAt e
              /\ rt_createdAt e' = rt_createdAt e
              /\ (rt_revokedAt e <> None -> rt_revokedAt e' <> None))
  /\ (List.length (refreshTokens db)
      <= List.length (refreshTokens (serve calls db)))%nat.
Proof.
  revert db e. induction calls as [| [[r c] req] calls IH]; intros db e Hin.
  - simpl. split; [| apply Nat.le_refl].
    exists e. repeat split; trivial.
  - simpl. pose proof (handle_evolves r c req db) as Hev.
    destruct (evolves_keeps_entry _ _ e Hev Hin)
      as (e1 & Hin1 & Hid & Hh & Hu & Hx & Hc & Hr).
    destruct (IH _ e1 Hin1) as [(e2 & Hin2 & Hid2 & Hh2 & Hu2 & Hx2 & Hc2 & Hr2) Hlen].
    split.
    + exists e2. repeat split; try congruence. auto.
    + eapply Nat.le_trans; [| exact Hlen].
      destruct Hev as (p & at_ & extra & -> & _).
      rewrite length_app. unfold updateMany. rewrite length_map.
      apply Nat.le_add_r.
Qed.

Lemma handle_users (r : Route) (c : Ctx) (req : Req) (db : Db) :
  map standing (users (snd (handle r c req db))) = map standing (users db).
Proof.
  destruct r; simpl handle.
  - destruct (POST_auth_login_cases c req db) as [-> | ->]; [| reflexivity].
    destruct (login_cases c req db)
      as [[_ ->] | (e & pw & u & _ & _ & _ & _ & _ & _ & ->)]; [reflexivity |].
    simpl. now apply updateMany_keeps.
  - destruct (refresh_cases c req db)
      as [[_ ->] | (tok & st & u & _ & _ & _ & ->)]; reflexivity.
  - unfold logout, refreshToken_updateMany.
    destruct (logoutSchema _) as [[tok |] | e]; reflexivity.
  - now rewrite me_keeps.
  - destruct (forgotPassword_cases c req db)
      as [-> | (e & u & _ & _ & _ & _ & ->)]; reflexivity.
  - destruct (verifyOtp_cases c req db)
      as [[_ ->] | (e & o & rec & u & _ & _ & _ & _ & _ & _ & ->)]; reflexivity.
  - destruct (resetPassword_cases c req db)
      as [[_ ->] | (u & pw & tok & dec & _ & _ & _ & _ & ->)]; [reflexivity |].
    simpl. now apply updateMany_keeps.
  - destruct (changePassword_cases c req db)
      as [[_ ->] | (u & pw & _ & _ & ->)]; [reflexivity |].
    simpl. now apply updateMany_keeps.
Qed.

(** X25.  No sequence of [/auth] requests creates or deletes an account, or
    changes an account's id, tenant, branch, name, address, role or active
    flag: the session flows write the last-login time and the password hash
    only. *)
Theorem accounts_stand (calls : list (Route * Ctx * Req)) (db : Db) :
  map standing (users (serve calls db)) = map standing (users db).
Proof.
  revert db. induction calls as [| [[r c] req] calls IH]; intros db; simpl.
  - reflexivity.
  - rewrite IH. apply handle_users.
Qed.

End TrafficFacts.

Lemma ledger_append_only_witness :
  exists e', In e' (refreshTokens
                      (AuthHandlers.serve (D := Samples.sampleDeps)
                         [(AuthHandlers.POST_refresh, Samples.at2s,
                           Samples.presenting "rt-1");
                          (AuthHandlers.POST_logout, Samples.at3s,
                           Samples.presenting "rt-2")] Samples.db0))
             /\ rt_id e' = "row-1" /\ rt_tokenHash e' = "h:rt-1".
Proof.
  destruct (ledger_append_only (D := Samples.sampleDeps)
              [(AuthHandlers.POST_refresh, Samples.at2s, Samples.presenting "rt-1");
               (AuthHandlers.POST_logout, Samples.at3s, Samples.presenting "rt-2")]
              Samples.db0 Samples.live1 (or_introl eq_refl))
    as [(e' & Hin & Hid & Hh & _) _].
  now exists e'.
Defined.
